(** * Sungrow register-table compiler: metric catalog and register catalog

    A shallow embedding of [tools/modbus-discovery/build_modbus_definitions.py]
    and [tools/modbus-discovery/build_register_defaults.py], with the
    properties of the two generated catalogs proved over it.

    Python text is a sequence of Unicode code points, and two characters
    outside ASCII matter to the program (the ohm and degree-Celsius signs of
    the unit table), so a [str] is a list of code points.  The interpreter's
    own text primitives (case mapping, white space, [int], [float]) depend on
    the Unicode character database of the interpreter at hand; they are the
    fields of the class [PyBuiltins], constrained only on the characters the
    program itself names. *)

From Stdlib Require Import List ZArith Lia Bool String Ascii.
From Stdlib Require Import Sorting.Sorted Sorting.Permutation.
Import ListNotations.
Open Scope Z_scope.

Set Implicit Arguments.

(** ** Text *)

Definition str := list Z.

(** A source literal written in ASCII. *)
Definition lit (s : string) : str :=
  map (fun a => Z.of_nat (nat_of_ascii a)) (list_ascii_of_string s).

Fixpoint str_eqb (a b : str) : bool :=
  match a, b with
  | [], [] => true
  | x :: a', y :: b' => (x =? y) && str_eqb a' b'
  | _, _ => false
  end.

(** [a < b] on text: lexicographic on code points. *)
Fixpoint str_ltb (a b : str) : bool :=
  match a, b with
  | _, [] => false
  | [], _ :: _ => true
  | x :: a', y :: b' => (x <? y) || ((x =? y) && str_ltb a' b')
  end.

Definition is_ascii (c : Z) : bool := (0 <=? c) && (c <? 128).

Definition in_range (lo hi c : Z) : bool := (lo <=? c) && (c <=? hi).

Definition ascii_lower (c : Z) : Z := if in_range 65 90 c then c + 32 else c.
Definition ascii_upper (c : Z) : Z := if in_range 97 122 c then c - 32 else c.
Definition ascii_is_alpha (c : Z) : bool := in_range 65 90 c || in_range 97 122 c.
Definition ascii_is_digit (c : Z) : bool := in_range 48 57 c.
(** White space below 128: TAB LF VT FF CR, FS GS RS US, and the space. *)
Definition ascii_is_space (c : Z) : bool := in_range 9 13 c || in_range 28 32 c.

(** Value of a run of ASCII digits, most significant first. *)
Definition digits_value (ds : str) : Z :=
  fold_left (fun acc d => 10 * acc + (d - 48)) ds 0.

Definition GREEK_CAPITAL_OMEGA : Z := 937.   (* U+03A9 *)
Definition GREEK_SMALL_OMEGA : Z := 969.     (* U+03C9 *)
Definition GREEK_CAPITAL_SIGMA : Z := 931.   (* U+03A3 *)
Definition GREEK_SMALL_FINAL_SIGMA : Z := 962. (* U+03C2 *)
Definition GREEK_SMALL_SIGMA : Z := 963.     (* U+03C3 *)
Definition DEGREE_CELSIUS : Z := 8451.       (* U+2103 *)
Definition EN_DASH : Z := 8211.              (* U+2013 *)
Definition EM_DASH : Z := 8212.              (* U+2014 *)

(** ** The interpreter's text primitives

    The per-character tables of the Unicode database and the two number
    parsers.  The laws say what every interpreter does on ASCII and on the
    capital omega; nothing is claimed about other characters. *)
Class PyBuiltins : Type := {
  to_lower_full : Z -> str;
  to_upper_full : Z -> str;
  to_title_full : Z -> str;
  is_cased : Z -> bool;
  is_case_ignorable : Z -> bool;
  is_space : Z -> bool;
  (** [int(s)]: [None] stands for [ValueError]. *)
  int_of_str : str -> option Z;
  (** whether [float(s)] returns rather than raising [ValueError] *)
  float_accepts : str -> bool;

  to_lower_full_ascii :
    forall c, is_ascii c = true -> to_lower_full c = [ascii_lower c];
  to_upper_full_ascii :
    forall c, is_ascii c = true -> to_upper_full c = [ascii_upper c];
  to_title_full_ascii :
    forall c, is_ascii c = true -> to_title_full c = [ascii_upper c];
  is_cased_ascii :
    forall c, is_ascii c = true -> is_cased c = ascii_is_alpha c;
  is_space_ascii :
    forall c, is_ascii c = true -> is_space c = ascii_is_space c;
  to_lower_full_omega :
    to_lower_full GREEK_CAPITAL_OMEGA = [GREEK_SMALL_OMEGA];
  to_lower_full_not_omega :
    forall c, ~ In GREEK_CAPITAL_OMEGA (to_lower_full c);
  int_of_str_empty : int_of_str [] = None;
  int_of_str_digits :
    forall ds, ds <> [] -> (List.length ds <= 640)%nat ->
      forallb ascii_is_digit ds = true ->
      int_of_str ds = Some (digits_value ds)
}.

(** ** String methods and the regular expressions of the source *)

Fixpoint lstrip_by (p : Z -> bool) (s : str) : str :=
  match s with
  | [] => []
  | c :: r => if p c then lstrip_by p r else s
  end.

Fixpoint rstrip_by (p : Z -> bool) (s : str) : str :=
  match s with
  | [] => []
  | c :: r =>
      match rstrip_by p r with
      | [] => if p c then [] else [c]
      | r' => c :: r'
      end
  end.

Definition strip_by (p : Z -> bool) (s : str) : str :=
  rstrip_by p (lstrip_by p s).

Definition mem_char (chars : str) (c : Z) : bool := existsb (Z.eqb c) chars.

(** [s.strip(chars)] *)
Definition strip_chars (chars s : str) : str := strip_by (mem_char chars) s.

(** [s.replace(old, new)] for a pattern [old] of one character, which is
    what every call in the two files passes. *)
Definition replace1 (old : Z) (new : str) (s : str) : str :=
  flat_map (fun c => if c =? old then new else [c]) s.

(** [re.sub("[class]", repl, s)]: every character of the class is replaced. *)
Definition re_sub_class (p : Z -> bool) (repl : str) (s : str) : str :=
  flat_map (fun c => if p c then repl else [c]) s.

(** [re.sub("[class]+", repl, s)]: every maximal run of the class is
    replaced once.  [in_run] records that the previous character belonged to
    the run being replaced. *)
Fixpoint re_sub_runs_from (p : Z -> bool) (repl : str) (in_run : bool) (s : str) : str :=
  match s with
  | [] => []
  | c :: r =>
      if p c
      then (if in_run then [] else repl) ++ re_sub_runs_from p repl true r
      else c :: re_sub_runs_from p repl false r
  end.

Definition re_sub_runs (p : Z -> bool) (repl : str) (s : str) : str :=
  re_sub_runs_from p repl false s.

(** [sub in s] *)
Fixpoint is_prefix (sub s : str) : bool :=
  match sub, s with
  | [], _ => true
  | x :: sub', y :: s' => (x =? y) && is_prefix sub' s'
  | _ :: _, [] => false
  end.

Fixpoint contains (sub s : str) : bool :=
  is_prefix sub s ||
  match s with
  | [] => false
  | _ :: r => contains sub r
  end.

Definition UNDERSCORE : Z := 95.
Definition NEWLINE : Z := 10.

(** [[a-z0-9]] and [[a-z0-9_]] *)
Definition is_lower_alnum (c : Z) : bool := in_range 97 122 c || in_range 48 57 c.
Definition is_id_char (c : Z) : bool := is_lower_alnum c || (c =? UNDERSCORE).

Section Builtins.
Context {U : PyBuiltins}.

Definition strip (s : str) : str := strip_by is_space s.

(** The capital sigma is the one character whose lower case depends on its
    neighbours: it is final when a cased character precedes it and none
    follows, case-ignorable characters skipped on both sides. *)
Definition handle_capital_sigma (before after : str) : Z :=
  let preceded :=
    match lstrip_by is_case_ignorable before with
    | [] => false
    | c :: _ => is_cased c
    end in
  let followed :=
    match lstrip_by is_case_ignorable after with
    | [] => false
    | c :: _ => is_cased c
    end in
  if preceded && negb followed then GREEK_SMALL_FINAL_SIGMA else GREEK_SMALL_SIGMA.

Definition lower_char (before : str) (c : Z) (after : str) : str :=
  if c =? GREEK_CAPITAL_SIGMA then [handle_capital_sigma before after]
  else to_lower_full c.

(** [before] holds the characters already passed, nearest first. *)
Fixpoint lower_from (before s : str) : str :=
  match s with
  | [] => []
  | c :: r => lower_char before c r ++ lower_from (c :: before) r
  end.

(** [s.lower()] *)
Definition lower (s : str) : str := lower_from [] s.

(** [s.upper()] *)
Definition upper (s : str) : str := flat_map to_upper_full s.

Fixpoint title_from (before : str) (previous_is_cased : bool) (s : str) : str :=
  match s with
  | [] => []
  | c :: r =>
      (if previous_is_cased then lower_char before c r else to_title_full c)
      ++ title_from (c :: before) (is_cased c) r
  end.

(** [s.title()] *)
Definition title (s : str) : str := title_from [] false s.

(** *** Identifier generators *)

(** build_modbus_definitions.py, [sanitise_metric_id] *)
Definition sanitise_metric_id (name : str) : str :=
  let metric_id :=
    replace1 45 (lit "_") (replace1 32 (lit "_") (lower (strip name))) in
  let metric_id := re_sub_class (fun c => negb (is_id_char c)) [] metric_id in
  let metric_id := strip_chars (lit "_") (re_sub_runs (Z.eqb UNDERSCORE) (lit "_") metric_id) in
  metric_id.

End Builtins.


(** ** Dictionaries

    A Python [dict] keeps its keys in insertion order, and the program reads
    that order (the first model of a metric, the order of the fallback
    table), so a dictionary is an association list in insertion order.
    Assigning to a key already present keeps the key's place. *)

Section Dict.
Variable V : Type.

Definition dict := list (str * V).

(** [d.get(k)] *)
Fixpoint dict_get (k : str) (d : dict) : option V :=
  match d with
  | [] => None
  | (k', v) :: r => if str_eqb k k' then Some v else dict_get k r
  end.

(** [k in d] *)
Definition dict_mem (k : str) (d : dict) : bool :=
  match dict_get k d with Some _ => true | None => false end.

(** [d[k] = v] *)
Fixpoint dict_set (k : str) (v : V) (d : dict) : dict :=
  match d with
  | [] => [(k, v)]
  | (k', v') :: r =>
      if str_eqb k k' then (k', v) :: r else (k', v') :: dict_set k v r
  end.

(** The dictionary after [d.setdefault(k, v)]; the call returns [d[k]] of it. *)
Definition dict_setdefault (k : str) (v : V) (d : dict) : dict :=
  if dict_mem k d then d else dict_set k v d.

(** In-place mutation of the object stored under [k]. *)
Fixpoint dict_update (k : str) (f : V -> V) (d : dict) : dict :=
  match d with
  | [] => []
  | (k', v) :: r =>
      if str_eqb k k' then (k', f v) :: r else (k', v) :: dict_update k f r
  end.

Definition dict_keys (d : dict) : list str := map fst d.
Definition dict_values (d : dict) : list V := map snd d.

End Dict.

(** ** Exceptions *)

Inductive exn : Type :=
| KeyError (key : str)
| AttributeError
| FileNotFoundError (path : str).

Inductive result (A : Type) : Type :=
| Ok (a : A)
| Raise (e : exn).

Arguments Ok {A} a.
Arguments Raise {A} e.

Definition bind {A B : Type} (r : result A) (k : A -> result B) : result B :=
  match r with
  | Ok a => k a
  | Raise e => Raise e
  end.

Notation "x <- r ;; k" := (bind r (fun x => k))
  (at level 61, r at next level, right associativity).

(** ** Rows

    A row of [csv.DictReader]: column name to field, where a field the line
    was too short to hold is [None].  A line longer than the header, whose
    surplus fields the reader keeps as a list under the key [None], is not a
    row of this model; nor is the reading of the file itself, which the
    programs leave to the [csv] module. *)
Definition row := dict (option str).

(** [row[k]] *)
Definition row_item (k : str) (r : row) : result (option str) :=
  match dict_get k r with
  | Some v => Ok v
  | None => Raise (KeyError k)
  end.

(** [row.get(k)] *)
Definition row_get (k : str) (r : row) : option str :=
  match dict_get k r with
  | Some v => v
  | None => None
  end.

(** [row.get(k, default)] *)
Definition row_get_default (k : str) (default : str) (r : row) : option str :=
  match dict_get k r with
  | Some v => v
  | None => Some default
  end.

(** The receiver of a [str] method: [None] has none. *)
Definition as_str (v : option str) : result str :=
  match v with
  | Some s => Ok s
  | None => Raise AttributeError
  end.

(** [x or None] on text *)
Definition or_none (s : str) : option str :=
  match s with [] => None | _ => Some s end.

(** The truth value of a field: [None] and the empty string are false. *)
Definition nonempty (v : option str) : option str :=
  match v with
  | Some ((_ :: _) as s) => Some s
  | _ => None
  end.

(** ** [sorted] and [list.sort]

    A stable sort by a key, compared with [<] only. *)
Section Sort.
Variables (A K : Type) (key : A -> K) (ltb : K -> K -> bool).

Fixpoint insert_by (x : A) (l : list A) : list A :=
  match l with
  | [] => [x]
  | y :: r => if ltb (key y) (key x) then y :: insert_by x r else x :: y :: r
  end.

Definition sorted_by (l : list A) : list A := fold_right insert_by [] l.

End Sort.

(** ** The metric catalog: build_modbus_definitions.py *)

(** A scale is a Python number.  A parsed one is kept as the text [float]
    was given, which determines it. *)
Inductive scale_value : Type :=
| Float_1_0                 (* the literal 1.0 *)
| Float_of (raw : str)      (* float(raw) *)
| Int_1                     (* the literal 1 *)
| Float_0_1.                (* the literal 0.1 *)

Record read_shape : Type := {
  r_function : str;
  r_words : Z;
  r_type : str;
  r_scale : scale_value
}.

Record tolerance : Type := {
  absolute_kwh : Z;
  relative : str            (* the float literal as written *)
}.

Record discovery_policy : Type := {
  d_method : str;
  d_prompt : option str;
  d_input_unit : option str;
  d_expected_range : option (Z * Z);
  d_tolerance_watts : option Z;
  d_tolerance : option tolerance
}.

(** One metric of the catalog.  [m_default] is the [register] entry of the
    [default] dictionary; [m_models] maps a model to the [register] entry of
    its dictionary, which both writers set as soon as they create it. *)
Record metric : Type := {
  m_id : str;
  m_name : str;
  m_unit : option str;
  m_category : option str;
  m_default : option Z;
  m_models : dict Z;
  m_read : read_shape;
  m_discovery : option discovery_policy
}.

Record csv_definition : Type := {
  family : str;
  model : str;
  path : str
}.

Definition CSV_DEFINITIONS : list csv_definition :=
  [ {| family := lit "String"; model := lit "SG50RS";
       path := lit "sungrow_string_v1.1.37.csv" |};
    {| family := lit "Hybrid"; model := lit "HYBRID";
       path := lit "sungrow_hybrid_v1.1.4.csv" |} ].

Definition NUMERIC_TYPES : dict (str * Z) :=
  [ (lit "U16", (lit "uint16", 1));
    (lit "S16", (lit "int16", 1));
    (lit "U32", (lit "uint32", 2));
    (lit "S32", (lit "int32", 2));
    (lit "U64", (lit "uint64", 4));
    (lit "IEEE754", (lit "float32", 2));
    (lit "FLOAT", (lit "float32", 2)) ].

Definition UNIT_CATEGORY : dict str :=
  [ (lit "v", lit "voltage");
    (lit "kv", lit "voltage");
    (lit "a", lit "current");
    (lit "ka", lit "current");
    (lit "hz", lit "frequency");
    (lit "kwh", lit "energy");
    (lit "wh", lit "energy");
    (lit "mwh", lit "energy");
    (lit "kw", lit "power");
    (lit "w", lit "power");
    (lit "kvar", lit "reactive_power");
    (lit "kvarh", lit "reactive_energy");
    (lit "kva", lit "apparent_power");
    (lit "percent", lit "percentage");
    (lit "%", lit "percentage");
    ([DEGREE_CELSIUS], lit "temperature");
    (lit "c", lit "temperature");
    (lit "k" ++ [GREEK_CAPITAL_OMEGA], lit "resistance");
    (lit "kohm", lit "resistance") ].

Definition method_only (m : str) : discovery_policy :=
  {| d_method := m; d_prompt := None; d_input_unit := None;
     d_expected_range := None; d_tolerance_watts := None; d_tolerance := None |}.

Definition DISCOVERY_BY_CATEGORY : dict discovery_policy :=
  [ (lit "power", method_only (lit "power"));
    (lit "energy", method_only (lit "energy"));
    (lit "voltage", method_only (lit "voltage"));
    (lit "current", method_only (lit "current"));
    (lit "frequency", method_only (lit "frequency")) ].

Definition SPECIAL_DISCOVERY : dict discovery_policy :=
  [ (lit "meter_power",
      {| d_method := lit "power";
         d_prompt := Some (lit "Meter Active Power (kW) [press Enter to skip]: ");
         d_input_unit := Some (lit "kW");
         d_expected_range := Some (-20000, 20000);
         d_tolerance_watts := Some 1500;
         d_tolerance := None |});
    (lit "grid_import_energy",
      {| d_method := lit "energy";
         d_prompt := Some (lit "Forward Active Energy (MWh) [press Enter to skip]: ");
         d_input_unit := Some (lit "MWh");
         d_expected_range := None;
         d_tolerance_watts := None;
         d_tolerance := Some {| absolute_kwh := 2; relative := lit "0.01" |} |});
    (lit "grid_export_energy",
      {| d_method := lit "energy";
         d_prompt := Some (lit "Reverse Active Energy (MWh) [press Enter to skip]: ");
         d_input_unit := Some (lit "MWh");
         d_expected_range := None;
         d_tolerance_watts := None;
         d_tolerance := Some {| absolute_kwh := 2; relative := lit "0.01" |} |}) ].

Definition FALLBACK_METRICS : dict (dict Z) :=
  [ (lit "meter_power", [(lit "SG50RS", 5600)]);
    (lit "grid_import_energy", [(lit "SG50RS", 5098)]);
    (lit "grid_export_energy", [(lit "SG50RS", 5094)]) ].

Fixpoint take_while (p : Z -> bool) (s : str) : str :=
  match s with
  | [] => []
  | c :: r => if p c then c :: take_while p r else []
  end.

(** The longest suffix of [s] made of characters of the class. *)
Definition trailing_run (p : Z -> bool) (s : str) : str :=
  rev (take_while p (rev s)).

(** [re.search("([class]+)$", s)]: the first place from which a non-empty
    run of the class reaches the end of the text, where [$] also stands
    before a newline that ends the text. *)
Definition re_search_run_at_end (p : Z -> bool) (s : str) : option str :=
  let body :=
    match rev s with
    | c :: r => if c =? NEWLINE then rev r else s
    | [] => s
    end in
  match trailing_run p body with
  | [] => None
  | m => Some m
  end.

(** [[a-zA-Z%] with the capital omega and the degree-Celsius sign] *)
Definition is_unit_char (c : Z) : bool :=
  ascii_is_alpha c || (c =? GREEK_CAPITAL_OMEGA) || (c =? 37) || (c =? DEGREE_CELSIUS).

Definition base_unit (unit : str) : str :=
  match unit with
  | [] => []
  | _ =>
      match re_search_run_at_end is_unit_char unit with
      | Some m => m
      | None => unit
      end
  end.

Definition set_model_register (model : str) (register : Z) (m : metric) : metric :=
  {| m_id := m_id m; m_name := m_name m; m_unit := m_unit m;
     m_category := m_category m; m_default := m_default m;
     m_models := dict_set model register (m_models m);
     m_read := m_read m; m_discovery := m_discovery m |}.

Record output : Type := {
  version : Z;
  metrics : list metric
}.

Section MetricCatalog.
Context {U : PyBuiltins}.

Definition classify_unit (unit : str) : option str :=
  let key := lower unit in
  dict_get key UNIT_CATEGORY.

(** Line 172: the register kind of a row, from its [register_type] field. *)
Definition read_function (register_type : str) : str :=
  if str_eqb (strip register_type) (lit "3X") then lit "input" else lit "holding".

(** Lines 144-151: the word length of a row. *)
Definition row_words (default_words register : Z) (address_end : option str) : Z :=
  match nonempty address_end with
  | Some address_end =>
      match int_of_str address_end with
      | Some e => Z.max default_words (e - register + 1)
      | None => default_words
      end
  | None => default_words
  end.

(** Lines 152-158: the scale of a row. *)
Definition row_scale (scale_raw : option str) : scale_value :=
  match nonempty scale_raw with
  | Some scale_raw => if float_accepts scale_raw then Float_of scale_raw else Float_1_0
  | None => Float_1_0
  end.

(** Lines 131-177 of the loop body: what one row contributes, which is
    nothing when the row is skipped: the identifier, the register, and the
    dictionary handed to [setdefault] (built whether or not it is used). *)
Definition read_row (row : row) : result (option (str * Z * metric)) :=
  data_type <- (v <- row_item (lit "data_type") row ;; as_str v) ;;
  let data_type := upper (strip data_type) in
  match dict_get data_type NUMERIC_TYPES with
  | None => Ok None
  | Some (type_name, default_words) =>
      let address_start := row_get (lit "address_start") row in
      let register :=
        match nonempty address_start with
        | Some address_start => int_of_str address_start
        | None => None
        end in
      match register with
      | None => Ok None
      | Some register =>
          name <- (v <- row_item (lit "name") row ;; as_str v) ;;
          let metric_id := sanitise_metric_id name in
          match metric_id with
          | [] => Ok None
          | _ =>
              let words := row_words default_words register (row_get (lit "address_end") row) in
              let scale_factor := row_scale (row_get (lit "scale_factor") row) in
              unit_raw <- as_str (row_get_default (lit "unit") [] row) ;;
              let unit_raw := strip unit_raw in
              let engineering_unit := base_unit unit_raw in
              let category :=
                match engineering_unit with
                | [] => None
                | _ => classify_unit engineering_unit
                end in
              register_type <- (v <- row_item (lit "register_type") row ;; as_str v) ;;
              Ok (Some (metric_id, register,
                {| m_id := metric_id;
                   m_name := strip name;
                   m_unit := or_none engineering_unit;
                   m_category := category;
                   m_default := None;
                   m_models := [];
                   m_read :=
                     {| r_function := read_function register_type;
                        r_words := words;
                        r_type := type_name;
                        r_scale := scale_factor |};
                   m_discovery := None |}))
          end
      end
  end.

(** Lines 162-179: [setdefault] on the identifier, then the register of the
    model is assigned in the metric stored there. *)
Definition store_row (model : str) (metrics : dict metric)
    (contribution : str * Z * metric) : dict metric :=
  let '(metric_id, register, fresh) := contribution in
  dict_update metric_id (set_model_register model register)
    (dict_setdefault metric_id fresh metrics).

Definition merge_row (model : str) (metrics : dict metric) (row : row)
    : result (dict metric) :=
  contribution <- read_row row ;;
  match contribution with
  | None => Ok metrics
  | Some c => Ok (store_row model metrics c)
  end.

Fixpoint merge_rows (model : str) (metrics : dict metric) (rows : list row)
    : result (dict metric) :=
  match rows with
  | [] => Ok metrics
  | row :: rest =>
      metrics <- merge_row model metrics row ;;
      merge_rows model metrics rest
  end.

(** The files on disk: the rows of the table at a path, when it exists. *)
Definition files := str -> option (list row).

(** Lines 125-179: the loop over the tables. *)
Fixpoint merge_tables (fs : files) (definitions : list csv_definition)
    (metrics : dict metric) : result (dict metric) :=
  match definitions with
  | [] => Ok metrics
  | definition :: rest =>
      match fs (path definition) with
      | None => Raise (FileNotFoundError (path definition))
      | Some rows =>
          metrics <- merge_rows (model definition) metrics rows ;;
          merge_tables fs rest metrics
      end
  end.

(** Lines 184-197: the metric a fallback entry creates. *)
Definition fallback_metric (metric_id : str) : metric :=
  let power := contains (lit "power") metric_id in
  let meter_power := str_eqb metric_id (lit "meter_power") in
  {| m_id := metric_id;
     m_name := title (replace1 UNDERSCORE (lit " ") metric_id);
     m_unit := Some (if power then lit "W" else lit "kWh");
     m_category := Some (if power then lit "power" else lit "energy");
     m_default := None;
     m_models := [];
     m_read :=
       {| r_function := lit "input";
          r_words := if meter_power then 1 else 2;
          r_type := if meter_power then lit "int16" else lit "uint32le";
          r_scale := if meter_power then Int_1 else Float_0_1 |};
     m_discovery := None |}.

(** Lines 181-200, one entry of the fallback table. *)
Definition apply_fallback (metrics : dict metric) (entry : str * dict Z) : dict metric :=
  let (metric_id, overrides) := entry in
  fold_left
    (fun metrics (o : str * Z) =>
       dict_update metric_id (set_model_register (fst o) (snd o)) metrics)
    overrides
    (dict_setdefault metric_id (fallback_metric metric_id) metrics).

Definition apply_fallbacks (metrics : dict metric) : dict metric :=
  fold_left apply_fallback FALLBACK_METRICS metrics.

(** Lines 202-217: the default register and the discovery policy.  A
    register is an integer wherever it is assigned (lines 179 and 200), so
    the [isinstance] test of line 207 holds whenever there is a model. *)
Definition finish_metric (m : metric) : metric :=
  let default :=
    match m_models m with
    | [] => m_default m
    | (_, register) :: _ => Some register
    end in
  let discovery :=
    match dict_get (m_id m) SPECIAL_DISCOVERY with
    | Some d => Some d
    | None =>
        match m_category m with
        | Some category => dict_get category DISCOVERY_BY_CATEGORY
        | None => None
        end
    end in
  {| m_id := m_id m; m_name := m_name m; m_unit := m_unit m;
     m_category := m_category m; m_default := default;
     m_models := m_models m; m_read := m_read m;
     m_discovery := match discovery with Some d => Some d | None => m_discovery m end |}.

Definition finish (metrics : dict metric) : dict metric :=
  map (fun kv => (fst kv, finish_metric (snd kv))) metrics.

Definition build_definitions (fs : files) : result output :=
  metrics <- merge_tables fs CSV_DEFINITIONS [] ;;
  let metrics := finish (apply_fallbacks metrics) in
  Ok {| version := 1;
        metrics := sorted_by m_id str_ltb (dict_values metrics) |}.

End MetricCatalog.

(** ** The register catalog: build_register_defaults.py *)

Module RegisterDefaults.

Record CsvDefinition : Type := {
  inverter_type : str;
  path : str
}.

Definition CSV_DEFINITIONS : list CsvDefinition :=
  [ {| inverter_type := lit "STRING"; path := lit "sungrow_string_v1.1.66.csv" |};
    {| inverter_type := lit "HYBRID"; path := lit "sungrow_hybrid_v1.1.4.csv" |} ].

Record register_entry : Type := {
  e_id : str;
  e_no : str;
  e_name : str;
  e_address : Z;
  e_length : Z;
  e_data_type : str;
  e_data_range : option str;
  e_unit : option str;
  e_scale_factor : scale_value;
  e_register_type : str;
  e_note : option str
}.

Record bucket : Type := {
  source_version : option str;
  registers : list register_entry
}.

(** The payload without [metadata.generated_at], the clock reading. *)
Record payload : Type := {
  metadata_source : dict str;
  inverter_types : dict bucket
}.

(** [(a1, l1) < (a2, l2)] on tuples of integers *)
Definition pair_ltb (a b : Z * Z) : bool :=
  (fst a <? fst b) || ((fst a =? fst b) && (snd a <? snd b)).

Definition sort_key (entry : register_entry) : Z * Z :=
  (e_address entry, e_length entry).

(** [x or y] on text: the empty string is false. *)
Definition str_or (x y : str) : str :=
  match x with
  | [] => y
  | _ => x
  end.

(** [v or y] where [v] is [None] or text *)
Definition opt_or (v : option str) (y : str) : str :=
  match v with
  | Some ((_ :: _) as s) => s
  | _ => y
  end.

(** [d.get(k, default)] *)
Definition dict_get_default (k : str) (default : str) (d : dict str) : str :=
  match dict_get k d with
  | Some s => s
  | None => default
  end.

Section WithBuiltins.
Context {U : PyBuiltins}.

Definition sanitize_key (value : str) : str :=
  replace1 37 (lit " percent ")
    (replace1 59 (lit " ")
      (replace1 58 (lit " ")
        (replace1 44 (lit " ")
          (replace1 46 (lit " ")
            (replace1 41 (lit " ")
              (replace1 40 (lit " ")
                (replace1 45 (lit " ")
                  (replace1 47 (lit " ")
                    (replace1 EM_DASH (lit "-")
                      (replace1 EN_DASH (lit "-")
                        (lower value))))))))))).

Definition slugify (value : str) : str :=
  let sanitized := sanitize_key value in
  let sanitized := re_sub_runs (fun c => negb (is_lower_alnum c)) (lit "_") sanitized in
  str_or (strip_chars (lit "_") sanitized) (lit "register").

Definition parse_float (value : option str) : scale_value :=
  match nonempty value with
  | None => Float_1_0
  | Some value => if float_accepts value then Float_of value else Float_1_0
  end.

(** [load_rows], one row: keys lower-cased, fields stripped, [None] read as
    the empty string; of two columns whose names agree once lower-cased the
    later one is kept. *)
Definition load_row (r : row) : dict str :=
  fold_left
    (fun d (kv : str * option str) =>
       dict_set (lower (fst kv)) (strip (opt_or (snd kv) [])) d)
    r [].

Definition register_kind_of (register_type : option str) : str :=
  let register_type := upper (opt_or register_type (lit "3X")) in
  if is_prefix (lit "4") register_type then lit "holding" else lit "input".

(** The body of the loop of [build_registers]: the list built so far and
    the source version seen so far. *)
Definition registers_step (st : list register_entry * str) (row : dict str)
    : list register_entry * str :=
  let (registers, source_version) := st in
  match nonempty (dict_get (lit "address_start") row) with
  | None => st
  | Some address_start =>
      match int_of_str address_start with
      | None => st
      | Some start =>
          let address_end := opt_or (dict_get (lit "address_end") row) address_start in
          let end_ :=
            match int_of_str address_end with
            | Some e => e
            | None => start
            end in
          let register_kind := register_kind_of (dict_get (lit "register_type") row) in
          let source_version :=
            match source_version with
            | [] => opt_or (dict_get (lit "source_version") row) []
            | _ => source_version
            end in
          (registers ++
             [ {| e_id := slugify (dict_get_default (lit "name") [] row);
                  e_no := dict_get_default (lit "no") [] row;
                  e_name := dict_get_default (lit "name") [] row;
                  e_address := start;
                  e_length := Z.max 1 (end_ - start + 1);
                  e_data_type := upper (opt_or (dict_get (lit "data_type") row) []);
                  e_data_range := nonempty (dict_get (lit "data_range") row);
                  e_unit := nonempty (dict_get (lit "unit") row);
                  e_scale_factor := parse_float (dict_get (lit "scale_factor") row);
                  e_register_type := register_kind;
                  e_note := nonempty (dict_get (lit "note") row) |} ],
           source_version)
      end
  end.

(** [build_registers] on the rows of the definition's table. *)
Definition build_registers (rows : list row) : bucket :=
  let (registers, source_version) :=
    fold_left registers_step (map load_row rows) ([], []) in
  {| source_version := or_none source_version;
     registers := sorted_by sort_key pair_ltb registers |}.

Fixpoint build_payload_from (fs : files) (definitions : list CsvDefinition)
    (p : payload) : result payload :=
  match definitions with
  | [] => Ok p
  | definition :: rest =>
      let source := dict_set (inverter_type definition) (path definition) (metadata_source p) in
      match fs (path definition) with
      | None => Raise (FileNotFoundError (path definition))
      | Some rows =>
          build_payload_from fs rest
            {| metadata_source := source;
               inverter_types :=
                 dict_set (inverter_type definition) (build_registers rows)
                   (inverter_types p) |}
      end
  end.

Definition build_payload (fs : files) : result payload :=
  build_payload_from fs CSV_DEFINITIONS
    {| metadata_source := []; inverter_types := [] |}.

End WithBuiltins.

End RegisterDefaults.

(** ** A reference interpreter

    The primitives of an interpreter that is exact on ASCII text, on the two
    omegas and on white space, and that takes every other character to have
    no case; its [int] reads an optionally signed run of ASCII digits and its
    [float] a plain decimal.  It is what the examples below run on. *)

Definition OHM_SIGN : Z := 8486.  (* U+2126 *)

Definition ref_to_lower_full (c : Z) : str :=
  if (c =? GREEK_CAPITAL_OMEGA) || (c =? OHM_SIGN) then [GREEK_SMALL_OMEGA]
  else [ascii_lower c].

Definition ref_to_upper_full (c : Z) : str :=
  if c =? GREEK_SMALL_OMEGA then [GREEK_CAPITAL_OMEGA] else [ascii_upper c].

Definition ref_to_title_full (c : Z) : str := ref_to_upper_full c.

Definition ref_is_cased (c : Z) : bool :=
  ascii_is_alpha c || (c =? GREEK_CAPITAL_OMEGA) || (c =? GREEK_SMALL_OMEGA)
  || (c =? OHM_SIGN).

(** Apostrophe, full stop, colon, circumflex and grave accent. *)
Definition ref_is_case_ignorable (c : Z) : bool :=
  mem_char [39; 46; 58; 94; 96] c.

Definition ref_is_space (c : Z) : bool :=
  ascii_is_space c
  || mem_char [133; 160; 5760; 8232; 8233; 8239; 8287; 12288] c
  || in_range 8192 8202 c.

(** White space as [int] and [float] skip it around an ASCII number. *)
Definition c_isspace (c : Z) : bool := in_range 9 13 c || (c =? 32).

Definition split_sign (s : str) : bool * str :=
  match s with
  | 45 :: r => (true, r)
  | 43 :: r => (false, r)
  | _ => (false, s)
  end.

Definition ref_int_of_str (s : str) : option Z :=
  let (negative, ds) := split_sign (strip_by c_isspace s) in
  match ds with
  | [] => None
  | _ =>
      if forallb ascii_is_digit ds && (List.length ds <=? 4300)%nat
      then Some (if negative then - digits_value ds else digits_value ds)
      else None
  end.

Definition ref_float_accepts (s : str) : bool :=
  let (_, body) := split_sign (strip_by c_isspace s) in
  let whole := take_while ascii_is_digit body in
  let rest := skipn (List.length whole) body in
  match rest with
  | [] => negb (Nat.eqb (List.length whole) 0)
  | 46 :: frac =>
      forallb ascii_is_digit frac
      && negb (Nat.eqb (List.length whole + List.length frac) 0)
  | _ => false
  end.

(** * Statements

    The predicates the properties are stated with, and the tables and rows
    the examples run on. *)

(** ** Shapes of text *)

(** The first character, if any, is outside the class. *)
Definition head_kept (p : Z -> bool) (s : str) : Prop :=
  match s with
  | [] => True
  | c :: _ => p c = false
  end.

(** A text is squeezed when every character of the class is [u] and no two
    of them are adjacent; [in_run] tells that one stands just before. *)
Fixpoint squeezed (p : Z -> bool) (u : Z) (in_run : bool) (s : str) : bool :=
  match s with
  | [] => true
  | c :: r =>
      if p c then negb in_run && (c =? u) && squeezed p u true r
      else squeezed p u false r
  end.

(** Made of the characters [[a-z0-9_]] only. *)
Definition id_text (s : str) : Prop := forall c, In c s -> is_id_char c = true.

(** The shape of a metric identifier: identifier characters only,
    underscores single, none at either end. *)
Definition metric_id_shape (t : str) : Prop :=
  id_text t
  /\ squeezed (Z.eqb UNDERSCORE) UNDERSCORE false t = true
  /\ strip_chars [UNDERSCORE] t = t.

(** The shape of a register slug: as above with the runs of
    non-alphanumeric characters in place of the runs of underscores, and
    not empty. *)
Definition slug_shape (t : str) : Prop :=
  id_text t
  /\ squeezed (fun c => negb (is_lower_alnum c)) UNDERSCORE false t = true
  /\ strip_chars [UNDERSCORE] t = t
  /\ t <> [].

Definition ascii_text (s : str) : Prop := forallb is_ascii s = true.

(** [s.title()] on ASCII text. *)
Fixpoint ascii_title_from (previous_is_cased : bool) (s : str) : str :=
  match s with
  | [] => []
  | c :: r =>
      (if previous_is_cased then ascii_lower c else ascii_upper c)
      :: ascii_title_from (ascii_is_alpha c) r
  end.

(** The key of the unit table written with the capital omega. *)
Definition KILO_OHM : str := lit "k" ++ [GREEK_CAPITAL_OMEGA].

(** ** Orders *)

(** [a] may stand before [b]: the key of [b] is not below the key of [a]. *)
Definition key_le {A K : Type} (key : A -> K) (ltb : K -> K -> bool) (a b : A) : Prop :=
  ltb (key b) (key a) = false.

(** Ascending order of metrics by identifier: the identifier of [b] is not
    below the identifier of [a]. *)
Definition id_le (a b : metric) : Prop := key_le m_id str_ltb a b.

(** Ascending order of register entries by address, then length. *)

Definition address_length_le (a b : RegisterDefaults.register_entry) : Prop :=
  RegisterDefaults.e_address a < RegisterDefaults.e_address b
  \/ (RegisterDefaults.e_address a = RegisterDefaults.e_address b
      /\ RegisterDefaults.e_length a <= RegisterDefaults.e_length b).

(** ** The merged collection *)

(** From the specification: the word length is
    [max(table_default, end - start + 1)] when [address_end] is present and
    parses as an integer, and the table default otherwise. *)
Definition spec_words {U : PyBuiltins} (table_default start : Z)
    (address_end : option str) : Z :=
  match address_end with
  | Some text =>
      match int_of_str text with
      | Some e => Z.max table_default (e - start + 1)
      | None => table_default
      end
  | None => table_default
  end.

(** The registers of one fallback entry assigned in a metric. *)
Definition apply_overrides (overrides : dict Z) (m : metric) : metric :=
  fold_left (fun m (o : str * Z) => set_model_register (fst o) (snd o) m)
    overrides m.

(** What [setdefault] returns: the value stored, or else the default. *)
Definition or_else {A : Type} (o : option A) (a : A) : A :=
  match o with Some x => x | None => a end.

(** The data types of the specification's enumeration. *)
Definition DECLARED_TYPES : list str :=
  [ lit "uint16"; lit "int16"; lit "uint32"; lit "int32"; lit "uint64";
    lit "float32" ].

(** What holds of every metric once the tables are merged: it is stored
    under its own identifier, some model gave it a register, it has no
    default and no discovery policy yet, and its type is a declared one. *)
Record merged_metric (k : str) (m : metric) : Prop := {
  mm_id : m_id m = k;
  mm_models : m_models m <> [];
  mm_default : m_default m = None;
  mm_discovery : m_discovery m = None;
  mm_type : In (r_type (m_read m)) DECLARED_TYPES
}.

(** The collection the loop over the tables builds. *)
Definition merged_catalog (d : dict metric) : Prop :=
  NoDup (dict_keys d)
  /\ forall k m, dict_get k d = Some m -> merged_metric k m.

(** The register the fallback table gives an identifier for a model. *)
Definition fallback_register (metric_id model : str) : option Z :=
  match dict_get metric_id FALLBACK_METRICS with
  | Some overrides => dict_get model overrides
  | None => None
  end.

(** ** Example rows and tables *)

(** The row of the specification's example. *)
Definition meter_power_row : row :=
  [ (lit "name", Some (lit "Meter Active Power"));
    (lit "address_start", Some (lit "5600"));
    (lit "address_end", Some (lit "5600"));
    (lit "data_type", Some (lit "S16"));
    (lit "register_type", Some (lit "3X"));
    (lit "unit", Some (lit "kW")) ].

(** The dictionary the loop hands to [setdefault] for that row. *)
Definition meter_power_row_metric : metric :=
  {| m_id := lit "meter_active_power";
     m_name := lit "Meter Active Power";
     m_unit := Some (lit "kW");
     m_category := Some (lit "power");
     m_default := None;
     m_models := [];
     m_read := {| r_function := lit "input"; r_words := 1;
                  r_type := lit "int16"; r_scale := Float_1_0 |};
     m_discovery := None |}.

(** The string table holds the row of the specification's example, under
    both names the two programs read it by; the hybrid table is empty. *)
Definition example_files : files :=
  fun path =>
    if str_eqb path (lit "sungrow_string_v1.1.37.csv")
       || str_eqb path (lit "sungrow_string_v1.1.66.csv")
    then Some [meter_power_row]
    else if str_eqb path (lit "sungrow_hybrid_v1.1.4.csv") then Some []
    else None.


(** A string table whose one row is named after the fallback identifier
    itself and sits at another address. *)
Definition meter_power_1234_row : row :=
  [ (lit "name", Some (lit "Meter Power"));
    (lit "address_start", Some (lit "1234"));
    (lit "data_type", Some (lit "U16"));
    (lit "register_type", Some (lit "3X")) ].

(** The tables with that row alone. *)
Definition meter_power_1234_files : files :=
  fun path =>
    if str_eqb path (lit "sungrow_string_v1.1.37.csv")
    then Some [meter_power_1234_row]
    else Some [].

(** What the loop over those tables builds. *)
Definition meter_power_1234_merged : dict metric :=
  [ (lit "meter_power",
     {| m_id := lit "meter_power";
        m_name := lit "Meter Power";
        m_unit := None;
        m_category := None;
        m_default := None;
        m_models := [(lit "SG50RS", 1234)];
        m_read := {| r_function := lit "input"; r_words := 1;
                     r_type := lit "uint16"; r_scale := Float_1_0 |};
        m_discovery := None |}) ].

(** A later row of the string table with the same identifier and another
    address. *)
Definition meter_power_row_5700 : row :=
  [ (lit "name", Some (lit " meter  active-power "));
    (lit "address_start", Some (lit "5700"));
    (lit "data_type", Some (lit "u32"));
    (lit "register_type", Some (lit "4X"));
    (lit "unit", Some (lit "W")) ].

(** The string table with the example's row and the later one. *)
Definition two_row_files : files :=
  fun path =>
    if str_eqb path (lit "sungrow_string_v1.1.37.csv")
    then Some ([meter_power_row] ++ meter_power_row_5700 :: [])
    else Some [].

(** The four metrics of the output for [example_files]. *)
Definition meter_active_power_metric : metric :=
  {| m_id := lit "meter_active_power";
     m_name := lit "Meter Active Power";
     m_unit := Some (lit "kW");
     m_category := Some (lit "power");
     m_default := Some 5600;
     m_models := [(lit "SG50RS", 5600)];
     m_read := {| r_function := lit "input"; r_words := 1;
                  r_type := lit "int16"; r_scale := Float_1_0 |};
     m_discovery := Some (method_only (lit "power")) |}.

Definition meter_power_metric : metric :=
  {| m_id := lit "meter_power";
     m_name := lit "Meter Power";
     m_unit := Some (lit "W");
     m_category := Some (lit "power");
     m_default := Some 5600;
     m_models := [(lit "SG50RS", 5600)];
     m_read := {| r_function := lit "input"; r_words := 1;
                  r_type := lit "int16"; r_scale := Int_1 |};
     m_discovery := dict_get (lit "meter_power") SPECIAL_DISCOVERY |}.

Definition grid_import_energy_metric : metric :=
  {| m_id := lit "grid_import_energy";
     m_name := lit "Grid Import Energy";
     m_unit := Some (lit "kWh");
     m_category := Some (lit "energy");
     m_default := Some 5098;
     m_models := [(lit "SG50RS", 5098)];
     m_read := {| r_function := lit "input"; r_words := 2;
                  r_type := lit "uint32le"; r_scale := Float_0_1 |};
     m_discovery := dict_get (lit "grid_import_energy") SPECIAL_DISCOVERY |}.

Definition grid_export_energy_metric : metric :=
  {| m_id := lit "grid_export_energy";
     m_name := lit "Grid Export Energy";
     m_unit := Some (lit "kWh");
     m_category := Some (lit "energy");
     m_default := Some 5094;
     m_models := [(lit "SG50RS", 5094)];
     m_read := {| r_function := lit "input"; r_words := 2;
                  r_type := lit "uint32le"; r_scale := Float_0_1 |};
     m_discovery := dict_get (lit "grid_export_energy") SPECIAL_DISCOVERY |}.

(** Rows of a string table as the register catalog reads them. *)
Definition register_rows : list row :=
  [ [ (lit "No", Some (lit "2"));
      (lit "Name", Some (lit "Total Active Power"));
      (lit "Address_Start", Some (lit "5017"));
      (lit "Address_End", Some (lit "5018"));
      (lit "Data_Type", Some (lit "s32"));
      (lit "Register_Type", Some (lit "3X"));
      (lit "Source_Version", Some (lit "v1.1.66")) ];
    [ (lit "No", Some (lit "3"));
      (lit "Name", Some (lit "Start/Stop"));
      (lit "Address_Start", Some (lit " 5017 "));
      (lit "Address_End", None);
      (lit "Register_Type", Some (lit "4x")) ];
    [ (lit "No", Some (lit "1"));
      (lit "Name", Some (lit "(%)"));
      (lit "Address_Start", Some (lit "4990"));
      (lit "Address_End", Some (lit "n/a")) ];
    [ (lit "No", Some (lit "4"));
      (lit "Name", Some (lit "Reserved"));
      (lit "Address_Start", Some []) ] ].

(** ** Three sentences of the specification, as they are written *)


(** The fallback step keeps the read shape and every other field of a
    metric that was there before, and only adds registers for models that
    had none, so that a register a model already had stays. *)
Definition overrides_only_add_missing {U : PyBuiltins} (before : dict metric) : Prop :=
  forall metric_id m m',
    dict_get metric_id before = Some m ->
    dict_get metric_id (apply_fallbacks before) = Some m' ->
    m_read m' = m_read m
    /\ (forall model register,
          dict_get model (m_models m) = Some register ->
          dict_get model (m_models m') = Some register)
    /\ m_id m' = m_id m /\ m_name m' = m_name m /\ m_unit m' = m_unit m
    /\ m_category m' = m_category m /\ m_default m' = m_default m
    /\ m_discovery m' = m_discovery m.

(** The example: the row and the override end in one metric, the one
    under [meter_power], which has the listed fields. *)
Definition row_and_override_make_one_metric {U : PyBuiltins} : Prop :=
  exists out m,
    build_definitions example_files = Ok out
    /\ In m (metrics out)
    /\ (exists register fresh,
          read_row meter_power_row = Ok (Some (m_id m, register, fresh)))
    /\ m_id m = lit "meter_power"
    /\ r_type (m_read m) = lit "int16"
    /\ r_words (m_read m) = 1
    /\ m_category m = Some (lit "power")
    /\ dict_get (lit "SG50RS") (m_models m) = Some 5600
    /\ m_default m = Some 5600
    /\ exists d,
         m_discovery m = Some d
         /\ d_method d = lit "power"
         /\ d_prompt d = Some (lit "Meter Active Power (kW) [press Enter to skip]: ").

(** ** Further statements about the two programs *)

Definition STRING_TABLE : str := lit "sungrow_string_v1.1.37.csv".
Definition HYBRID_TABLE : str := lit "sungrow_hybrid_v1.1.4.csv".

(** A property of the metric stored under each identifier. *)
Definition all_metrics (P : str -> metric -> Prop) (d : dict metric) : Prop :=
  forall k m, dict_get k d = Some m -> P k m.

Definition MODELS : list str := map model CSV_DEFINITIONS.

(** Not empty, made of [[a-z0-9_]], no underscore at either end and no two
    in a row. *)
Definition well_formed_id (t : str) : Prop :=
  t <> []
  /\ id_text t
  /\ is_prefix (lit "_") t = false
  /\ is_prefix (lit "_") (rev t) = false
  /\ contains (lit "__") t = false.

(** The discovery policy the last loop gives a metric of this identifier
    and category: the authored one when the identifier has one; else, for
    the five categories with a default, the policy naming the category as
    its method and nothing more; else none. *)
Definition expected_discovery (metric_id : str) (category : option str)
    : option discovery_policy :=
  match dict_get metric_id SPECIAL_DISCOVERY with
  | Some authored => Some authored
  | None =>
      match category with
      | Some c =>
          if existsb (str_eqb c)
               [ lit "power"; lit "energy"; lit "voltage"; lit "current";
                 lit "frequency" ]
          then Some (method_only c)
          else None
      | None => None
      end
  end.

(** The word length suits the type, and the register kind is one of the
    two. *)
Definition read_shape_in_bounds (m : metric) : Prop :=
  1 <= r_words (m_read m)
  /\ (r_function (m_read m) = lit "input" \/ r_function (m_read m) = lit "holding")
  /\ forall tag default_words,
       dict_get tag NUMERIC_TYPES = Some (r_type (m_read m), default_words) ->
       default_words <= r_words (m_read m).

(** Strictly ascending order of metrics by identifier. *)
Definition id_lt (a b : metric) : Prop := str_ltb (m_id a) (m_id b) = true.

(** The fields the first row of an identifier fixes. *)
Definition same_shape (m m' : metric) : Prop :=
  m_read m = m_read m' /\ m_name m = m_name m'
  /\ m_unit m = m_unit m' /\ m_category m = m_category m'.

(** The output for [two_row_files]: the register of the later row, the
    shape of the first. *)
Definition two_row_output : output :=
  {| version := 1;
     metrics :=
       [ grid_export_energy_metric; grid_import_energy_metric;
         {| m_id := lit "meter_active_power";
            m_name := lit "Meter Active Power";
            m_unit := Some (lit "kW");
            m_category := Some (lit "power");
            m_default := Some 5700;
            m_models := [(lit "SG50RS", 5700)];
            m_read := {| r_function := lit "input"; r_words := 1;
                         r_type := lit "int16"; r_scale := Float_1_0 |};
            m_discovery := Some (method_only (lit "power")) |};
         meter_power_metric ] |}.

(** The same metric in the hybrid table, at another address. *)
Definition meter_power_row_hybrid : row :=
  [ (lit "name", Some (lit "Meter Active Power"));
    (lit "address_start", Some (lit "13009"));
    (lit "data_type", Some (lit "S32"));
    (lit "register_type", Some (lit "3X"));
    (lit "unit", Some (lit "W")) ].

Definition both_tables_files : files :=
  fun path =>
    if str_eqb path STRING_TABLE then Some ([] ++ meter_power_row :: [])
    else if str_eqb path HYBRID_TABLE then Some ([] ++ meter_power_row_hybrid :: [])
    else None.

(** The start address [build_registers] reads off a loaded row, when it
    keeps the row. *)
Definition row_start {U : PyBuiltins} (lrow : dict str) : option Z :=
  match nonempty (dict_get (lit "address_start") lrow) with
  | Some address_start => int_of_str address_start
  | None => None
  end.

(** The source version of the first kept row that has one. *)
Fixpoint first_version {U : PyBuiltins} (lrows : list (dict str)) : str :=
  match lrows with
  | [] => []
  | lrow :: rest =>
      match row_start lrow with
      | Some _ =>
          match RegisterDefaults.opt_or (dict_get (lit "source_version") lrow) [] with
          | [] => first_version rest
          | v => v
          end
      | None => first_version rest
      end
  end.

(** What holds of each entry of a bucket. *)
Definition entry_in_bounds (e : RegisterDefaults.register_entry) : Prop :=
  1 <= RegisterDefaults.e_length e
  /\ (RegisterDefaults.e_register_type e = lit "input"
      \/ RegisterDefaults.e_register_type e = lit "holding")
  /\ well_formed_id (RegisterDefaults.e_id e)
  /\ RegisterDefaults.e_data_range e <> Some []
  /\ RegisterDefaults.e_unit e <> Some []
  /\ RegisterDefaults.e_note e <> Some [].

(** * Properties *)

(** ** Text *)

Lemma str_eqb_eq (a b : str) : str_eqb a b = true <-> a = b.
Proof.
  revert b; induction a as [|x a IH]; intros [|y b]; simpl; split; intro H;
    try reflexivity; try discriminate.
  - apply andb_true_iff in H as [Hx Hr].
    apply Z.eqb_eq in Hx. apply IH in Hr. now subst.
  - injection H as -> ->. rewrite Z.eqb_refl. simpl. now apply IH.
Qed.

Lemma str_eqb_refl (a : str) : str_eqb a a = true.
Proof. now apply str_eqb_eq. Qed.

Lemma str_eqb_neq (a b : str) : str_eqb a b = false <-> a <> b.
Proof.
  split.
  - intros H E. apply str_eqb_eq in E. congruence.
  - intro H. destruct (str_eqb a b) eqn:E; [|reflexivity].
    apply str_eqb_eq in E. contradiction.
Qed.

Lemma str_eqb_sym (a b : str) : str_eqb a b = str_eqb b a.
Proof.
  destruct (str_eqb a b) eqn:E; symmetry.
  - apply str_eqb_eq in E. subst. apply str_eqb_refl.
  - apply str_eqb_neq. apply str_eqb_neq in E. congruence.
Qed.

(** *** Stripping *)

Lemma lstrip_by_head_kept p s : head_kept p (lstrip_by p s).
Proof.
  induction s as [|c r IH]; simpl; [exact I|].
  destruct (p c) eqn:E; [exact IH | exact E].
Qed.

Lemma lstrip_by_fixed p s : head_kept p s -> lstrip_by p s = s.
Proof. destruct s as [|c r]; simpl; intro H; [reflexivity | now rewrite H]. Qed.

Lemma rstrip_by_head_kept p s : head_kept p s -> head_kept p (rstrip_by p s).
Proof.
  destruct s as [|c r]; simpl; intro H; [exact I|].
  destruct (rstrip_by p r); [rewrite H|]; exact H.
Qed.

Lemma rstrip_by_idem p s : rstrip_by p (rstrip_by p s) = rstrip_by p s.
Proof.
  induction s as [|c r IH]; simpl; [reflexivity|].
  destruct (rstrip_by p r) as [|d r'] eqn:E.
  - destruct (p c) eqn:Ec; simpl; [reflexivity | now rewrite Ec].
  - simpl. simpl in IH. rewrite IH. reflexivity.
Qed.

Lemma strip_by_idem p s : strip_by p (strip_by p s) = strip_by p s.
Proof.
  unfold strip_by.
  rewrite (lstrip_by_fixed p (rstrip_by p (lstrip_by p s))).
  - apply rstrip_by_idem.
  - apply rstrip_by_head_kept, lstrip_by_head_kept.
Qed.

Lemma rstrip_by_none p s :
  (forall c, In c s -> p c = false) -> rstrip_by p s = s.
Proof.
  induction s as [|c r IH]; simpl; intro H; [reflexivity|].
  rewrite IH by (intros; apply H; now right).
  destruct r; [rewrite (H c) by now left|]; reflexivity.
Qed.

Lemma strip_by_none p s :
  (forall c, In c s -> p c = false) -> strip_by p s = s.
Proof.
  intro H. unfold strip_by. rewrite lstrip_by_fixed.
  - now apply rstrip_by_none.
  - destruct s; simpl; [exact I | apply H; now left].
Qed.

Lemma lstrip_by_incl p s c : In c (lstrip_by p s) -> In c s.
Proof.
  induction s as [|d r IH]; simpl; [tauto|].
  destruct (p d); simpl; intro H; [right; now apply IH | exact H].
Qed.

Lemma rstrip_by_incl p s c : In c (rstrip_by p s) -> In c s.
Proof.
  revert c; induction s as [|d r IH]; simpl; intros c; [tauto|].
  destruct (rstrip_by p r) as [|e r'] eqn:E.
  - destruct (p d); simpl; tauto.
  - intros [H|H]; [now left | right; now apply IH].
Qed.

Lemma strip_by_incl p s c : In c (strip_by p s) -> In c s.
Proof.
  unfold strip_by. intro H.
  eapply lstrip_by_incl, rstrip_by_incl, H.
Qed.

(** *** Replacement *)

Lemma replace1_absent old new s :
  (forall c, In c s -> c <> old) -> replace1 old new s = s.
Proof.
  induction s as [|c r IH]; simpl; intro H; [reflexivity|].
  destruct (c =? old) eqn:E.
  - apply Z.eqb_eq in E. exfalso. apply (H c); [now left | exact E].
  - simpl. f_equal. apply IH. intros; apply H; now right.
Qed.

Lemma re_sub_class_none p repl s :
  (forall c, In c s -> p c = false) -> re_sub_class p repl s = s.
Proof.
  induction s as [|c r IH]; simpl; intro H; [reflexivity|].
  rewrite (H c) by now left. simpl. f_equal.
  apply IH. intros; apply H; now right.
Qed.

Lemma re_sub_class_delete_in p s c :
  In c (re_sub_class p [] s) -> In c s /\ p c = false.
Proof.
  induction s as [|d r IH]; simpl; [tauto|].
  destruct (p d) eqn:E; simpl.
  - intro H. destruct (IH H). tauto.
  - intros [->|H]; [tauto|]. destruct (IH H). tauto.
Qed.

Lemma re_sub_runs_from_squeezed p u b s :
  p u = true -> squeezed p u b (re_sub_runs_from p [u] b s) = true.
Proof.
  intro Hu. revert b; induction s as [|c r IH]; intro b; simpl; [reflexivity|].
  destruct (p c) eqn:E.
  - destruct b; simpl.
    + apply IH.
    + rewrite Hu, Z.eqb_refl. simpl. apply IH.
  - simpl. rewrite E. apply IH.
Qed.

Lemma re_sub_runs_from_fixed p u b s :
  squeezed p u b s = true -> re_sub_runs_from p [u] b s = s.
Proof.
  revert b; induction s as [|c r IH]; intro b; simpl; [reflexivity|].
  destruct (p c) eqn:E; intro H.
  - apply andb_true_iff in H as [H Hr]. apply andb_true_iff in H as [Hb Hc].
    apply Z.eqb_eq in Hc. subst c. destruct b; [discriminate|].
    simpl. f_equal. now apply IH.
  - f_equal. now apply IH.
Qed.

Lemma squeezed_weaken p u b s :
  squeezed p u b s = true -> squeezed p u false s = true.
Proof.
  destruct s as [|c r]; simpl; [reflexivity|].
  destruct (p c); [|tauto].
  intro H. apply andb_true_iff in H as [H Hr]. apply andb_true_iff in H as [_ Hc].
  now rewrite Hc, Hr.
Qed.

Lemma squeezed_tail p u b c r :
  squeezed p u b (c :: r) = true -> squeezed p u false r = true.
Proof.
  simpl. destruct (p c); intro H.
  - apply andb_true_iff in H as [_ Hr]. now apply squeezed_weaken in Hr.
  - exact H.
Qed.

Lemma squeezed_lstrip_by p u q s :
  squeezed p u false s = true -> squeezed p u false (lstrip_by q s) = true.
Proof.
  induction s as [|c r IH]; simpl lstrip_by; intro H; [reflexivity|].
  destruct (q c); [|exact H].
  apply IH. eapply squeezed_tail, H.
Qed.

Lemma squeezed_rstrip_by p u q b s :
  squeezed p u b s = true -> squeezed p u b (rstrip_by q s) = true.
Proof.
  revert b; induction s as [|c r IH]; intro b; simpl rstrip_by; intro H;
    [reflexivity|].
  simpl in H.
  destruct (rstrip_by q r) as [|d r'] eqn:E.
  - destruct (q c); [reflexivity|]. simpl.
    destruct (p c); [|reflexivity].
    apply andb_true_iff in H as [H _]. now rewrite H.
  - simpl. destruct (p c).
    + apply andb_true_iff in H as [H Hr]. rewrite H. simpl.
      apply (IH true Hr).
    + apply (IH false H).
Qed.

Lemma squeezed_strip_by p u q s :
  squeezed p u false s = true -> squeezed p u false (strip_by q s) = true.
Proof.
  intro H. unfold strip_by.
  now apply squeezed_rstrip_by, squeezed_lstrip_by.
Qed.

Lemma re_sub_runs_from_in p u b s c :
  In c (re_sub_runs_from p [u] b s) -> c = u \/ (In c s /\ p c = false).
Proof.
  revert b; induction s as [|d r IH]; intro b; simpl; [tauto|].
  destruct (p d) eqn:E.
  - intro H. apply in_app_or in H as [H|H].
    + destruct b; simpl in H; [tauto|]. destruct H; [now left | tauto].
    + destruct (IH _ H); tauto.
  - intros [->|H]; [tauto|]. destruct (IH _ H); tauto.
Qed.

(** ** Identifiers *)

Ltac bool_to_Z :=
  repeat match goal with
  | H : _ && _ = true |- _ => apply andb_true_iff in H; destruct H
  | H : _ || _ = true |- _ => apply orb_true_iff in H; destruct H
  | H : (_ <=? _) = true |- _ => apply Z.leb_le in H
  | H : (_ <? _) = true |- _ => apply Z.ltb_lt in H
  | H : (_ =? _) = true |- _ => apply Z.eqb_eq in H
  | H : (_ <=? _) = false |- _ => apply Z.leb_gt in H
  | H : (_ <? _) = false |- _ => apply Z.ltb_ge in H
  | H : (_ =? _) = false |- _ => apply Z.eqb_neq in H
  end.

Ltac id_char_facts H :=
  unfold is_id_char, is_lower_alnum, in_range, UNDERSCORE in H; bool_to_Z.

Lemma is_id_char_ascii c : is_id_char c = true -> is_ascii c = true.
Proof.
  intro H. unfold is_ascii. apply andb_true_iff.
  rewrite Z.leb_le, Z.ltb_lt. id_char_facts H; lia.
Qed.

Lemma is_id_char_lower c : is_id_char c = true -> ascii_lower c = c.
Proof.
  intro H. unfold ascii_lower, in_range.
  destruct ((65 <=? c) && (c <=? 90)) eqn:E; [|reflexivity].
  id_char_facts H; bool_to_Z; lia.
Qed.

Lemma is_id_char_not_space c : is_id_char c = true -> ascii_is_space c = false.
Proof.
  intro H. unfold ascii_is_space, in_range.
  destruct (((9 <=? c) && (c <=? 13)) || ((28 <=? c) && (c <=? 32))) eqn:E;
    [|reflexivity].
  id_char_facts H; bool_to_Z; lia.
Qed.

Lemma is_id_char_neq c k :
  is_id_char c = true -> is_id_char k = false -> c <> k.
Proof. intros H Hk ->. congruence. Qed.

Section IdentifierFacts.
Context {U : PyBuiltins}.

Lemma lower_from_id_text before s : id_text s -> lower_from before s = s.
Proof.
  revert before; induction s as [|c r IH]; intros before H; simpl;
    [reflexivity|].
  assert (Hc : is_id_char c = true) by (apply H; now left).
  unfold lower_char.
  replace (c =? GREEK_CAPITAL_SIGMA) with false.
  - rewrite to_lower_full_ascii by now apply is_id_char_ascii.
    rewrite is_id_char_lower by exact Hc. simpl. f_equal.
    apply IH. intros d Hd. apply H. now right.
  - symmetry. apply Z.eqb_neq. unfold GREEK_CAPITAL_SIGMA.
    id_char_facts Hc; lia.
Qed.

Lemma lower_id_text s : id_text s -> lower s = s.
Proof. apply lower_from_id_text. Qed.

Lemma strip_id_text s : id_text s -> strip s = s.
Proof.
  intro H. apply strip_by_none. intros c Hc.
  rewrite is_space_ascii by (apply is_id_char_ascii; now apply H).
  apply is_id_char_not_space. now apply H.
Qed.

Lemma replace1_id_text old new s :
  is_id_char old = false -> id_text s -> replace1 old new s = s.
Proof.
  intros Ho H. apply replace1_absent. intros c Hc.
  apply is_id_char_neq; [now apply H | exact Ho].
Qed.

Lemma sanitise_metric_id_shape name : metric_id_shape (sanitise_metric_id name).
Proof.
  unfold sanitise_metric_id, metric_id_shape.
  change (lit "_") with [UNDERSCORE].
  set (x := re_sub_class _ _ _).
  repeat split.
  - intros c Hc. apply strip_by_incl in Hc.
    apply re_sub_runs_from_in in Hc as [->|[Hc _]]; [reflexivity|].
    apply re_sub_class_delete_in in Hc as [_ Hc].
    now apply negb_false_iff in Hc.
  - apply squeezed_strip_by, re_sub_runs_from_squeezed. reflexivity.
  - apply strip_by_idem.
Qed.

Lemma sanitise_metric_id_fixed t :
  metric_id_shape t -> sanitise_metric_id t = t.
Proof.
  intros (Hid & Hsq & Hst). unfold sanitise_metric_id.
  change (lit "_") with [UNDERSCORE].
  rewrite strip_id_text, lower_id_text by exact Hid.
  repeat rewrite (@replace1_id_text _ _ t) by (exact Hid || reflexivity).
  rewrite re_sub_class_none
    by (intros c Hc; apply negb_false_iff; now apply Hid).
  unfold re_sub_runs. rewrite re_sub_runs_from_fixed by exact Hsq.
  exact Hst.
Qed.

Lemma slug_shape_fixed t : slug_shape t -> RegisterDefaults.slugify t = t.
Proof.
  intros (Hid & Hsq & Hst & Hne).
  unfold RegisterDefaults.slugify, RegisterDefaults.sanitize_key.
  change (lit "_") with [UNDERSCORE].
  rewrite lower_id_text by exact Hid.
  repeat rewrite (@replace1_id_text _ _ t) by (exact Hid || reflexivity).
  unfold re_sub_runs. rewrite re_sub_runs_from_fixed by exact Hsq.
  rewrite Hst. destruct t; [contradiction | reflexivity].
Qed.

Lemma slugify_shape value : slug_shape (RegisterDefaults.slugify value).
Proof.
  unfold RegisterDefaults.slugify.
  change (lit "_") with [UNDERSCORE].
  set (x := RegisterDefaults.sanitize_key value).
  destruct (strip_chars [UNDERSCORE] (re_sub_runs _ _ x)) as [|c r] eqn:E.
  - simpl. repeat split; try reflexivity; try discriminate.
    intros c Hc. simpl in Hc.
    repeat (destruct Hc as [<-|Hc]; [reflexivity|]). contradiction.
  - simpl RegisterDefaults.str_or. rewrite <- E. repeat split.
    + intros d Hd. apply strip_by_incl in Hd.
      apply re_sub_runs_from_in in Hd as [->|[_ Hd]]; [reflexivity|].
      apply negb_false_iff in Hd. unfold is_id_char. now rewrite Hd.
    + apply squeezed_strip_by, re_sub_runs_from_squeezed. reflexivity.
    + apply strip_by_idem.
    + rewrite E. discriminate.
Qed.

(** C9. Identifier generation is idempotent, for the metric catalog's
    generator [sanitise_metric_id] and for the register catalog's generator
    [slugify]: on every text, applying the generator to its own result
    gives that result again. *)
Theorem identifier_generation_idempotent :
  (forall name : str,
     sanitise_metric_id (sanitise_metric_id name) = sanitise_metric_id name)
  /\ (forall value : str,
     RegisterDefaults.slugify (RegisterDefaults.slugify value)
     = RegisterDefaults.slugify value).
Proof.
  split; intro s.
  - apply sanitise_metric_id_fixed, sanitise_metric_id_shape.
  - apply slug_shape_fixed, slugify_shape.
Qed.

End IdentifierFacts.

(** ** The reference interpreter obeys the laws *)

Ltac ascii_facts H := unfold is_ascii in H; bool_to_Z.

Lemma ref_to_lower_full_ascii c :
  is_ascii c = true -> ref_to_lower_full c = [ascii_lower c].
Proof.
  intro H. unfold ref_to_lower_full, GREEK_CAPITAL_OMEGA, OHM_SIGN.
  destruct ((c =? 937) || (c =? 8486)) eqn:E; [|reflexivity].
  ascii_facts H; bool_to_Z; lia.
Qed.

Lemma ref_to_upper_full_ascii c :
  is_ascii c = true -> ref_to_upper_full c = [ascii_upper c].
Proof.
  intro H. unfold ref_to_upper_full, GREEK_SMALL_OMEGA.
  destruct (c =? 969) eqn:E; [|reflexivity].
  ascii_facts H; bool_to_Z; lia.
Qed.

Lemma ref_is_cased_ascii c :
  is_ascii c = true -> ref_is_cased c = ascii_is_alpha c.
Proof.
  intro H. unfold ref_is_cased, GREEK_CAPITAL_OMEGA, GREEK_SMALL_OMEGA, OHM_SIGN.
  ascii_facts H.
  replace (c =? 937) with false by (symmetry; apply Z.eqb_neq; lia).
  replace (c =? 969) with false by (symmetry; apply Z.eqb_neq; lia).
  replace (c =? 8486) with false by (symmetry; apply Z.eqb_neq; lia).
  now rewrite !orb_false_r.
Qed.

Lemma ref_is_space_ascii c :
  is_ascii c = true -> ref_is_space c = ascii_is_space c.
Proof.
  intro H. unfold ref_is_space, mem_char, in_range. simpl existsb.
  ascii_facts H.
  repeat match goal with
  | |- context [c =? ?k] =>
      replace (c =? k) with false by (symmetry; apply Z.eqb_neq; lia)
  end.
  replace (8192 <=? c) with false by (symmetry; apply Z.leb_gt; lia).
  simpl. now rewrite !orb_false_r.
Qed.

Lemma ref_to_lower_full_not_omega c :
  ~ In GREEK_CAPITAL_OMEGA (ref_to_lower_full c).
Proof.
  unfold ref_to_lower_full, ascii_lower, in_range, GREEK_CAPITAL_OMEGA,
    GREEK_SMALL_OMEGA, OHM_SIGN.
  destruct ((c =? 937) || (c =? 8486)) eqn:E.
  - simpl. intros [H|[]]. discriminate.
  - apply orb_false_iff in E as [E _]. apply Z.eqb_neq in E.
    destruct ((65 <=? c) && (c <=? 90)) eqn:R; simpl; intros [H|[]].
    + bool_to_Z. lia.
    + congruence.
Qed.

Lemma split_sign_digit d r :
  ascii_is_digit d = true -> split_sign (d :: r) = (false, d :: r).
Proof.
  intro H. unfold ascii_is_digit, in_range in H. bool_to_Z.
  assert (E : d = 48 \/ d = 49 \/ d = 50 \/ d = 51 \/ d = 52 \/ d = 53
              \/ d = 54 \/ d = 55 \/ d = 56 \/ d = 57) by lia.
  repeat (destruct E as [->|E]; [reflexivity|]). now subst.
Qed.

Lemma ascii_is_digit_not_c_isspace c :
  ascii_is_digit c = true -> c_isspace c = false.
Proof.
  intro H. unfold ascii_is_digit, in_range in H.
  unfold c_isspace, in_range.
  destruct (((9 <=? c) && (c <=? 13)) || (c =? 32)) eqn:E; [|reflexivity].
  bool_to_Z; lia.
Qed.

Lemma ref_int_of_str_digits ds :
  ds <> [] -> (List.length ds <= 640)%nat ->
  forallb ascii_is_digit ds = true ->
  ref_int_of_str ds = Some (digits_value ds).
Proof.
  intros Hne Hlen Hd. unfold ref_int_of_str.
  rewrite strip_by_none.
  - destruct ds as [|d r]; [contradiction|].
    rewrite split_sign_digit
      by (simpl in Hd; now apply andb_true_iff in Hd as [Hd _]).
    assert (Hl : (List.length (d :: r) <=? 4300)%nat = true)
      by (apply Nat.leb_le; lia).
    rewrite Hd, Hl. reflexivity.
  - intros c Hc. apply ascii_is_digit_not_c_isspace.
    rewrite forallb_forall in Hd. now apply Hd.
Qed.

Definition ref_builtins : PyBuiltins :=
  {| to_lower_full := ref_to_lower_full;
     to_upper_full := ref_to_upper_full;
     to_title_full := ref_to_title_full;
     is_cased := ref_is_cased;
     is_case_ignorable := ref_is_case_ignorable;
     is_space := ref_is_space;
     int_of_str := ref_int_of_str;
     float_accepts := ref_float_accepts;
     to_lower_full_ascii := ref_to_lower_full_ascii;
     to_upper_full_ascii := ref_to_upper_full_ascii;
     to_title_full_ascii := ref_to_upper_full_ascii;
     is_cased_ascii := ref_is_cased_ascii;
     is_space_ascii := ref_is_space_ascii;
     to_lower_full_omega := eq_refl;
     to_lower_full_not_omega := ref_to_lower_full_not_omega;
     int_of_str_empty := eq_refl;
     int_of_str_digits := ref_int_of_str_digits |}.

Example ref_sanitise_metric_id :
  @sanitise_metric_id ref_builtins (lit "  Meter Active-Power (kW) ")
  = lit "meter_active_power_kw".
Proof. vm_compute. reflexivity. Qed.

Example ref_slugify :
  @RegisterDefaults.slugify ref_builtins (lit "Load (%) / Phase-A")
  = lit "load_percent_phase_a".
Proof. vm_compute. reflexivity. Qed.

Lemma identifier_generation_idempotent_witness :
  @sanitise_metric_id ref_builtins
    (@sanitise_metric_id ref_builtins (lit "  Meter Active-Power (kW) "))
  = @sanitise_metric_id ref_builtins (lit "  Meter Active-Power (kW) ")
  /\ @RegisterDefaults.slugify ref_builtins
       (@RegisterDefaults.slugify ref_builtins (lit "Load (%) / Phase-A"))
     = @RegisterDefaults.slugify ref_builtins (lit "Load (%) / Phase-A").
Proof.
  split.
  - apply (proj1 (@identifier_generation_idempotent ref_builtins)).
  - apply (proj2 (@identifier_generation_idempotent ref_builtins)).
Defined.

Example ref_slugify_placeholder :
  @RegisterDefaults.slugify ref_builtins (lit "()") = lit "register".
Proof. vm_compute. reflexivity. Qed.

(** ** Dictionaries *)

Section DictFacts.
Variable V : Type.
Implicit Types (d : dict V) (k : str) (v : V).

Lemma dict_get_in k d v : dict_get k d = Some v -> In (k, v) d.
Proof.
  induction d as [|[k' v'] r IH]; simpl; [discriminate|].
  destruct (str_eqb k k') eqn:E.
  - apply str_eqb_eq in E. subst. intros [= ->]. now left.
  - intro H. right. now apply IH.
Qed.

Lemma dict_get_set_same k v d : dict_get k (dict_set k v d) = Some v.
Proof.
  induction d as [|[k' v'] r IH]; simpl.
  - now rewrite str_eqb_refl.
  - destruct (str_eqb k k') eqn:E; simpl; rewrite E; [reflexivity | exact IH].
Qed.

Lemma dict_get_set_other k k' v d :
  k <> k' -> dict_get k (dict_set k' v d) = dict_get k d.
Proof.
  intro Hne. induction d as [|[k0 v0] r IH]; simpl.
  - now rewrite (proj2 (str_eqb_neq k k') Hne).
  - destruct (str_eqb k' k0) eqn:E; simpl.
    + apply str_eqb_eq in E. subst k0.
      now rewrite (proj2 (str_eqb_neq k k') Hne).
    + destruct (str_eqb k k0); [reflexivity | exact IH].
Qed.

Lemma dict_get_update_same k f d :
  dict_get k (dict_update k f d) = option_map f (dict_get k d).
Proof.
  induction d as [|[k' v'] r IH]; simpl; [reflexivity|].
  destruct (str_eqb k k') eqn:E; simpl; rewrite E; [reflexivity | exact IH].
Qed.

Lemma dict_get_update_other k k' f d :
  k <> k' -> dict_get k (dict_update k' f d) = dict_get k d.
Proof.
  intro Hne. induction d as [|[k0 v0] r IH]; simpl; [reflexivity|].
  destruct (str_eqb k' k0) eqn:E; simpl.
  - apply str_eqb_eq in E. subst k0.
    now rewrite (proj2 (str_eqb_neq k k') Hne).
  - destruct (str_eqb k k0); [reflexivity | exact IH].
Qed.

Lemma dict_get_setdefault_same k v d :
  dict_get k (dict_setdefault k v d)
  = Some (match dict_get k d with Some v0 => v0 | None => v end).
Proof.
  unfold dict_setdefault, dict_mem.
  destruct (dict_get k d) eqn:E; [exact E | apply dict_get_set_same].
Qed.

Lemma dict_get_setdefault_other k k' v d :
  k <> k' -> dict_get k (dict_setdefault k' v d) = dict_get k d.
Proof.
  intro Hne. unfold dict_setdefault.
  destruct (dict_mem k' d); [reflexivity | now apply dict_get_set_other].
Qed.

End DictFacts.

(** ** Units *)

Section UnitFacts.
Context {U : PyBuiltins}.

Lemma lower_from_not_capital_omega before s :
  ~ In GREEK_CAPITAL_OMEGA (lower_from before s).
Proof.
  revert before; induction s as [|c r IH]; intros before; simpl; [tauto|].
  intro H. apply in_app_or in H as [H|H]; [|exact (IH _ H)].
  unfold lower_char in H. destruct (c =? GREEK_CAPITAL_SIGMA).
  - unfold handle_capital_sigma in H.
    destruct (_ && _) in H; simpl in H; destruct H as [H|[]]; discriminate.
  - exact (to_lower_full_not_omega c H).
Qed.

Lemma lower_KILO_OHM : lower KILO_OHM = lit "k" ++ [GREEK_SMALL_OMEGA].
Proof.
  unfold lower, KILO_OHM. simpl. unfold lower_char. simpl.
  rewrite to_lower_full_ascii by reflexivity.
  rewrite to_lower_full_omega. reflexivity.
Qed.

Lemma classify_unit_KILO_OHM : classify_unit KILO_OHM = None.
Proof. unfold classify_unit. rewrite lower_KILO_OHM. reflexivity. Qed.

Lemma classify_unit_resistance unit :
  classify_unit unit = Some (lit "resistance") -> lower unit = lit "kohm".
Proof.
  unfold classify_unit. intro H. apply dict_get_in in H.
  unfold UNIT_CATEGORY in H. simpl In in H.
  repeat (destruct H as [H|H]; [try (vm_compute in H; discriminate)|]);
    try contradiction.
  - exfalso. apply (@lower_from_not_capital_omega [] unit).
    fold (lower unit). injection H as <-. right. now left.
  - now injection H as <-.
Qed.

(** C10. A unit whose trailing run of unit characters is the kilo-ohm
    symbol written with the capital omega has no category, although the unit
    table holds an entry under that very key for resistance: the classifier
    looks the unit up lower-cased, with the small omega, which no key of the
    table is.  A unit classified as resistance is one that lower-cases to
    [kohm]. *)
Theorem kilo_ohm_has_no_category (unit_raw : str) :
  base_unit unit_raw = KILO_OHM ->
  classify_unit (base_unit unit_raw) = None
  /\ dict_get KILO_OHM UNIT_CATEGORY = Some (lit "resistance")
  /\ lower (base_unit unit_raw) = lit "k" ++ [GREEK_SMALL_OMEGA]
  /\ (forall unit : str,
        classify_unit unit = Some (lit "resistance") -> lower unit = lit "kohm").
Proof.
  intros ->. repeat split.
  - apply classify_unit_KILO_OHM.
  - apply lower_KILO_OHM.
  - apply classify_unit_resistance.
Qed.

End UnitFacts.

Lemma kilo_ohm_has_no_category_witness :
  base_unit (lit "0.1" ++ KILO_OHM) = KILO_OHM
  /\ @classify_unit ref_builtins (base_unit (lit "0.1" ++ KILO_OHM)) = None.
Proof.
  split; [reflexivity|].
  apply (@kilo_ohm_has_no_category ref_builtins (lit "0.1" ++ KILO_OHM)).
  reflexivity.
Defined.

Example ref_classify_kohm :
  @classify_unit ref_builtins (base_unit (lit "10kOhm")) = Some (lit "resistance").
Proof. vm_compute. reflexivity. Qed.

Example ref_classify_kwh :
  base_unit (lit "0.1kWh") = lit "kWh"
  /\ @classify_unit ref_builtins (lit "kWh") = Some (lit "energy").
Proof. split; vm_compute; reflexivity. Qed.

Example base_unit_newline :
  base_unit (lit "kW" ++ [NEWLINE]) = lit "kW"
  /\ base_unit (lit "kW" ++ [NEWLINE; NEWLINE]) = lit "kW" ++ [NEWLINE; NEWLINE]
  /\ base_unit (lit "12") = lit "12".
Proof. repeat split. Qed.

(** ** The primitives on ASCII text *)

Lemma lstrip_by_ext p q s :
  (forall c, In c s -> p c = q c) -> lstrip_by p s = lstrip_by q s.
Proof.
  induction s as [|c r IH]; simpl; intro H; [reflexivity|].
  rewrite <- (H c) by now left.
  destruct (p c); [|reflexivity]. apply IH. intros; apply H; now right.
Qed.

Lemma rstrip_by_ext p q s :
  (forall c, In c s -> p c = q c) -> rstrip_by p s = rstrip_by q s.
Proof.
  induction s as [|c r IH]; simpl; intro H; [reflexivity|].
  rewrite <- IH by (intros; apply H; now right).
  now rewrite <- (H c) by now left.
Qed.

Lemma strip_by_ext p q s :
  (forall c, In c s -> p c = q c) -> strip_by p s = strip_by q s.
Proof.
  intro H. unfold strip_by. rewrite (lstrip_by_ext p q s H).
  apply rstrip_by_ext. intros c Hc. apply H. eapply lstrip_by_incl, Hc.
Qed.


Section AsciiFacts.
Context {U : PyBuiltins}.

Lemma strip_ascii s : ascii_text s -> strip s = strip_by ascii_is_space s.
Proof.
  intro H. apply strip_by_ext. intros c Hc. apply is_space_ascii.
  unfold ascii_text in H. rewrite forallb_forall in H. now apply H.
Qed.

Lemma lower_char_ascii before c after :
  is_ascii c = true -> lower_char before c after = [ascii_lower c].
Proof.
  intro H. unfold lower_char.
  replace (c =? GREEK_CAPITAL_SIGMA) with false.
  - now apply to_lower_full_ascii.
  - symmetry. apply Z.eqb_neq. unfold GREEK_CAPITAL_SIGMA. ascii_facts H. lia.
Qed.

Lemma lower_from_ascii before s :
  ascii_text s -> lower_from before s = map ascii_lower s.
Proof.
  unfold ascii_text.
  revert before; induction s as [|c r IH]; intros before H; simpl;
    [reflexivity|].
  simpl in H. apply andb_true_iff in H as [Hc Hr].
  now rewrite lower_char_ascii, IH.
Qed.

Lemma lower_ascii s : ascii_text s -> lower s = map ascii_lower s.
Proof. apply lower_from_ascii. Qed.

Lemma upper_ascii s : ascii_text s -> upper s = map ascii_upper s.
Proof.
  unfold ascii_text, upper. induction s as [|c r IH]; simpl; intro H;
    [reflexivity|].
  apply andb_true_iff in H as [Hc Hr].
  now rewrite to_upper_full_ascii, IH.
Qed.

Lemma title_from_ascii before previous s :
  ascii_text s -> title_from before previous s = ascii_title_from previous s.
Proof.
  unfold ascii_text.
  revert before previous; induction s as [|c r IH]; intros before previous H;
    simpl; [reflexivity|].
  simpl in H. apply andb_true_iff in H as [Hc Hr].
  rewrite IH by exact Hr. rewrite is_cased_ascii by exact Hc.
  destruct previous.
  - now rewrite lower_char_ascii.
  - now rewrite to_title_full_ascii.
Qed.

Lemma title_ascii s : ascii_text s -> title s = ascii_title_from false s.
Proof. apply title_from_ascii. Qed.


(** ** Register kind *)

Lemma read_function_3X : read_function (lit "3X") = lit "input".
Proof.
  unfold read_function. rewrite strip_ascii by reflexivity. reflexivity.
Qed.





Lemma bind_Ok {A B : Type} (r : result A) (k : A -> result B) (b : B) :
  bind r k = Ok b -> exists a, r = Ok a /\ k a = Ok b.
Proof. destruct r; simpl; [eauto | discriminate]. Qed.

Lemma row_str_Ok key row s :
  (v <- row_item key row ;; as_str v) = Ok s ->
  dict_get key row = Some (Some s).
Proof.
  unfold row_item, bind, as_str.
  destruct (dict_get key row) as [[v|]|]; try discriminate.
  now intros [= ->].
Qed.

(** What an accepted row is: every step of the loop body went through. *)
Lemma read_row_inv row metric_id register m :
  read_row row = Ok (Some (metric_id, register, m)) ->
  exists data_type type_name default_words address_start name unit_raw register_type,
    dict_get (lit "data_type") row = Some (Some data_type)
    /\ dict_get (upper (strip data_type)) NUMERIC_TYPES = Some (type_name, default_words)
    /\ nonempty (row_get (lit "address_start") row) = Some address_start
    /\ int_of_str address_start = Some register
    /\ dict_get (lit "name") row = Some (Some name)
    /\ metric_id = sanitise_metric_id name
    /\ metric_id <> []
    /\ row_get_default (lit "unit") [] row = Some unit_raw
    /\ dict_get (lit "register_type") row = Some (Some register_type)
    /\ m_id m = metric_id
    /\ m_name m = strip name
    /\ m_unit m = or_none (base_unit (strip unit_raw))
    /\ m_category m =
         match base_unit (strip unit_raw) with
         | [] => None
         | u => classify_unit u
         end
    /\ m_default m = None
    /\ m_models m = []
    /\ m_discovery m = None
    /\ m_read m =
         {| r_function := read_function register_type;
            r_words := row_words default_words register (row_get (lit "address_end") row);
            r_type := type_name;
            r_scale := row_scale (row_get (lit "scale_factor") row) |}.
Proof.
  unfold read_row. intro H.
  apply bind_Ok in H as (data_type & Hdt & H). apply row_str_Ok in Hdt.
  destruct (dict_get (upper (strip data_type)) NUMERIC_TYPES)
    as [[type_name default_words]|] eqn:Hty; [|discriminate].
  destruct (nonempty (row_get (lit "address_start") row))
    as [address_start|] eqn:Hstart; [|discriminate].
  destruct (int_of_str address_start) as [reg|] eqn:Hint; [|discriminate].
  apply bind_Ok in H as (name & Hname & H). apply row_str_Ok in Hname.
  destruct (sanitise_metric_id name) as [|c id] eqn:Hid; [discriminate|].
  apply bind_Ok in H as (unit_raw & Hunit & H).
  apply bind_Ok in H as (register_type & Hrt & H). apply row_str_Ok in Hrt.
  unfold as_str in Hunit.
  destruct (row_get_default (lit "unit") [] row) as [u|] eqn:Hu;
    [|discriminate].
  injection Hunit as ->. injection H as <- <- <-.
  exists data_type, type_name, default_words, address_start, name, unit_raw,
    register_type.
  repeat split; try assumption; try reflexivity; try discriminate.
  - now symmetry.
  - simpl. now destruct (base_unit (strip unit_raw)).
Qed.


End AsciiFacts.

Section RegisterKind.
Context {U : PyBuiltins}.

Lemma load_row_get_from k (r : row) (d : dict str) :
  dict_get k
    (fold_left
       (fun d (kv : str * option str) =>
          dict_set (lower (fst kv)) (strip (RegisterDefaults.opt_or (snd kv) [])) d)
       r d)
  = fold_left
      (fun found (kv : str * option str) =>
         if str_eqb k (lower (fst kv))
         then Some (strip (RegisterDefaults.opt_or (snd kv) []))
         else found)
      r (dict_get k d).
Proof.
  revert d; induction r as [|[k' v] r IH]; intro d; simpl; [reflexivity|].
  rewrite IH. f_equal.
  destruct (str_eqb k (lower k')) eqn:E.
  - apply str_eqb_eq in E. subst k. apply dict_get_set_same.
  - apply dict_get_set_other. now apply str_eqb_neq.
Qed.

(** Every field of a loaded row is the stripped text of a field of the row
    as read. *)
Lemma load_row_stripped k (r : row) s :
  dict_get k (RegisterDefaults.load_row r) = Some s ->
  exists v, s = strip (RegisterDefaults.opt_or v []).
Proof.
  unfold RegisterDefaults.load_row. rewrite load_row_get_from.
  simpl dict_get.
  assert (G : forall found,
    (forall s0, found = Some s0 ->
       exists v, s0 = strip (RegisterDefaults.opt_or v [])) ->
    fold_left
      (fun found (kv : str * option str) =>
         if str_eqb k (lower (fst kv))
         then Some (strip (RegisterDefaults.opt_or (snd kv) []))
         else found) r found = Some s ->
    exists v, s = strip (RegisterDefaults.opt_or v [])).
  { induction r as [|[k' v] r IH]; simpl; intros found Hf H.
    - now apply Hf.
    - refine (IH _ _ H). intro s0.
      destruct (str_eqb k (lower k')); [|apply Hf].
      intros [= <-]. now exists v. }
  apply G. intros s0 H0. discriminate.
Qed.



End RegisterKind.

(** Outside those two kinds of field the catalogs may differ: a lower-case
    [3x] is a holding register in the metric catalog and an input register
    in the register catalog. *)
Example register_kind_differs_on_3x :
  @read_function ref_builtins (lit "3x") = lit "holding"
  /\ @RegisterDefaults.register_kind_of ref_builtins
       (Some (@strip ref_builtins (lit "3x"))) = lit "input".
Proof. split; vm_compute; reflexivity. Qed.

Example ref_read_meter_power_row :
  @read_row ref_builtins meter_power_row
  = Ok (Some (lit "meter_active_power", 5600, meter_power_row_metric)).
Proof. vm_compute. reflexivity. Qed.


(** ** Word length *)

Section WordLength.
Context {U : PyBuiltins}.

Lemma row_words_spec default_words register address_end :
  row_words default_words register address_end
  = spec_words default_words register address_end.
Proof.
  unfold row_words, spec_words.
  destruct address_end as [[|c r]|]; simpl; try reflexivity.
  now rewrite int_of_str_empty.
Qed.

Lemma nonempty_Some v s : nonempty v = Some s -> v = Some s.
Proof. destruct v as [[|c r]|]; simpl; congruence. Qed.

(** C7. A row whose type tag is recognised and whose start address parses
    is, when the loop accepts it, given the word length
    [max(table default, end - start + 1)] if its [address_end] is present and
    parses as an integer, and the table default otherwise; that is the
    [read.words] of the metric the row creates when its identifier is new. *)
Theorem word_length_of_row
    (row : row) (data_type type_name address_start : str)
    (default_words register : Z) :
  dict_get (lit "data_type") row = Some (Some data_type) ->
  dict_get (upper (strip data_type)) NUMERIC_TYPES = Some (type_name, default_words) ->
  row_get (lit "address_start") row = Some address_start ->
  int_of_str address_start = Some register ->
  forall metric_id r m,
    read_row row = Ok (Some (metric_id, r, m)) ->
    r = register
    /\ r_words (m_read m)
       = spec_words default_words register (row_get (lit "address_end") row)
    /\ forall model metrics,
         dict_get metric_id metrics = None ->
         option_map (fun m' => r_words (m_read m'))
           (dict_get metric_id (store_row model metrics (metric_id, r, m)))
         = Some (spec_words default_words register (row_get (lit "address_end") row)).
Proof.
  intros Hdt Hty Hstart Hint metric_id r m H.
  apply read_row_inv in H
    as (dt & ty & dw & st & nm & un & rt & H).
  decompose [and] H. clear H.
  assert (dt = data_type) by congruence. subst dt.
  assert (E : (ty, dw) = (type_name, default_words)) by congruence.
  injection E as -> ->.
  match goal with
  | N : nonempty _ = Some st |- _ => apply nonempty_Some in N;
      assert (st = address_start) by congruence; subst st
  end.
  assert (r = register) by congruence. subst r.
  assert (W : r_words (m_read m)
              = spec_words default_words register (row_get (lit "address_end") row)).
  { match goal with E : m_read m = _ |- _ => rewrite E end.
    simpl. apply row_words_spec. }
  repeat split; [exact W|].
  intros model metrics Hnew. unfold store_row.
  rewrite dict_get_update_same, dict_get_setdefault_same, Hnew. simpl.
  now rewrite W.
Qed.

End WordLength.

Lemma word_length_of_row_witness :
  5600 = 5600
  /\ r_words (m_read meter_power_row_metric)
     = @spec_words ref_builtins 1 5600 (row_get (lit "address_end") meter_power_row)
  /\ forall model metrics,
       dict_get (lit "meter_active_power") metrics = None ->
       option_map (fun m' => r_words (m_read m'))
         (dict_get (lit "meter_active_power")
            (store_row model metrics
               (lit "meter_active_power", 5600, meter_power_row_metric)))
       = Some (@spec_words ref_builtins 1 5600
                 (row_get (lit "address_end") meter_power_row)).
Proof.
  apply (@word_length_of_row ref_builtins meter_power_row
           (lit "S16") (lit "int16") (lit "5600") 1 5600);
    vm_compute; reflexivity.
Defined.

(** A range of four registers under a two-word type, an unparsable end, and
    an end below the start. *)
Example ref_row_words :
  @row_words ref_builtins 2 5000 (Some (lit "5003")) = 4
  /\ @row_words ref_builtins 2 5000 (Some (lit "n/a")) = 2
  /\ @row_words ref_builtins 2 5000 (Some (lit "4000")) = 2
  /\ @row_words ref_builtins 2 5000 (Some []) = 2
  /\ @row_words ref_builtins 2 5000 None = 2.
Proof. repeat split. Qed.

(** ** Sorting *)

Section SortFacts.
Variables (A K : Type) (key : A -> K) (ltb : K -> K -> bool).

Hypothesis ltb_asym : forall x y, ltb x y = true -> ltb y x = false.
Hypothesis ltb_negtrans :
  forall x y z, ltb y x = false -> ltb z y = false -> ltb z x = false.

Lemma insert_by_in x l a : In a (insert_by key ltb x l) <-> a = x \/ In a l.
Proof.
  induction l as [|y r IH]; simpl.
  - intuition congruence.
  - destruct (ltb (key y) (key x)); simpl; rewrite ?IH; intuition congruence.
Qed.

Lemma sorted_by_in l a : In a (sorted_by key ltb l) <-> In a l.
Proof.
  induction l as [|x r IH]; simpl; [tauto|].
  rewrite insert_by_in, IH. intuition congruence.
Qed.

Lemma insert_by_sorted x l :
  StronglySorted (key_le key ltb) l ->
  StronglySorted (key_le key ltb) (insert_by key ltb x l).
Proof.
  induction 1 as [|y r Hr IH Hy]; simpl.
  - repeat constructor.
  - destruct (ltb (key y) (key x)) eqn:E.
    + constructor; [exact IH|].
      rewrite Forall_forall in *. intros a Ha.
      apply insert_by_in in Ha as [->|Ha]; [|now apply Hy].
      unfold key_le. now apply ltb_asym.
    + constructor; [now constructor|].
      constructor; [exact E|].
      rewrite Forall_forall in *. intros a Ha.
      unfold key_le. apply ltb_negtrans with (y := key y); [exact E|].
      now apply Hy.
Qed.

Lemma sorted_by_sorted l :
  StronglySorted (key_le key ltb) (sorted_by key ltb l).
Proof.
  induction l as [|x r IH]; simpl; [constructor | now apply insert_by_sorted].
Qed.

End SortFacts.

Lemma str_ltb_asym a b : str_ltb a b = true -> str_ltb b a = false.
Proof.
  revert b; induction a as [|x a IH]; intros [|y b]; simpl; try congruence.
  intro H. apply orb_true_iff in H as [H|H].
  - apply Z.ltb_lt in H. apply orb_false_iff. split.
    + apply Z.ltb_ge. lia.
    + replace (y =? x) with false; [reflexivity|].
      symmetry. apply Z.eqb_neq. lia.
  - apply andb_true_iff in H as [E H]. apply Z.eqb_eq in E. subst y.
    rewrite Z.ltb_irrefl, Z.eqb_refl. simpl. now apply IH.
Qed.

Lemma str_ltb_negtrans a b c :
  str_ltb b a = false -> str_ltb c b = false -> str_ltb c a = false.
Proof.
  revert b c; induction a as [|x a IH]; intros [|y b] [|z c]; simpl;
    try congruence.
  intros H1 H2.
  apply orb_false_iff in H1 as [L1 E1]. apply orb_false_iff in H2 as [L2 E2].
  apply Z.ltb_ge in L1, L2. apply orb_false_iff. split.
  - apply Z.ltb_ge. lia.
  - destruct (z =? x) eqn:E; [|reflexivity]. apply Z.eqb_eq in E. subst z.
    assert (y = x) by lia. subst y.
    rewrite Z.eqb_refl in E1, E2. simpl in *. now apply IH with (b := b).
Qed.

(** [b < a] fails exactly when [a = b] or [a < b]: the order is total. *)
Lemma str_ltb_false a b :
  str_ltb b a = false <-> a = b \/ str_ltb a b = true.
Proof.
  revert b; induction a as [|x a IH]; intros [|y b]; simpl.
  - tauto.
  - split; [now right | reflexivity].
  - split; [discriminate | intros [?|?]; discriminate].
  - rewrite orb_false_iff, orb_true_iff, andb_false_iff, andb_true_iff.
    rewrite Z.ltb_ge, Z.ltb_lt, Z.eqb_neq, Z.eqb_eq, IH. split.
    + intros [L [N|[E|H]]].
      * right. left. lia.
      * subst b. destruct (Z.eq_dec x y) as [->|]; [now left | right; left; lia].
      * destruct (Z.eq_dec x y) as [->|]; [now right; right | right; left; lia].
    + intros [[= -> ->]|[L|[-> H]]].
      * split; [lia | right; now left].
      * split; [lia | left; lia].
      * split; [lia | right; now right].
Qed.

Lemma pair_ltb_true a b :
  RegisterDefaults.pair_ltb a b = true
  <-> fst a < fst b \/ (fst a = fst b /\ snd a < snd b).
Proof.
  unfold RegisterDefaults.pair_ltb.
  rewrite orb_true_iff, andb_true_iff, !Z.ltb_lt, Z.eqb_eq. tauto.
Qed.

Lemma pair_ltb_false a b :
  RegisterDefaults.pair_ltb a b = false
  <-> fst b < fst a \/ (fst a = fst b /\ snd b <= snd a).
Proof.
  unfold RegisterDefaults.pair_ltb.
  rewrite orb_false_iff, andb_false_iff, !Z.ltb_ge, Z.eqb_neq. lia.
Qed.

Lemma pair_ltb_asym a b :
  RegisterDefaults.pair_ltb a b = true -> RegisterDefaults.pair_ltb b a = false.
Proof. rewrite pair_ltb_true, pair_ltb_false. lia. Qed.

Lemma pair_ltb_negtrans a b c :
  RegisterDefaults.pair_ltb b a = false ->
  RegisterDefaults.pair_ltb c b = false ->
  RegisterDefaults.pair_ltb c a = false.
Proof. rewrite !pair_ltb_false. lia. Qed.

Lemma StronglySorted_impl {A : Type} (R S : A -> A -> Prop) l :
  (forall a b, R a b -> S a b) -> StronglySorted R l -> StronglySorted S l.
Proof.
  intro H. induction 1 as [|x r Hr IH Hx]; constructor; [exact IH|].
  eapply Forall_impl; [|exact Hx]. intros a. apply H.
Qed.

Section Sortedness.
Context {U : PyBuiltins}.

Lemma build_registers_sorted rows :
  StronglySorted address_length_le
    (RegisterDefaults.registers (RegisterDefaults.build_registers rows)).
Proof.
  unfold RegisterDefaults.build_registers.
  destruct (fold_left _ _ _) as [registers version]. simpl.
  eapply StronglySorted_impl;
    [|apply sorted_by_sorted; [exact pair_ltb_asym | exact pair_ltb_negtrans]].
  intros a b H. unfold key_le in H. apply pair_ltb_false in H.
  unfold address_length_le. simpl in H. lia.
Qed.

Lemma build_payload_from_buckets fs definitions p p' :
  RegisterDefaults.build_payload_from fs definitions p = Ok p' ->
  forall k b, In (k, b) (RegisterDefaults.inverter_types p') ->
    In (k, b) (RegisterDefaults.inverter_types p)
    \/ exists rows, b = RegisterDefaults.build_registers rows.
Proof.
  revert p; induction definitions as [|d rest IH]; simpl; intros p H k b Hin.
  - injection H as <-. now left.
  - destruct (fs (RegisterDefaults.path d)) as [rows|]; [|discriminate].
    destruct (IH _ H k b Hin) as [Hold|Hnew]; [|now right].
    simpl in Hold. clear - Hold.
    induction (RegisterDefaults.inverter_types p) as [|[k0 b0] r IHr];
      simpl in Hold.
    + destruct Hold as [[= <- <-]|[]]. right. now exists rows.
    + destruct (str_eqb (RegisterDefaults.inverter_type d) k0).
      * destruct Hold as [[= <- <-]|Hold]; [right; now exists rows|].
        left. now right.
      * destruct Hold as [Hold|Hold]; [left; now left|].
        destruct (IHr Hold) as [?|?]; [left; now right | now right].
Qed.

(** C8. The metrics of the metric catalog come out in ascending order of
    identifier, and the registers of every inverter-type bucket of the
    register catalog in ascending order of address, then length. *)
Theorem catalogs_are_sorted (fs : files) :
  (forall out, build_definitions fs = Ok out ->
     StronglySorted id_le (metrics out))
  /\ (forall p, RegisterDefaults.build_payload fs = Ok p ->
        forall inverter_type b,
          In (inverter_type, b) (RegisterDefaults.inverter_types p) ->
          StronglySorted address_length_le (RegisterDefaults.registers b)).
Proof.
  split.
  - intros out H. unfold build_definitions in H.
    apply bind_Ok in H as (merged & _ & H). injection H as <-. simpl.
    apply sorted_by_sorted; [exact str_ltb_asym | exact str_ltb_negtrans].
  - intros p H k b Hin.
    destruct (build_payload_from_buckets _ _ _ H k b Hin) as [[]|[rows ->]].
    apply build_registers_sorted.
Qed.

End Sortedness.

(** ** Keys of a dictionary *)

Section DictKeys.
Variable V : Type.
Implicit Types (d : dict V) (k : str) (v : V).

Lemma dict_get_None k d : dict_get k d = None <-> ~ In k (dict_keys d).
Proof.
  induction d as [|[k' v'] r IH]; simpl; [tauto|].
  destruct (str_eqb k k') eqn:E.
  - apply str_eqb_eq in E. subst. split; [discriminate | tauto].
  - apply str_eqb_neq in E. rewrite IH. split; [|tauto].
    intros H [H'|H']; [congruence | tauto].
Qed.

Lemma dict_mem_false k d : dict_mem k d = false <-> ~ In k (dict_keys d).
Proof.
  rewrite <- dict_get_None. unfold dict_mem.
  destruct (dict_get k d); split; congruence.
Qed.

Lemma dict_keys_update k f d : dict_keys (dict_update k f d) = dict_keys d.
Proof.
  induction d as [|[k' v'] r IH]; simpl; [reflexivity|].
  destruct (str_eqb k k'); simpl; [reflexivity | now rewrite IH].
Qed.

Lemma dict_keys_set k v d :
  dict_keys (dict_set k v d)
  = if dict_mem k d then dict_keys d else dict_keys d ++ [k].
Proof.
  unfold dict_mem. induction d as [|[k' v'] r IH]; simpl; [reflexivity|].
  destruct (str_eqb k k'); simpl; [reflexivity|].
  rewrite IH. now destruct (dict_get k r).
Qed.

Lemma NoDup_snoc (l : list str) (k : str) :
  NoDup l -> ~ In k l -> NoDup (l ++ [k]).
Proof.
  induction 1 as [|x r Hx Hr IH]; simpl; intro Hk.
  - repeat constructor. tauto.
  - constructor.
    + rewrite in_app_iff. simpl. intuition congruence.
    + apply IH. tauto.
Qed.

Lemma NoDup_dict_set k v d :
  NoDup (dict_keys d) -> NoDup (dict_keys (dict_set k v d)).
Proof.
  intro H. rewrite dict_keys_set.
  destruct (dict_mem k d) eqn:E; [exact H|].
  apply NoDup_snoc; [exact H | now apply dict_mem_false].
Qed.

Lemma NoDup_dict_setdefault k v d :
  NoDup (dict_keys d) -> NoDup (dict_keys (dict_setdefault k v d)).
Proof.
  intro H. unfold dict_setdefault.
  destruct (dict_mem k d); [exact H | now apply NoDup_dict_set].
Qed.

Lemma In_dict_get k v d :
  NoDup (dict_keys d) -> In (k, v) d -> dict_get k d = Some v.
Proof.
  induction d as [|[k' v'] r IH]; simpl; [tauto|].
  intros Hnd [[= -> ->]|Hin].
  - now rewrite str_eqb_refl.
  - inversion Hnd as [|? ? Hk Hr]; subst.
    destruct (str_eqb k k') eqn:E; [|now apply IH].
    apply str_eqb_eq in E. subst k'. exfalso. apply Hk.
    change k with (fst (k, v)). now apply in_map.
Qed.

Lemma In_dict_values v d :
  NoDup (dict_keys d) -> In v (dict_values d) ->
  exists k, dict_get k d = Some v.
Proof.
  intros Hnd Hin. unfold dict_values in Hin.
  apply in_map_iff in Hin as ([k v'] & E & Hin). simpl in E. subst v'.
  exists k. now apply In_dict_get.
Qed.

Lemma dict_get_values k v d : dict_get k d = Some v -> In v (dict_values d).
Proof.
  intro H. apply dict_get_in in H. unfold dict_values.
  change v with (snd (k, v)). now apply in_map.
Qed.

End DictKeys.

(** ** The merger, stage by stage *)

Section Stages.
Context {U : PyBuiltins}.

Lemma store_row_get model metrics metric_id register fresh k :
  dict_get k (store_row model metrics (metric_id, register, fresh))
  = if str_eqb k metric_id
    then Some (set_model_register model register
                 (or_else (dict_get metric_id metrics) fresh))
    else dict_get k metrics.
Proof.
  unfold store_row. destruct (str_eqb k metric_id) eqn:E.
  - apply str_eqb_eq in E. subst k.
    now rewrite dict_get_update_same, dict_get_setdefault_same.
  - apply str_eqb_neq in E.
    now rewrite dict_get_update_other, dict_get_setdefault_other.
Qed.

Lemma store_row_NoDup model metrics c :
  NoDup (dict_keys metrics) ->
  NoDup (dict_keys (store_row model metrics c)).
Proof.
  destruct c as [[metric_id register] fresh]. intro H. unfold store_row.
  rewrite dict_keys_update. now apply NoDup_dict_setdefault.
Qed.

Lemma fold_update_get metric_id (overrides : dict Z) (metrics : dict metric) k :
  dict_get k
    (fold_left
       (fun metrics (o : str * Z) =>
          dict_update metric_id (set_model_register (fst o) (snd o)) metrics)
       overrides metrics)
  = if str_eqb k metric_id
    then option_map (apply_overrides overrides) (dict_get metric_id metrics)
    else dict_get k metrics.
Proof.
  revert metrics; induction overrides as [|[model register] rest IH];
    intro metrics; simpl.
  - destruct (str_eqb k metric_id) eqn:E; [|reflexivity].
    apply str_eqb_eq in E. subst. now destruct (dict_get metric_id metrics).
  - rewrite IH. destruct (str_eqb k metric_id) eqn:E.
    + rewrite dict_get_update_same.
      now destruct (dict_get metric_id metrics).
    + apply dict_get_update_other. now apply str_eqb_neq.
Qed.

Lemma fold_update_keys metric_id (overrides : dict Z) (metrics : dict metric) :
  dict_keys
    (fold_left
       (fun metrics (o : str * Z) =>
          dict_update metric_id (set_model_register (fst o) (snd o)) metrics)
       overrides metrics)
  = dict_keys metrics.
Proof.
  revert metrics; induction overrides as [|o rest IH]; intro metrics; simpl;
    [reflexivity|].
  now rewrite IH, dict_keys_update.
Qed.

Lemma apply_fallback_get metrics metric_id overrides k :
  dict_get k (apply_fallback metrics (metric_id, overrides))
  = if str_eqb k metric_id
    then Some (apply_overrides overrides
                 (or_else (dict_get metric_id metrics) (fallback_metric metric_id)))
    else dict_get k metrics.
Proof.
  unfold apply_fallback. rewrite fold_update_get.
  destruct (str_eqb k metric_id) eqn:E.
  - now rewrite dict_get_setdefault_same.
  - apply dict_get_setdefault_other. now apply str_eqb_neq.
Qed.

Lemma apply_fallback_NoDup metrics entry :
  NoDup (dict_keys metrics) ->
  NoDup (dict_keys (apply_fallback metrics entry)).
Proof.
  destruct entry as [metric_id overrides]. intro H. unfold apply_fallback.
  rewrite fold_update_keys. now apply NoDup_dict_setdefault.
Qed.

(** The fallback table names each identifier once, so an identifier meets
    at most one entry. *)
Lemma apply_fallbacks_get metrics k :
  dict_get k (apply_fallbacks metrics)
  = match dict_get k FALLBACK_METRICS with
    | Some overrides =>
        Some (apply_overrides overrides
                (or_else (dict_get k metrics) (fallback_metric k)))
    | None => dict_get k metrics
    end.
Proof.
  unfold apply_fallbacks, FALLBACK_METRICS. cbv [fold_left].
  rewrite !apply_fallback_get. simpl dict_get.
  destruct (str_eqb k (lit "meter_power")) eqn:E1.
  { apply str_eqb_eq in E1. subst k. reflexivity. }
  destruct (str_eqb k (lit "grid_import_energy")) eqn:E2.
  { apply str_eqb_eq in E2. subst k. reflexivity. }
  destruct (str_eqb k (lit "grid_export_energy")) eqn:E3.
  { apply str_eqb_eq in E3. subst k. reflexivity. }
  reflexivity.
Qed.

Lemma apply_fallbacks_NoDup metrics :
  NoDup (dict_keys metrics) -> NoDup (dict_keys (apply_fallbacks metrics)).
Proof.
  intro H. unfold apply_fallbacks.
  induction FALLBACK_METRICS as [|e r IH] in metrics, H |- *; simpl;
    [exact H|].
  apply IH. now apply apply_fallback_NoDup.
Qed.

Lemma finish_get metrics k :
  dict_get k (finish metrics) = option_map finish_metric (dict_get k metrics).
Proof.
  unfold finish. induction metrics as [|[k' m] r IH]; simpl; [reflexivity|].
  destruct (str_eqb k k'); [reflexivity | exact IH].
Qed.

Lemma finish_keys metrics : dict_keys (finish metrics) = dict_keys metrics.
Proof.
  unfold finish, dict_keys. rewrite map_map. reflexivity.
Qed.

End Stages.

(** ** Invariants of the merged collection *)

Lemma numeric_type_declared k type_name default_words :
  dict_get k NUMERIC_TYPES = Some (type_name, default_words) ->
  In type_name DECLARED_TYPES.
Proof.
  intro H. apply dict_get_in in H. unfold NUMERIC_TYPES in H. simpl In in H.
  repeat (destruct H as [H|H]; [injection H as <- <- <-; simpl; tauto|]).
  contradiction.
Qed.

Lemma fallback_entry k overrides :
  dict_get k FALLBACK_METRICS = Some overrides ->
  exists register, overrides = [(lit "SG50RS", register)].
Proof.
  intro H. apply dict_get_in in H. unfold FALLBACK_METRICS in H. simpl In in H.
  repeat (destruct H as [H|H]; [injection H as <- <-; eexists; reflexivity|]).
  contradiction.
Qed.

Lemma dict_set_not_nil (V : Type) k (v : V) d : dict_set k v d <> [].
Proof. destruct d as [|[k' v'] r]; simpl; [|destruct (str_eqb k k')]; discriminate. Qed.

Section Invariants.
Context {U : PyBuiltins}.

Lemma merge_rows_invariant (P : dict metric -> Prop) model :
  (forall d row c, P d -> read_row row = Ok (Some c) -> P (store_row model d c)) ->
  forall rows d d', P d -> merge_rows model d rows = Ok d' -> P d'.
Proof.
  intro Hstep. induction rows as [|row rest IH]; simpl; intros d d' Hd H.
  - now injection H as <-.
  - apply bind_Ok in H as (d1 & H1 & H). unfold merge_row in H1.
    apply bind_Ok in H1 as (c & Hc & H1).
    destruct c as [c|]; injection H1 as <-.
    + eapply IH; [|exact H]. now apply Hstep with (row := row).
    + eapply IH; [exact Hd | exact H].
Qed.

Lemma merge_tables_invariant (P : dict metric -> Prop) (fs : files) :
  (forall model d row c,
     P d -> read_row row = Ok (Some c) -> P (store_row model d c)) ->
  forall definitions d d',
    P d -> merge_tables fs definitions d = Ok d' -> P d'.
Proof.
  intro Hstep. induction definitions as [|def rest IH]; simpl; intros d d' Hd H.
  - now injection H as <-.
  - destruct (fs (path def)) as [rows|]; [|discriminate].
    apply bind_Ok in H as (d1 & H1 & H).
    eapply IH; [|exact H].
    eapply merge_rows_invariant; [apply Hstep | exact Hd | exact H1].
Qed.

Lemma store_row_merged model d row c :
  merged_catalog d -> read_row row = Ok (Some c) ->
  merged_catalog (store_row model d c).
Proof.
  intros [Hnd Hall] Hrow. split; [now apply store_row_NoDup|].
  destruct c as [[metric_id register] fresh].
  apply read_row_inv in Hrow
    as (dt & ty & dw & st & nm & un & rt & Hrow).
  decompose [and] Hrow. clear Hrow.
  intros k m. rewrite store_row_get.
  destruct (str_eqb k metric_id) eqn:E; [|apply Hall].
  apply str_eqb_eq in E. subst k. intros [= <-].
  destruct (dict_get metric_id d) as [m0|] eqn:G; simpl or_else.
  - destruct (Hall _ _ G). split; simpl; try assumption.
    apply dict_set_not_nil.
  - split; simpl; try assumption.
    + apply dict_set_not_nil.
    + match goal with E : m_read fresh = _ |- _ => rewrite E end. simpl.
      eapply numeric_type_declared; eassumption.
Qed.

Lemma merge_tables_merged fs definitions d d' :
  merged_catalog d -> merge_tables fs definitions d = Ok d' ->
  merged_catalog d'.
Proof.
  apply (merge_tables_invariant merged_catalog).
  intros model d0 row c. apply store_row_merged.
Qed.

Lemma merged_catalog_nil : merged_catalog [].
Proof. split; [constructor | discriminate]. Qed.

(** What the fallback step leaves under an identifier: the metric that was
    there, the same with the override's register assigned, or the
    hand-written metric with the override's register assigned. *)
Lemma apply_fallbacks_inv merged k m1 :
  dict_get k (apply_fallbacks merged) = Some m1 ->
  match dict_get k FALLBACK_METRICS with
  | Some overrides =>
      exists register,
        overrides = [(lit "SG50RS", register)]
        /\ m1 = set_model_register (lit "SG50RS") register
                  (or_else (dict_get k merged) (fallback_metric k))
  | None => dict_get k merged = Some m1
  end.
Proof.
  rewrite apply_fallbacks_get.
  destruct (dict_get k FALLBACK_METRICS) as [overrides|] eqn:F; [|tauto].
  destruct (fallback_entry _ F) as [register ->].
  intros [= <-]. now exists register.
Qed.

(** Every metric of the output is a finished metric of the collection the
    fallback step left. *)
Lemma output_metric_inv fs out m :
  build_definitions fs = Ok out -> In m (metrics out) ->
  exists merged k m1,
    merge_tables fs CSV_DEFINITIONS [] = Ok merged
    /\ merged_catalog merged
    /\ dict_get k (apply_fallbacks merged) = Some m1
    /\ m = finish_metric m1.
Proof.
  unfold build_definitions. intros H Hin.
  apply bind_Ok in H as (merged & Hm & H). injection H as <-.
  simpl in Hin. apply sorted_by_in in Hin.
  assert (W : merged_catalog merged)
    by (eapply merge_tables_merged; [apply merged_catalog_nil | exact Hm]).
  apply In_dict_values in Hin as [k Hk].
  - rewrite finish_get in Hk.
    destruct (dict_get k (apply_fallbacks merged)) as [m1|] eqn:G;
      [|discriminate].
    injection Hk as <-. now exists merged, k, m1.
  - rewrite finish_keys. apply apply_fallbacks_NoDup, W.
Qed.

Lemma output_metric_conv fs merged k m1 :
  merge_tables fs CSV_DEFINITIONS [] = Ok merged ->
  dict_get k (apply_fallbacks merged) = Some m1 ->
  exists out,
    build_definitions fs = Ok out /\ In (finish_metric m1) (metrics out).
Proof.
  intros Hm Hk. unfold build_definitions. rewrite Hm. simpl.
  eexists. split; [reflexivity|]. simpl.
  apply sorted_by_in. apply dict_get_values with (k := k).
  now rewrite finish_get, Hk.
Qed.

End Invariants.

(** ** Example tables *)

Example ref_meter_power_1234_merged :
  @merge_tables ref_builtins meter_power_1234_files CSV_DEFINITIONS []
  = Ok meter_power_1234_merged.
Proof. vm_compute. reflexivity. Qed.

(** ** The default register *)

Section DefaultRegister.
Context {U : PyBuiltins}.

Lemma after_fallbacks_models merged k m1 :
  merged_catalog merged ->
  dict_get k (apply_fallbacks merged) = Some m1 ->
  m_models m1 <> [] /\ m_default m1 = None /\ m_id m1 = k.
Proof.
  intros [_ Hall] H. apply apply_fallbacks_inv in H.
  destruct (dict_get k FALLBACK_METRICS) as [overrides|].
  - destruct H as (register & _ & ->). simpl.
    split; [apply dict_set_not_nil|].
    destruct (dict_get k merged) as [m0|] eqn:G; simpl.
    + destruct (Hall _ _ G). now split.
    + now split.
  - destruct (Hall _ _ H). now repeat split.
Qed.

(** C4. In the output catalog every metric has a model, and its
    [default.register] is the register of the first model of its [models]
    mapping in insertion order.  The step that sets the default leaves it
    absent on a metric with no model. *)
Theorem default_register_is_first_model (fs : files) (out : output) :
  build_definitions fs = Ok out ->
  (forall m, In m (metrics out) ->
     exists model register rest,
       m_models m = (model, register) :: rest
       /\ m_default m = Some register)
  /\ (forall m0, m_models m0 = [] -> m_default m0 = None ->
        m_default (finish_metric m0) = None).
Proof.
  intro H. split.
  - intros m Hin.
    destruct (output_metric_inv _ _ H Hin) as (merged & k & m1 & Hm & W & Hk & ->).
    destruct (@after_fallbacks_models _ _ _ W Hk) as (Hmodels & _ & _).
    destruct (m_models m1) as [|[model register] rest] eqn:E; [contradiction|].
    exists model, register, rest. simpl. now rewrite E.
  - intros m0 E D. simpl. now rewrite E.
Qed.

End DefaultRegister.

Lemma default_register_is_first_model_witness :
  exists out,
    @build_definitions ref_builtins example_files = Ok out
    /\ forall m, In m (metrics out) ->
         exists model register rest,
           m_models m = (model, register) :: rest
           /\ m_default m = Some register.
Proof.
  eexists. split; [vm_compute; reflexivity|].
  apply (@default_register_is_first_model ref_builtins example_files).
  vm_compute. reflexivity.
Defined.

Lemma catalogs_are_sorted_witness :
  (exists out,
     @build_definitions ref_builtins example_files = Ok out
     /\ StronglySorted id_le (metrics out))
  /\ (exists p,
        @RegisterDefaults.build_payload ref_builtins example_files = Ok p
        /\ forall inverter_type b,
             In (inverter_type, b) (RegisterDefaults.inverter_types p) ->
             StronglySorted address_length_le (RegisterDefaults.registers b)).
Proof.
  split; eexists; (split; [vm_compute; reflexivity|]).
  - apply (proj1 (@catalogs_are_sorted ref_builtins example_files)).
    vm_compute. reflexivity.
  - apply (proj2 (@catalogs_are_sorted ref_builtins example_files)).
    vm_compute. reflexivity.
Defined.

(** ** The read type *)


Section ReadType.
Context {U : PyBuiltins}.

Lemma fallback_key k overrides :
  dict_get k FALLBACK_METRICS = Some overrides ->
  k = lit "meter_power" \/ k = lit "grid_import_energy"
  \/ k = lit "grid_export_energy".
Proof.
  intro H. apply dict_get_in in H. unfold FALLBACK_METRICS in H. simpl In in H.
  repeat (destruct H as [H|H]; [injection H as <- <-; tauto|]).
  contradiction.
Qed.


End ReadType.


(** ** The fallback step *)

(** The string table gives [meter_power] the register 1234 for SG50RS;
    after the fallback step the register is the table's 5600. *)
Lemma fallback_replaces_register :
  ~ @overrides_only_add_missing ref_builtins meter_power_1234_merged.
Proof.
  intro H.
  destruct (H (lit "meter_power")
              {| m_id := lit "meter_power";
                 m_name := lit "Meter Power";
                 m_unit := None;
                 m_category := None;
                 m_default := None;
                 m_models := [(lit "SG50RS", 1234)];
                 m_read := {| r_function := lit "input"; r_words := 1;
                              r_type := lit "uint16"; r_scale := Float_1_0 |};
                 m_discovery := None |}
              {| m_id := lit "meter_power";
                 m_name := lit "Meter Power";
                 m_unit := None;
                 m_category := None;
                 m_default := None;
                 m_models := [(lit "SG50RS", 5600)];
                 m_read := {| r_function := lit "input"; r_words := 1;
                              r_type := lit "uint16"; r_scale := Float_1_0 |};
                 m_discovery := None |}
              eq_refl eq_refl) as [_ [Hmodels _]].
  specialize (Hmodels (lit "SG50RS") 1234 eq_refl).
  vm_compute in Hmodels. discriminate.
Qed.

Section FallbackFrame.
Context {U : PyBuiltins}.

Lemma set_model_register_get model register m model' :
  dict_get model' (m_models (set_model_register model register m))
  = if str_eqb model' model then Some register
    else dict_get model' (m_models m).
Proof.
  simpl. destruct (str_eqb model' model) eqn:E.
  - apply str_eqb_eq in E. subst. apply dict_get_set_same.
  - apply dict_get_set_other. now apply str_eqb_neq.
Qed.

(** The fallback step on a metric that was there before: every field but
    [models] is kept, and in [models] the registers the fallback table names
    for the identifier are assigned. *)
Lemma apply_fallbacks_frame (before : dict metric) (metric_id : str) (m : metric) :
  dict_get metric_id before = Some m ->
  exists m',
    dict_get metric_id (apply_fallbacks before) = Some m'
    /\ m_read m' = m_read m
    /\ m_id m' = m_id m
    /\ m_name m' = m_name m
    /\ m_unit m' = m_unit m
    /\ m_category m' = m_category m
    /\ m_default m' = m_default m
    /\ m_discovery m' = m_discovery m
    /\ forall model,
         dict_get model (m_models m')
         = match fallback_register metric_id model with
           | Some register => Some register
           | None => dict_get model (m_models m)
           end.
Proof.
  intro H. rewrite apply_fallbacks_get. unfold fallback_register.
  destruct (dict_get metric_id FALLBACK_METRICS) as [overrides|] eqn:F.
  - destruct (fallback_entry _ F) as [register ->].
    rewrite H. simpl or_else. eexists. split; [reflexivity|].
    repeat split. intro model.
    change (apply_overrides [(lit "SG50RS", register)] m)
      with (set_model_register (lit "SG50RS") register m).
    rewrite set_model_register_get. simpl dict_get.
    now destruct (str_eqb model (lit "SG50RS")).
  - exists m. now repeat split.
Qed.

(** C3, as the code has it. The fallback step leaves the read shape of a
    metric that was there before as it was, and every other field but the
    [models] mapping; in that mapping it assigns the register of each model
    the fallback table names for the identifier, whether or not the model
    had a register, and leaves the other models' registers alone. *)
Theorem fallback_overrides_frame (before : dict metric) (metric_id : str) (m : metric) :
  dict_get metric_id before = Some m ->
  exists m',
    dict_get metric_id (apply_fallbacks before) = Some m'
    /\ (r_function (m_read m') = r_function (m_read m)
        /\ r_words (m_read m') = r_words (m_read m)
        /\ r_type (m_read m') = r_type (m_read m)
        /\ r_scale (m_read m') = r_scale (m_read m))
    /\ m_id m' = m_id m
    /\ m_name m' = m_name m
    /\ m_unit m' = m_unit m
    /\ m_category m' = m_category m
    /\ m_default m' = m_default m
    /\ m_discovery m' = m_discovery m
    /\ forall model,
         dict_get model (m_models m')
         = match fallback_register metric_id model with
           | Some register => Some register
           | None => dict_get model (m_models m)
           end.
Proof.
  intro H. destruct (apply_fallbacks_frame _ _ H) as (m' & Hget & Hread & Hrest).
  exists m'. split; [exact Hget|]. split; [|exact Hrest].
  now rewrite Hread.
Qed.

End FallbackFrame.

Lemma fallback_overrides_frame_witness :
  exists m',
    dict_get (lit "meter_power")
      (@apply_fallbacks ref_builtins meter_power_1234_merged) = Some m'
    /\ r_type (m_read m') = lit "uint16"
    /\ dict_get (lit "SG50RS") (m_models m') = Some 5600.
Proof.
  destruct (@fallback_overrides_frame ref_builtins meter_power_1234_merged
              (lit "meter_power")
              {| m_id := lit "meter_power";
                 m_name := lit "Meter Power";
                 m_unit := None;
                 m_category := None;
                 m_default := None;
                 m_models := [(lit "SG50RS", 1234)];
                 m_read := {| r_function := lit "input"; r_words := 1;
                              r_type := lit "uint16"; r_scale := Float_1_0 |};
                 m_discovery := None |} eq_refl)
    as (m' & Hget & (_ & _ & Htype & _) & _ & _ & _ & _ & _ & _ & Hmodels).
  exists m'. split; [exact Hget|]. split.
  - now rewrite Htype.
  - now rewrite Hmodels.
Defined.

(** ** Two rows of one table with one identifier *)

Section LastRowWins.
Context {U : PyBuiltins}.

Lemma merge_rows_app model d rows1 rows2 d' :
  merge_rows model d (rows1 ++ rows2) = Ok d' ->
  exists d1, merge_rows model d rows1 = Ok d1 /\ merge_rows model d1 rows2 = Ok d'.
Proof.
  revert d; induction rows1 as [|row rest IH]; simpl; intros d H.
  - now exists d.
  - apply bind_Ok in H as (d0 & H0 & H). rewrite H0. simpl. now apply IH.
Qed.

(** Rows that do not yield an identifier leave its metric alone. *)
Lemma merge_rows_other_ids model metric_id rows :
  (forall row, In row rows ->
     forall c, read_row row = Ok (Some c) -> fst (fst c) <> metric_id) ->
  forall d d', merge_rows model d rows = Ok d' ->
    dict_get metric_id d' = dict_get metric_id d.
Proof.
  induction rows as [|row rest IH]; simpl; intros Hrows d d' H.
  - now injection H as <-.
  - apply bind_Ok in H as (d0 & H0 & H).
    rewrite (IH (fun r Hr => Hrows r (or_intror Hr)) _ _ H).
    unfold merge_row in H0. apply bind_Ok in H0 as (c & Hc & H0).
    destruct c as [[[id register] fresh]|]; injection H0 as <-; [|reflexivity].
    change (dict_get metric_id (store_row model d (id, register, fresh))
            = dict_get metric_id d).
    rewrite store_row_get.
    destruct (str_eqb metric_id id) eqn:E; [|reflexivity].
    apply str_eqb_eq in E. subst id. exfalso.
    exact (Hrows row (or_introl eq_refl) _ Hc eq_refl).
Qed.


Lemma merge_rows_last model d earlier row later metric_id register fresh d' :
  merge_rows model d (earlier ++ row :: later) = Ok d' ->
  read_row row = Ok (Some (metric_id, register, fresh)) ->
  (forall row', In row' later ->
     forall c, read_row row' = Ok (Some c) -> fst (fst c) <> metric_id) ->
  exists m, dict_get metric_id d' = Some m
            /\ dict_get model (m_models m) = Some register.
Proof.
  intros H Hrow Hlater.
  apply merge_rows_app in H as (d1 & _ & H). simpl in H.
  apply bind_Ok in H as (d2 & H2 & H).
  rewrite (merge_rows_other_ids _ _ Hlater _ H).
  unfold merge_row in H2. rewrite Hrow in H2. simpl in H2.
  injection H2 as <-.
  change (exists m,
    dict_get metric_id (store_row model d1 (metric_id, register, fresh)) = Some m
    /\ dict_get model (m_models m) = Some register).
  rewrite store_row_get, str_eqb_refl.
  eexists. split; [reflexivity|].
  now rewrite set_model_register_get, str_eqb_refl.
Qed.


End LastRowWins.


(** ** The example of the specification *)

(** The identifier of the row is [meter_active_power], so the row's metric
    is not the override's. *)
Lemma row_metric_is_not_meter_power :
  ~ @row_and_override_make_one_metric ref_builtins.
Proof.
  intros (out & m & _ & _ & (register & fresh & Hrow) & Hid & _).
  rewrite Hid in Hrow. vm_compute in Hrow. discriminate.
Qed.

Section Example.
Context {U : PyBuiltins}.

Lemma int_of_str_5600 : int_of_str (lit "5600") = Some 5600.
Proof.
  rewrite int_of_str_digits;
    [reflexivity | discriminate | simpl; lia | reflexivity].
Qed.

Lemma sanitise_meter_active_power :
  sanitise_metric_id (lit "Meter Active Power") = lit "meter_active_power".
Proof.
  unfold sanitise_metric_id.
  rewrite strip_ascii by reflexivity. rewrite lower_ascii by reflexivity.
  reflexivity.
Qed.

Lemma classify_unit_kW : classify_unit (lit "kW") = Some (lit "power").
Proof. unfold classify_unit. rewrite lower_ascii by reflexivity. reflexivity. Qed.

Lemma read_meter_power_row :
  read_row meter_power_row
  = Ok (Some (lit "meter_active_power", 5600, meter_power_row_metric)).
Proof.
  unfold read_row.
  change (row_item (lit "data_type") meter_power_row) with (Ok (Some (lit "S16"))).
  change (row_item (lit "name") meter_power_row)
    with (Ok (Some (lit "Meter Active Power"))).
  change (row_item (lit "register_type") meter_power_row) with (Ok (Some (lit "3X"))).
  change (row_get (lit "address_start") meter_power_row) with (Some (lit "5600")).
  change (row_get (lit "address_end") meter_power_row) with (Some (lit "5600")).
  change (row_get (lit "scale_factor") meter_power_row) with (@None str).
  change (row_get_default (lit "unit") [] meter_power_row) with (Some (lit "kW")).
  cbn [bind as_str].
  rewrite (@strip_ascii _ (lit "S16")) by reflexivity.
  rewrite upper_ascii by reflexivity.
  change (dict_get (map ascii_upper (strip_by ascii_is_space (lit "S16"))) NUMERIC_TYPES)
    with (Some (lit "int16", 1)).
  cbn iota beta.
  change (nonempty (Some (lit "5600"))) with (Some (lit "5600")).
  cbn iota beta. rewrite int_of_str_5600.
  rewrite sanitise_meter_active_power.
  change (lit "meter_active_power") with (109 :: lit "eter_active_power").
  cbn iota beta. cbn [bind as_str].
  rewrite (@strip_ascii _ (lit "kW")) by reflexivity.
  change (base_unit (strip_by ascii_is_space (lit "kW"))) with (107 :: lit "W").
  cbn iota beta.
  change (107 :: lit "W") with (lit "kW").
  rewrite classify_unit_kW, read_function_3X.
  rewrite (@strip_ascii _ (lit "Meter Active Power")) by reflexivity.
  unfold row_words.
  change (nonempty (Some (lit "5600"))) with (Some (lit "5600")).
  cbn iota beta. rewrite int_of_str_5600.
  reflexivity.
Qed.

Lemma fallback_metric_meter_power :
  fallback_metric (lit "meter_power")
  = {| m_id := lit "meter_power"; m_name := lit "Meter Power";
       m_unit := Some (lit "W"); m_category := Some (lit "power");
       m_default := None; m_models := [];
       m_read := {| r_function := lit "input"; r_words := 1;
                    r_type := lit "int16"; r_scale := Int_1 |};
       m_discovery := None |}.
Proof.
  unfold fallback_metric. rewrite title_ascii by reflexivity. reflexivity.
Qed.

Lemma fallback_metric_grid_import_energy :
  fallback_metric (lit "grid_import_energy")
  = {| m_id := lit "grid_import_energy"; m_name := lit "Grid Import Energy";
       m_unit := Some (lit "kWh"); m_category := Some (lit "energy");
       m_default := None; m_models := [];
       m_read := {| r_function := lit "input"; r_words := 2;
                    r_type := lit "uint32le"; r_scale := Float_0_1 |};
       m_discovery := None |}.
Proof.
  unfold fallback_metric. rewrite title_ascii by reflexivity. reflexivity.
Qed.

Lemma fallback_metric_grid_export_energy :
  fallback_metric (lit "grid_export_energy")
  = {| m_id := lit "grid_export_energy"; m_name := lit "Grid Export Energy";
       m_unit := Some (lit "kWh"); m_category := Some (lit "energy");
       m_default := None; m_models := [];
       m_read := {| r_function := lit "input"; r_words := 2;
                    r_type := lit "uint32le"; r_scale := Float_0_1 |};
       m_discovery := None |}.
Proof.
  unfold fallback_metric. rewrite title_ascii by reflexivity. reflexivity.
Qed.

Lemma merge_example_files :
  merge_tables example_files CSV_DEFINITIONS []
  = Ok [ (lit "meter_active_power",
          set_model_register (lit "SG50RS") 5600 meter_power_row_metric) ].
Proof.
  change (merge_tables example_files CSV_DEFINITIONS [])
    with (metrics <- (metrics <- merge_row (lit "SG50RS") [] meter_power_row ;;
                      Ok metrics) ;;
          Ok metrics).
  unfold merge_row. rewrite read_meter_power_row. reflexivity.
Qed.

(** C1, as the code has it. For the row of the example in the string table
    the output holds four metrics, in this order.  The row's identifier is
    [meter_active_power], and its metric has read type [int16], one word,
    category [power], register 5600 for SG50RS and by default, and the
    category's discovery policy, with the method [power] and no prompt.
    The metric [meter_power] comes from the fallback table alone: read type
    [int16], one word, category [power], register 5600 for SG50RS and by
    default, and the authored discovery policy with the method [power] and
    the prompt. *)
Theorem example_output :
  build_definitions example_files
  = Ok {| version := 1;
          metrics := [ grid_export_energy_metric; grid_import_energy_metric;
                       meter_active_power_metric; meter_power_metric ] |}
  /\ sanitise_metric_id (lit "Meter Active Power") = lit "meter_active_power"
  /\ exists d,
       m_discovery meter_power_metric = Some d
       /\ d_method d = lit "power"
       /\ d_prompt d = Some (lit "Meter Active Power (kW) [press Enter to skip]: ").
Proof.
  split; [|split].
  - unfold build_definitions. rewrite merge_example_files. cbn [bind].
    unfold apply_fallbacks, FALLBACK_METRICS. cbv [fold_left].
    unfold apply_fallback.
    rewrite fallback_metric_meter_power, fallback_metric_grid_import_energy,
      fallback_metric_grid_export_energy.
    reflexivity.
  - apply sanitise_meter_active_power.
  - eexists. split; [reflexivity|]. split; reflexivity.
Qed.

End Example.

Lemma example_output_witness :
  @build_definitions ref_builtins example_files
  = Ok {| version := 1;
          metrics := [ grid_export_energy_metric; grid_import_energy_metric;
                       meter_active_power_metric; meter_power_metric ] |}.
Proof. exact (proj1 (@example_output ref_builtins)). Defined.

(** ** The register catalog on three rows *)

Example ref_build_registers :
  let b := @RegisterDefaults.build_registers ref_builtins register_rows in
  map (fun e => (RegisterDefaults.e_id e, RegisterDefaults.e_address e,
                 RegisterDefaults.e_length e, RegisterDefaults.e_register_type e))
    (RegisterDefaults.registers b)
  = [ (lit "percent", 4990, 1, lit "input");
      (lit "start_stop", 5017, 1, lit "holding");
      (lit "total_active_power", 5017, 2, lit "input") ]
  /\ RegisterDefaults.source_version b = Some (lit "v1.1.66").
Proof. vm_compute. split; reflexivity. Qed.

(** * Further properties of the two programs *)

(** ** Missing tables *)

Section MissingTables.
Context {U : PyBuiltins}.

(** X1. The metric catalog needs both of its tables: when the string table
    is missing the run raises [FileNotFoundError] for it, before anything
    else; when the string table merges and the hybrid table is missing, it
    raises for the hybrid table; and a run that returns a catalog had both
    tables. *)
Theorem metric_catalog_needs_both_tables (fs : files) :
  (fs STRING_TABLE = None ->
   build_definitions fs = Raise (FileNotFoundError STRING_TABLE))
  /\ (forall rows merged,
        fs STRING_TABLE = Some rows ->
        merge_rows (lit "SG50RS") [] rows = Ok merged ->
        fs HYBRID_TABLE = None ->
        build_definitions fs = Raise (FileNotFoundError HYBRID_TABLE))
  /\ (forall out,
        build_definitions fs = Ok out ->
        exists string_rows hybrid_rows,
          fs STRING_TABLE = Some string_rows
          /\ fs HYBRID_TABLE = Some hybrid_rows).
Proof.
  unfold build_definitions, CSV_DEFINITIONS. simpl merge_tables.
  change (lit "sungrow_string_v1.1.37.csv") with STRING_TABLE.
  change (lit "sungrow_hybrid_v1.1.4.csv") with HYBRID_TABLE.
  split; [|split].
  - intros ->. reflexivity.
  - intros rows merged -> Hm ->. rewrite Hm. reflexivity.
  - intros out H.
    destruct (fs STRING_TABLE) as [rows1|]; [|discriminate].
    simpl in H. apply bind_Ok in H as (d & H & _).
    apply bind_Ok in H as (d1 & _ & H).
    destruct (fs HYBRID_TABLE) as [rows2|]; [|discriminate].
    now exists rows1, rows2.
Qed.


End MissingTables.

Lemma metric_catalog_needs_both_tables_witness :
  @build_definitions ref_builtins (fun _ => None)
  = Raise (FileNotFoundError STRING_TABLE).
Proof.
  apply (proj1 (@metric_catalog_needs_both_tables ref_builtins (fun _ => None))).
  reflexivity.
Defined.


(** ** Rows that abort the run and rows that are skipped *)

Section RowOutcomes.
Context {U : PyBuiltins}.






(** X4. A row is skipped, and the collection left as it was, when its
    type tag is not a recognised one, when its start address is missing,
    empty or does not parse, and when its name leaves no identifier.  The
    first two are decided before the name is read, so such a row is skipped
    even in a table without a [name] column. *)
Theorem skipped_row_changes_nothing
    (model : str) (metrics : dict metric) (row : row) (data_type : str) :
  dict_get (lit "data_type") row = Some (Some data_type) ->
  (dict_get (upper (strip data_type)) NUMERIC_TYPES = None ->
   merge_row model metrics row = Ok metrics)
  /\ (nonempty (row_get (lit "address_start") row) = None ->
      merge_row model metrics row = Ok metrics)
  /\ (forall address_start,
        row_get (lit "address_start") row = Some address_start ->
        int_of_str address_start = None ->
        merge_row model metrics row = Ok metrics)
  /\ (forall address_start register name,
        row_get (lit "address_start") row = Some address_start ->
        int_of_str address_start = Some register ->
        dict_get (upper (strip data_type)) NUMERIC_TYPES <> None ->
        dict_get (lit "name") row = Some (Some name) ->
        sanitise_metric_id name = [] ->
        merge_row model metrics row = Ok metrics).
Proof.
  intro Hdt. unfold merge_row, read_row, row_item. rewrite Hdt.
  cbn [bind as_str].
  destruct (dict_get (upper (strip data_type)) NUMERIC_TYPES)
    as [[type_name default_words]|].
  - split; [discriminate|]. split; [|split].
    + now intros ->.
    + intros s Hs Hi. rewrite Hs.
      destruct s as [|c r]; simpl; [reflexivity | now rewrite Hi].
    + intros s register name Hs Hi _ Hn Hid. rewrite Hs.
      destruct s as [|c r]; simpl.
      * now rewrite int_of_str_empty in Hi.
      * rewrite Hi, Hn. simpl. now rewrite Hid.
  - repeat split; reflexivity.
Qed.

End RowOutcomes.


Lemma skipped_row_changes_nothing_witness :
  @merge_row ref_builtins (lit "SG50RS") []
    [ (lit "data_type", Some (lit "XYZ")) ]
  = Ok [].
Proof.
  apply (proj1 (@skipped_row_changes_nothing ref_builtins (lit "SG50RS") []
           [ (lit "data_type", Some (lit "XYZ")) ] (lit "XYZ") eq_refl)).
  reflexivity.
Defined.

(** ** What holds of every metric of the output *)

Section OutputInvariants.
Context {U : PyBuiltins}.

Lemma merge_tables_invariant_models (P : dict metric -> Prop) (fs : files)
    (definitions : list csv_definition) :
  (forall def d row c,
     In def definitions -> P d -> read_row row = Ok (Some c) ->
     P (store_row (model def) d c)) ->
  forall d d', P d -> merge_tables fs definitions d = Ok d' -> P d'.
Proof.
  induction definitions as [|def rest IH]; simpl; intros Hstep d d' Hd H.
  - now injection H as <-.
  - destruct (fs (path def)) as [rows|]; [|discriminate].
    apply bind_Ok in H as (d1 & H1 & H).
    eapply IH; [| |exact H].
    + intros def' d0 row c Hin. apply Hstep. now right.
    + eapply merge_rows_invariant; [|exact Hd | exact H1].
      intros d0 row c. apply Hstep. now left.
Qed.

(** A property that holds of what a row hands to [setdefault] once its
    register is assigned, and that assigning a register keeps, holds of
    every metric the tables leave. *)
Lemma merged_all (P : str -> metric -> Prop) :
  (forall row metric_id register fresh model,
     In model MODELS ->
     read_row row = Ok (Some (metric_id, register, fresh)) ->
     P metric_id (set_model_register model register fresh)) ->
  (forall k m model register,
     In model MODELS -> P k m -> P k (set_model_register model register m)) ->
  forall fs merged,
    merge_tables fs CSV_DEFINITIONS [] = Ok merged -> all_metrics P merged.
Proof.
  intros Hnew Hset fs merged.
  apply (merge_tables_invariant_models (all_metrics P)); [|discriminate].
  intros def d row [[metric_id register] fresh] Hdef Hd Hrow k m.
  assert (Hmodel : In (model def) MODELS) by now apply in_map.
  rewrite store_row_get. destruct (str_eqb k metric_id) eqn:E; [|apply Hd].
  apply str_eqb_eq in E. subst k. intros [= <-].
  destruct (dict_get metric_id d) as [m0|] eqn:G; simpl or_else.
  - apply Hset; [exact Hmodel | now apply Hd].
  - now apply Hnew with (row := row).
Qed.

(** The same through the fallback step and the last loop: a property of
    the metrics of the output. *)
Lemma output_all (P : str -> metric -> Prop) (Q : metric -> Prop) :
  (forall row metric_id register fresh model,
     In model MODELS ->
     read_row row = Ok (Some (metric_id, register, fresh)) ->
     P metric_id (set_model_register model register fresh)) ->
  (forall k m model register,
     In model MODELS -> P k m -> P k (set_model_register model register m)) ->
  (forall k register,
     fallback_register k (lit "SG50RS") = Some register ->
     P k (set_model_register (lit "SG50RS") register (fallback_metric k))) ->
  (forall k m, P k m -> Q (finish_metric m)) ->
  forall fs out m,
    build_definitions fs = Ok out -> In m (metrics out) -> Q m.
Proof.
  intros Hnew Hset Hfb Hfin fs out m H Hin.
  destruct (output_metric_inv _ _ H Hin) as (merged & k & m1 & Hm & _ & Hk & ->).
  apply (Hfin k). pose proof (merged_all P Hnew Hset fs Hm) as Hall.
  apply apply_fallbacks_inv in Hk. unfold fallback_register in Hfb.
  destruct (dict_get k FALLBACK_METRICS) as [overrides|] eqn:F.
  - destruct Hk as (register & -> & ->).
    destruct (dict_get k merged) as [m0|] eqn:G; simpl or_else.
    + apply Hset; [left; reflexivity | now apply Hall].
    + apply Hfb. rewrite F. reflexivity.
  - now apply Hall.
Qed.

End OutputInvariants.

(** ** Identifiers of the output *)

Lemma head_kept_app p (s t : str) : s <> [] -> head_kept p s -> head_kept p (s ++ t).
Proof. destruct s; simpl; [contradiction | tauto]. Qed.

Lemma rstrip_by_last_kept p s : head_kept p (rev (rstrip_by p s)).
Proof.
  induction s as [|c r IH]; simpl; [exact I|].
  destruct (rstrip_by p r) as [|d r'] eqn:E.
  - destruct (p c) eqn:Ec; simpl; [exact I | exact Ec].
  - change (rev (c :: d :: r')) with (rev (d :: r') ++ [c]).
    apply head_kept_app; [|exact IH].
    simpl. intro H. apply app_eq_nil in H as [_ H]. discriminate.
Qed.

Lemma strip_by_fixed_ends p s :
  strip_by p s = s -> head_kept p s /\ head_kept p (rev s).
Proof.
  intro H. rewrite <- H. unfold strip_by. split.
  - apply rstrip_by_head_kept, lstrip_by_head_kept.
  - apply rstrip_by_last_kept.
Qed.

Lemma head_kept_underscore s :
  head_kept (mem_char [UNDERSCORE]) s -> is_prefix (lit "_") s = false.
Proof.
  destruct s as [|c r]; [reflexivity|].
  unfold head_kept, mem_char. simpl existsb. rewrite orb_false_r. intro H.
  change (is_prefix (lit "_") (c :: r)) with ((UNDERSCORE =? c) && true).
  now rewrite Z.eqb_sym, H.
Qed.

Lemma squeezed_cons p u b c r :
  squeezed p u b (c :: r)
  = if p c then negb b && (c =? u) && squeezed p u true r
    else squeezed p u false r.
Proof. reflexivity. Qed.

Lemma squeezed_no_double b s :
  squeezed (Z.eqb UNDERSCORE) UNDERSCORE b s = true ->
  contains (lit "__") s = false.
Proof.
  revert b; induction s as [|c r IH]; intro b; [reflexivity|].
  rewrite squeezed_cons. intro H.
  change (contains (lit "__") (c :: r))
    with (((UNDERSCORE =? c) && is_prefix (lit "_") r) || contains (lit "__") r).
  destruct (UNDERSCORE =? c) eqn:E.
  - apply andb_true_iff in H as [_ H]. rewrite (IH _ H), orb_false_r.
    destruct r as [|d r']; [reflexivity|].
    rewrite squeezed_cons in H.
    change (is_prefix (lit "_") (d :: r')) with ((UNDERSCORE =? d) && true).
    destruct (UNDERSCORE =? d); [discriminate | reflexivity].
  - now rewrite (IH _ H).
Qed.

Lemma metric_id_shape_well_formed t :
  metric_id_shape t -> t <> [] -> well_formed_id t.
Proof.
  intros (Hid & Hsq & Hst) Hne.
  destruct (@strip_by_fixed_ends (mem_char [UNDERSCORE]) t Hst) as [Hh Hl].
  repeat split; try assumption.
  - now apply head_kept_underscore.
  - now apply head_kept_underscore.
  - exact (@squeezed_no_double false t Hsq).
Qed.

Section OutputIdentifiers.
Context {U : PyBuiltins}.

(** X9. Every identifier of the output catalog is well formed: it is not
    empty, holds only lower-case letters, digits and underscores, neither
    begins nor ends with an underscore and has no two underscores in a
    row.  So is every result of [sanitise_metric_id] that is not empty. *)
Theorem output_identifiers_well_formed :
  (forall fs out m,
     build_definitions fs = Ok out -> In m (metrics out) ->
     well_formed_id (m_id m))
  /\ (forall name,
        sanitise_metric_id name <> [] -> well_formed_id (sanitise_metric_id name)).
Proof.
  split.
  - apply (output_all (fun k m => m_id m = k /\ well_formed_id k)).
    + intros row metric_id register fresh model _ H.
      apply read_row_inv in H as (dt & ty & dw & st & nm & un & rt & H).
      decompose [and] H. clear H. split; [assumption|]. subst metric_id.
      apply metric_id_shape_well_formed; [apply sanitise_metric_id_shape|].
      assumption.
    + intros k m model register _ H. exact H.
    + intros k register H. split; [reflexivity|].
      unfold fallback_register in H.
      destruct (dict_get k FALLBACK_METRICS) as [o|] eqn:F; [|discriminate].
      destruct (fallback_key _ F) as [-> | [-> | ->]];
        (repeat split; try reflexivity; try discriminate;
         intros c Hc; simpl in Hc;
         repeat (destruct Hc as [<-|Hc]; [reflexivity|]); contradiction).
    + intros k m [<- H]. exact H.
  - intros name Hne.
    apply metric_id_shape_well_formed; [apply sanitise_metric_id_shape | exact Hne].
Qed.

End OutputIdentifiers.

Lemma output_identifiers_well_formed_witness :
  well_formed_id (m_id meter_active_power_metric).
Proof.
  apply (proj1 (@output_identifiers_well_formed ref_builtins) example_files
           {| version := 1;
              metrics := [ grid_export_energy_metric; grid_import_energy_metric;
                           meter_active_power_metric; meter_power_metric ] |}).
  - vm_compute. reflexivity.
  - right. right. left. reflexivity.
Defined.

(** ** Discovery policies *)

Lemma category_default c :
  dict_get c DISCOVERY_BY_CATEGORY
  = if existsb (str_eqb c)
         [ lit "power"; lit "energy"; lit "voltage"; lit "current";
           lit "frequency" ]
    then Some (method_only c) else None.
Proof.
  unfold DISCOVERY_BY_CATEGORY. cbn [dict_get existsb].
  repeat match goal with
  | |- context [str_eqb c ?k] =>
      let E := fresh "E" in
      destruct (str_eqb c k) eqn:E;
      [apply str_eqb_eq in E; subst c; reflexivity | cbn [orb]]
  end.
  reflexivity.
Qed.

Section Discovery.
Context {U : PyBuiltins}.

(** X8. Every metric of the output carries the discovery policy its
    identifier and category call for: the authored policy, which takes
    precedence, for the three identifiers that have one; the bare method
    named after the category for a metric of category power, energy,
    voltage, current or frequency; and no policy for any other metric. *)
Theorem discovery_policy_of_every_metric (fs : files) (out : output) (m : metric) :
  build_definitions fs = Ok out -> In m (metrics out) ->
  m_discovery m = expected_discovery (m_id m) (m_category m).
Proof.
  revert fs out m.
  apply (output_all (fun _ m => m_discovery m = None)).
  - intros row metric_id register fresh model _ H.
    apply read_row_inv in H as (dt & ty & dw & st & nm & un & rt & H).
    decompose [and] H. assumption.
  - intros k m model register _ H. exact H.
  - reflexivity.
  - intros k m H. unfold expected_discovery, finish_metric.
    cbn [m_discovery m_id m_category]. rewrite H.
    destruct (dict_get (m_id m) SPECIAL_DISCOVERY); [reflexivity|].
    destruct (m_category m) as [c|]; [|reflexivity].
    rewrite category_default. now destruct (existsb _ _).
Qed.

End Discovery.

Lemma discovery_policy_of_every_metric_witness :
  m_discovery meter_active_power_metric
  = expected_discovery (m_id meter_active_power_metric)
      (m_category meter_active_power_metric).
Proof.
  apply (@discovery_policy_of_every_metric ref_builtins example_files
           {| version := 1;
              metrics := [ grid_export_energy_metric; grid_import_energy_metric;
                           meter_active_power_metric; meter_power_metric ] |}).
  - vm_compute. reflexivity.
  - right. right. left. reflexivity.
Defined.

(** ** Read shapes and models of the output *)

Lemma numeric_type_entry k type_name w :
  dict_get k NUMERIC_TYPES = Some (type_name, w) ->
  In (type_name, w)
    [ (lit "uint16", 1); (lit "int16", 1); (lit "uint32", 2);
      (lit "int32", 2); (lit "uint64", 4); (lit "float32", 2) ].
Proof.
  intro H. apply dict_get_in in H. unfold NUMERIC_TYPES in H. simpl In in H.
  repeat (destruct H as [H|H]; [injection H as _ <- <-; simpl; tauto|]).
  contradiction.
Qed.

Lemma numeric_type_words_unique k1 k2 type_name w1 w2 :
  dict_get k1 NUMERIC_TYPES = Some (type_name, w1) ->
  dict_get k2 NUMERIC_TYPES = Some (type_name, w2) ->
  w1 = w2 /\ 1 <= w1.
Proof.
  intros H1 H2. apply numeric_type_entry in H1, H2. simpl In in H1, H2.
  repeat (destruct H1 as [H1|H1]); try contradiction;
    pose proof (f_equal fst H1) as T1; pose proof (f_equal snd H1) as W1;
    simpl in T1, W1; subst type_name w1;
    repeat (destruct H2 as [H2|H2]); try contradiction;
    pose proof (f_equal fst H2) as T2; pose proof (f_equal snd H2) as W2;
    simpl in T2, W2; subst w2;
    (split; [reflexivity || (vm_compute in T2; discriminate T2) | lia]).
Qed.

Lemma no_numeric_type_uint32le k w :
  dict_get k NUMERIC_TYPES <> Some (lit "uint32le", w).
Proof.
  intro H. apply dict_get_in in H. unfold NUMERIC_TYPES in H. simpl In in H.
  repeat (destruct H as [H|H]; [vm_compute in H; discriminate H|]).
  contradiction.
Qed.

Section ReadShape.
Context {U : PyBuiltins}.

Lemma row_words_bound default_words register address_end :
  default_words <= row_words default_words register address_end.
Proof.
  unfold row_words. destruct (nonempty address_end) as [s|]; [|lia].
  destruct (int_of_str s); lia.
Qed.

(** X10. Every metric of the output has a word length of at least one,
    never below the default word length the type table gives its read type,
    and a read function that is [input] or [holding]. *)
Theorem read_shape_of_every_metric_in_bounds (fs : files) (out : output) (m : metric) :
  build_definitions fs = Ok out -> In m (metrics out) ->
  read_shape_in_bounds m.
Proof.
  revert fs out m.
  apply (output_all (fun _ m => read_shape_in_bounds m)).
  - intros row metric_id register fresh model _ H.
    apply read_row_inv in H as (dt & ty & dw & st & nm & un & rt & H).
    decompose [and] H. clear H. unfold read_shape_in_bounds.
    change (m_read (set_model_register model register fresh)) with (m_read fresh).
    match goal with E : m_read fresh = _ |- _ => rewrite E end. simpl.
    match goal with
    | T : dict_get _ NUMERIC_TYPES = Some (ty, dw) |- _ =>
        pose proof (row_words_bound dw register (row_get (lit "address_end") row)) as B;
        pose proof (numeric_type_words_unique _ _ T T) as [_ P1];
        split; [lia|]; split;
        [ unfold read_function; destruct (str_eqb _ _); tauto
        | intros tag w Hw;
          destruct (numeric_type_words_unique _ _ Hw T) as [-> _]; exact B ]
    end.
  - intros k m model register _ H. exact H.
  - intros k register H. unfold fallback_register in H.
    destruct (dict_get k FALLBACK_METRICS) as [o|] eqn:F; [|discriminate].
    unfold read_shape_in_bounds.
    change (m_read (set_model_register (lit "SG50RS") register (fallback_metric k)))
      with (m_read (fallback_metric k)).
    destruct (fallback_key _ F) as [-> | [-> | ->]];
      (split; [simpl; lia|]; split; [left; reflexivity|]);
      intros tag w Hw.
    + destruct (numeric_type_words_unique _ _ Hw
                  (eq_refl : dict_get (lit "S16") NUMERIC_TYPES = _)) as [-> _].
      simpl. lia.
    + now apply no_numeric_type_uint32le in Hw.
    + now apply no_numeric_type_uint32le in Hw.
  - intros k m H. exact H.
Qed.

(** X11. In every metric of the output the [models] mapping is not empty,
    names each model once, and names no model but the two of the table
    list, SG50RS and HYBRID. *)
Theorem models_of_every_metric (fs : files) (out : output) (m : metric) :
  build_definitions fs = Ok out -> In m (metrics out) ->
  m_models m <> []
  /\ NoDup (dict_keys (m_models m))
  /\ forall model, In model (dict_keys (m_models m)) ->
       model = lit "SG50RS" \/ model = lit "HYBRID".
Proof.
  revert fs out m.
  assert (Hmodels : forall model, In model MODELS ->
            model = lit "SG50RS" \/ model = lit "HYBRID").
  { intros model [<-|[<-|[]]]; [now left | now right]. }
  assert (Hset : forall m model register,
    In model MODELS ->
    (NoDup (dict_keys (m_models m))
     /\ forall model, In model (dict_keys (m_models m)) ->
          model = lit "SG50RS" \/ model = lit "HYBRID") ->
    m_models (set_model_register model register m) <> []
    /\ NoDup (dict_keys (m_models (set_model_register model register m)))
    /\ forall model', In model' (dict_keys (m_models (set_model_register model register m))) ->
         model' = lit "SG50RS" \/ model' = lit "HYBRID").
  { intros m model register Hm [Hnd Hin]. simpl. split; [|split].
    - apply dict_set_not_nil.
    - now apply NoDup_dict_set.
    - intros model'. rewrite dict_keys_set.
      destruct (dict_mem model (m_models m)); [apply Hin|].
      rewrite in_app_iff. intros [H|[<-|[]]]; [now apply Hin | now apply Hmodels]. }
  apply (output_all (fun _ m =>
    m_models m <> []
    /\ NoDup (dict_keys (m_models m))
    /\ forall model, In model (dict_keys (m_models m)) ->
         model = lit "SG50RS" \/ model = lit "HYBRID")).
  - intros row metric_id register fresh model Hm H.
    apply read_row_inv in H as (dt & ty & dw & st & nm & un & rt & H).
    decompose [and] H. clear H. apply Hset; [exact Hm|].
    match goal with E : m_models fresh = [] |- _ => rewrite E end.
    split; [constructor | intros ? []].
  - intros k m model register Hm (_ & H). now apply Hset.
  - intros k register _. apply Hset; [now left|].
    split; [constructor | intros ? []].
  - intros k m H. exact H.
Qed.

End ReadShape.

Lemma read_shape_of_every_metric_in_bounds_witness :
  read_shape_in_bounds grid_import_energy_metric.
Proof.
  apply (@read_shape_of_every_metric_in_bounds ref_builtins example_files
           {| version := 1;
              metrics := [ grid_export_energy_metric; grid_import_energy_metric;
                           meter_active_power_metric; meter_power_metric ] |}).
  - vm_compute. reflexivity.
  - right. left. reflexivity.
Defined.

Lemma models_of_every_metric_witness :
  m_models meter_power_metric <> []
  /\ NoDup (dict_keys (m_models meter_power_metric))
  /\ forall model, In model (dict_keys (m_models meter_power_metric)) ->
       model = lit "SG50RS" \/ model = lit "HYBRID".
Proof.
  apply (@models_of_every_metric ref_builtins example_files
           {| version := 1;
              metrics := [ grid_export_energy_metric; grid_import_energy_metric;
                           meter_active_power_metric; meter_power_metric ] |}).
  - vm_compute. reflexivity.
  - right. right. right. left. reflexivity.
Defined.

(** ** The identifiers of the output, all of them and once each *)

Section SortPermutation.
Variables (A K : Type) (key : A -> K) (ltb : K -> K -> bool).

Lemma insert_by_perm x l : Permutation (insert_by key ltb x l) (x :: l).
Proof.
  induction l as [|y r IH]; simpl; [reflexivity|].
  destruct (ltb (key y) (key x)); [|reflexivity].
  rewrite IH. apply perm_swap.
Qed.

Lemma sorted_by_perm l : Permutation (sorted_by key ltb l) l.
Proof.
  induction l as [|x r IH]; simpl; [reflexivity|].
  rewrite insert_by_perm. now constructor.
Qed.

End SortPermutation.

Lemma StronglySorted_strict l :
  StronglySorted id_le l -> NoDup (map m_id l) -> StronglySorted id_lt l.
Proof.
  induction 1 as [|x r Hr IH Hx]; simpl; intro Hnd; constructor.
  - apply IH. now inversion Hnd.
  - inversion Hnd as [|? ? Hnot _]; subst.
    rewrite Forall_forall in *. intros y Hy.
    apply (str_ltb_false (m_id x) (m_id y)) in Hx as [E|L]; [|exact L|exact Hy].
    exfalso. apply Hnot. rewrite E. now apply in_map.
Qed.

Section OutputIdentifierSet.
Context {U : PyBuiltins}.

Lemma finished_ids merged :
  merged_catalog merged ->
  map m_id (dict_values (finish (apply_fallbacks merged)))
  = dict_keys (apply_fallbacks merged).
Proof.
  intro W. unfold dict_values, dict_keys, finish. rewrite map_map, map_map.
  apply map_ext_in. intros [k m1] Hin. simpl.
  apply In_dict_get in Hin; [|apply apply_fallbacks_NoDup, W].
  now destruct (@after_fallbacks_models _ _ _ _ W Hin) as (_ & _ & E).
Qed.

(** X5. No two metrics of the output catalog share an identifier, and the
    metrics stand in strictly ascending order of identifier. *)
Theorem output_identifiers_unique (fs : files) (out : output) :
  build_definitions fs = Ok out ->
  NoDup (map m_id (metrics out))
  /\ StronglySorted id_lt (metrics out).
Proof.
  intro H.
  assert (Hnd : NoDup (map m_id (metrics out))).
  { unfold build_definitions in H.
    apply bind_Ok in H as (merged & Hm & H). injection H as <-. simpl.
    assert (W : merged_catalog merged)
      by (eapply merge_tables_merged; [apply merged_catalog_nil | exact Hm]).
    eapply Permutation_NoDup.
    - apply Permutation_map. symmetry. apply sorted_by_perm.
    - rewrite (finished_ids W). apply apply_fallbacks_NoDup, W. }
  split; [exact Hnd|].
  apply StronglySorted_strict; [|exact Hnd].
  unfold build_definitions in H.
  apply bind_Ok in H as (merged & _ & H). injection H as <-. simpl.
  apply sorted_by_sorted; [exact str_ltb_asym | exact str_ltb_negtrans].
Qed.

Lemma merge_rows_mem model rows :
  forall d d', merge_rows model d rows = Ok d' ->
  forall metric_id,
    dict_mem metric_id d' = true
    <-> dict_mem metric_id d = true
        \/ exists row register fresh,
             In row rows
             /\ read_row row = Ok (Some (metric_id, register, fresh)).
Proof.
  induction rows as [|row rest IH]; simpl; intros d d' H metric_id.
  - injection H as <-. split; [tauto|]. intros [?|(? & ? & ? & [] & _)].
    assumption.
  - apply bind_Ok in H as (d1 & H1 & H). rewrite (IH _ _ H).
    unfold merge_row in H1. apply bind_Ok in H1 as (c & Hc & H1).
    destruct c as [[[id register] fresh]|]; injection H1 as <-.
    + unfold dict_mem at 1.
      change (dict_update id (set_model_register model register)
                (dict_setdefault id fresh d))
        with (store_row model d (id, register, fresh)).
      rewrite store_row_get.
      destruct (str_eqb metric_id id) eqn:E.
      * apply str_eqb_eq in E. subst id. split; [|tauto].
        intros _. right. exists row, register, fresh. tauto.
      * apply str_eqb_neq in E. fold (dict_mem metric_id d). split.
        -- intros [?|(r & g & f & Hin & Hr)]; [tauto|].
           right. exists r, g, f. tauto.
        -- intros [?|(r & g & f & [<-|Hin] & Hr)]; [tauto| |].
           ++ rewrite Hc in Hr. injection Hr as -> _ _. contradiction.
           ++ right. exists r, g, f. tauto.
    + split.
      * intros [?|(r & g & f & Hin & Hr)]; [tauto|].
        right. exists r, g, f. tauto.
      * intros [?|(r & g & f & [<-|Hin] & Hr)]; [tauto| |].
        -- rewrite Hc in Hr. discriminate.
        -- right. exists r, g, f. tauto.
Qed.

(** X12. The identifiers of the output catalog are exactly the three of
    the fallback table and those the rows of the two tables derive, where a
    row derives an identifier when the loop neither skips it nor fails on
    it: no accepted row is lost, and no other identifier appears. *)
Theorem output_identifiers_are_the_derived_ones
    (fs : files) (out : output) (string_rows hybrid_rows : list row) :
  build_definitions fs = Ok out ->
  fs STRING_TABLE = Some string_rows ->
  fs HYBRID_TABLE = Some hybrid_rows ->
  forall metric_id,
    (exists m, In m (metrics out) /\ m_id m = metric_id)
    <-> dict_mem metric_id FALLBACK_METRICS = true
        \/ exists row register fresh,
             In row (string_rows ++ hybrid_rows)
             /\ read_row row = Ok (Some (metric_id, register, fresh)).
Proof.
  intros H F1 F2 metric_id.
  assert (Hmerged : exists merged,
    merge_tables fs CSV_DEFINITIONS [] = Ok merged
    /\ (dict_mem metric_id merged = true
        <-> exists row register fresh,
              In row (string_rows ++ hybrid_rows)
              /\ read_row row = Ok (Some (metric_id, register, fresh)))).
  { pose proof H as H'. unfold build_definitions in H'.
    apply bind_Ok in H' as (merged & Hm & _). exists merged.
    split; [exact Hm|].
    unfold CSV_DEFINITIONS in Hm. simpl merge_tables in Hm.
    change (lit "sungrow_string_v1.1.37.csv") with STRING_TABLE in Hm.
    change (lit "sungrow_hybrid_v1.1.4.csv") with HYBRID_TABLE in Hm.
    rewrite F1 in Hm. apply bind_Ok in Hm as (d1 & H1 & Hm).
    rewrite F2 in Hm. apply bind_Ok in Hm as (d2 & H2 & Hm).
    injection Hm as <-.
    rewrite (merge_rows_mem _ _ _ H2), (merge_rows_mem _ _ _ H1).
    split.
    - intros [[?|(r & g & f & Hin & Hr)]|(r & g & f & Hin & Hr)];
        [discriminate | |]; exists r, g, f; rewrite in_app_iff; tauto.
    - intros (r & g & f & Hin & Hr). apply in_app_iff in Hin as [Hin|Hin].
      + left. right. now exists r, g, f.
      + right. now exists r, g, f. }
  destruct Hmerged as (merged & Hm & Hiff). rewrite <- Hiff.
  assert (W : merged_catalog merged)
    by (eapply merge_tables_merged; [apply merged_catalog_nil | exact Hm]).
  assert (Hget : dict_mem metric_id (apply_fallbacks merged) = true
                 <-> dict_mem metric_id FALLBACK_METRICS = true
                     \/ dict_mem metric_id merged = true).
  { unfold dict_mem. rewrite apply_fallbacks_get.
    destruct (dict_get metric_id FALLBACK_METRICS); [tauto|].
    destruct (dict_get metric_id merged); split;
      try tauto; intros [?|?]; discriminate. }
  rewrite <- Hget. split.
  - intros (m & Hin & Hid).
    destruct (output_metric_inv _ _ H Hin) as (merged' & k & m1 & Hm' & _ & Hk & ->).
    assert (merged' = merged) by congruence. subst merged'.
    destruct (@after_fallbacks_models _ _ _ _ W Hk) as (_ & _ & E).
    simpl in Hid. unfold dict_mem. rewrite <- Hid, E, Hk. reflexivity.
  - unfold dict_mem.
    destruct (dict_get metric_id (apply_fallbacks merged)) as [m1|] eqn:G;
      [|discriminate].
    intros _. destruct (output_metric_conv fs _ Hm G) as (out' & Hout & Hin).
    assert (out' = out) by congruence. subst out'.
    exists (finish_metric m1). split; [exact Hin|]. simpl.
    now destruct (@after_fallbacks_models _ _ _ _ W G) as (_ & _ & E).
Qed.

(** X7. Whatever the tables hold, the output catalog has a metric for
    each identifier of the fallback table, with the register the table
    gives for SG50RS and with the authored discovery policy of that
    identifier. *)
Theorem fallback_metrics_always_present
    (fs : files) (out : output) (metric_id model : str) (register : Z) :
  build_definitions fs = Ok out ->
  fallback_register metric_id model = Some register ->
  exists m authored,
    In m (metrics out)
    /\ m_id m = metric_id
    /\ dict_get model (m_models m) = Some register
    /\ dict_get metric_id SPECIAL_DISCOVERY = Some authored
    /\ m_discovery m = Some authored.
Proof.
  intros H Hfb. pose proof H as H'. unfold build_definitions in H'.
  apply bind_Ok in H' as (merged & Hm & _).
  assert (W : merged_catalog merged)
    by (eapply merge_tables_merged; [apply merged_catalog_nil | exact Hm]).
  unfold fallback_register in Hfb.
  destruct (dict_get metric_id FALLBACK_METRICS) as [overrides|] eqn:F;
    [|discriminate].
  destruct (fallback_entry _ F) as [r ->].
  assert (Hmodel : model = lit "SG50RS" /\ register = r).
  { simpl in Hfb. destruct (str_eqb model (lit "SG50RS")) eqn:E; [|discriminate].
    apply str_eqb_eq in E. injection Hfb as <-. now split. }
  destruct Hmodel as [-> <-].
  assert (G : dict_get metric_id (apply_fallbacks merged)
              = Some (set_model_register (lit "SG50RS") register
                        (or_else (dict_get metric_id merged)
                                 (fallback_metric metric_id))))
    by (rewrite apply_fallbacks_get, F; reflexivity).
  destruct (output_metric_conv fs _ Hm G) as (out' & Hout & Hin).
  assert (out' = out) by congruence. subst out'.
  destruct (@after_fallbacks_models _ _ _ _ W G) as (_ & _ & E).
  assert (S : exists authored, dict_get metric_id SPECIAL_DISCOVERY = Some authored).
  { destruct (fallback_key _ F) as [-> | [-> | ->]]; eexists; reflexivity. }
  destruct S as [authored S].
  eexists. exists authored. split; [exact Hin|]. repeat split.
  - exact E.
  - change (m_models (finish_metric ?x)) with (m_models x).
    now rewrite set_model_register_get, str_eqb_refl.
  - exact S.
  - unfold finish_metric. cbn [m_discovery]. rewrite E, S. reflexivity.
Qed.

End OutputIdentifierSet.

Lemma output_identifiers_unique_witness :
  NoDup (map m_id [ grid_export_energy_metric; grid_import_energy_metric;
                    meter_active_power_metric; meter_power_metric ])
  /\ StronglySorted id_lt
       [ grid_export_energy_metric; grid_import_energy_metric;
         meter_active_power_metric; meter_power_metric ].
Proof.
  apply (@output_identifiers_unique ref_builtins example_files
           {| version := 1;
              metrics := [ grid_export_energy_metric; grid_import_energy_metric;
                           meter_active_power_metric; meter_power_metric ] |}).
  vm_compute. reflexivity.
Defined.

Lemma output_identifiers_are_the_derived_ones_witness :
  (exists m,
     In m [ grid_export_energy_metric; grid_import_energy_metric;
            meter_active_power_metric; meter_power_metric ]
     /\ m_id m = lit "meter_active_power")
  <-> dict_mem (lit "meter_active_power") FALLBACK_METRICS = true
      \/ exists row register fresh,
           In row ([meter_power_row] ++ [])
           /\ @read_row ref_builtins row
              = Ok (Some (lit "meter_active_power", register, fresh)).
Proof.
  apply (@output_identifiers_are_the_derived_ones ref_builtins example_files
           {| version := 1;
              metrics := [ grid_export_energy_metric; grid_import_energy_metric;
                           meter_active_power_metric; meter_power_metric ] |}
           [meter_power_row] []);
    vm_compute; reflexivity.
Defined.

Lemma fallback_metrics_always_present_witness :
  exists m authored,
    In m [ grid_export_energy_metric; grid_import_energy_metric;
           meter_active_power_metric; meter_power_metric ]
    /\ m_id m = lit "grid_import_energy"
    /\ dict_get (lit "SG50RS") (m_models m) = Some 5098
    /\ dict_get (lit "grid_import_energy") SPECIAL_DISCOVERY = Some authored
    /\ m_discovery m = Some authored.
Proof.
  apply (@fallback_metrics_always_present ref_builtins example_files
           {| version := 1;
              metrics := [ grid_export_energy_metric; grid_import_energy_metric;
                           meter_active_power_metric; meter_power_metric ] |}
           (lit "grid_import_energy") (lit "SG50RS") 5098);
    vm_compute; reflexivity.
Defined.

(** ** Units *)

Lemma take_while_all p s : forallb p (take_while p s) = true.
Proof.
  induction s as [|c r IH]; simpl; [reflexivity|].
  destruct (p c) eqn:E; simpl; [now rewrite E | reflexivity].
Qed.

Lemma take_while_fixed p s : forallb p s = true -> take_while p s = s.
Proof.
  induction s as [|c r IH]; simpl; [reflexivity|].
  intro H. apply andb_true_iff in H as [Hc Hr]. now rewrite Hc, IH.
Qed.

Lemma forallb_rev (p : Z -> bool) s : forallb p (rev s) = forallb p s.
Proof.
  induction s as [|c r IH]; simpl; [reflexivity|].
  rewrite forallb_app, IH. simpl. rewrite andb_true_r. apply andb_comm.
Qed.

Lemma trailing_run_all p s : forallb p (trailing_run p s) = true.
Proof. unfold trailing_run. rewrite forallb_rev. apply take_while_all. Qed.

Lemma trailing_run_fixed p s : forallb p s = true -> trailing_run p s = s.
Proof.
  intro H. unfold trailing_run. rewrite take_while_fixed.
  - apply rev_involutive.
  - now rewrite forallb_rev.
Qed.

Lemma base_unit_of_run s :
  forallb is_unit_char s = true -> base_unit s = s.
Proof.
  intro H. destruct s as [|c r]; [reflexivity|].
  unfold base_unit, re_search_run_at_end.
  destruct (rev (c :: r)) as [|c0 r0] eqn:R.
  - rewrite trailing_run_fixed by exact H. reflexivity.
  - destruct (c0 =? NEWLINE) eqn:N.
    + apply Z.eqb_eq in N. subst c0.
      assert (Hin : In NEWLINE (c :: r)) by (apply in_rev; rewrite R; now left).
      rewrite forallb_forall in H. specialize (H _ Hin). discriminate.
    + rewrite trailing_run_fixed by exact H. reflexivity.
Qed.

(** X13. The engineering unit of a unit text is that text as it is, or a
    text that is not empty and made of unit characters only (letters, the
    capital omega, the percent and degree-Celsius signs); taking the
    engineering unit again changes nothing. *)
Theorem base_unit_idempotent (unit : str) :
  (base_unit unit = unit
   \/ (base_unit unit <> [] /\ forallb is_unit_char (base_unit unit) = true))
  /\ base_unit (base_unit unit) = base_unit unit.
Proof.
  assert (A : base_unit unit = unit
              \/ (base_unit unit <> []
                  /\ forallb is_unit_char (base_unit unit) = true)).
  { destruct unit as [|c r]; [now left|].
    unfold base_unit, re_search_run_at_end.
    match goal with
    | |- context [trailing_run is_unit_char ?b] =>
        pose proof (trailing_run_all is_unit_char b) as T;
        destruct (trailing_run is_unit_char b) as [|d m]
    end; [now left|].
    right. split; [discriminate | exact T]. }
  split; [exact A|].
  destruct A as [E|[_ H]]; [now rewrite E | now apply base_unit_of_run].
Qed.

Section UnitCase.
Context {U : PyBuiltins}.

(** X14. On ASCII text the classifier does not tell upper case from lower
    case: two units that differ only in the case of their letters get the
    same category, and so does a unit and its upper-cased form. *)
Theorem classify_unit_ignores_ascii_case (unit unit' : str) :
  ascii_text unit -> ascii_text unit' ->
  map ascii_lower unit = map ascii_lower unit' ->
  classify_unit unit = classify_unit unit'
  /\ classify_unit (upper unit) = classify_unit unit.
Proof.
  intros A A' E. unfold classify_unit. split.
  - now rewrite !lower_ascii, E by assumption.
  - rewrite (upper_ascii A).
    assert (Au : ascii_text (map ascii_upper unit)).
    { unfold ascii_text in *. rewrite forallb_forall in *.
      intros c Hc. apply in_map_iff in Hc as (c0 & <- & Hc0).
      specialize (A _ Hc0). unfold ascii_upper, in_range.
      destruct ((97 <=? c0) && (c0 <=? 122)) eqn:R; [|exact A].
      unfold is_ascii in *. bool_to_Z. apply andb_true_iff.
      rewrite Z.leb_le, Z.ltb_lt. lia. }
    rewrite !lower_ascii by assumption. f_equal.
    rewrite map_map. apply map_ext. intro c.
    unfold ascii_lower, ascii_upper, in_range.
    destruct ((97 <=? c) && (c <=? 122)) eqn:R1;
      destruct ((65 <=? c) && (c <=? 90)) eqn:R2;
      repeat match goal with
      | |- context [if ?b then _ else _] => destruct b eqn:?
      end; bool_to_Z; lia.
Qed.

End UnitCase.

Lemma classify_unit_ignores_ascii_case_witness :
  @classify_unit ref_builtins (lit "KWH") = @classify_unit ref_builtins (lit "kWh")
  /\ @classify_unit ref_builtins (@upper ref_builtins (lit "KWH"))
     = @classify_unit ref_builtins (lit "KWH").
Proof.
  apply (@classify_unit_ignores_ascii_case ref_builtins (lit "KWH") (lit "kWh"));
    reflexivity.
Defined.

(** ** The first row of an identifier *)

Section FirstRow.
Context {U : PyBuiltins}.

Lemma merge_rows_keeps_shape model metric_id m rows :
  forall d d', merge_rows model d rows = Ok d' ->
    (exists m', dict_get metric_id d = Some m' /\ same_shape m' m) ->
    exists m', dict_get metric_id d' = Some m' /\ same_shape m' m.
Proof.
  intros d d' H Hd. revert d d' Hd H.
  apply (merge_rows_invariant
    (fun d => exists m', dict_get metric_id d = Some m' /\ same_shape m' m)).
  intros d row [[id reg] fresh] (m' & Hm & Hs) _.
  rewrite store_row_get. destruct (str_eqb metric_id id) eqn:E.
  - apply str_eqb_eq in E. subst id. rewrite Hm. simpl or_else.
    eexists. split; [reflexivity | exact Hs].
  - now exists m'.
Qed.

Lemma merge_rows_first model d earlier row later metric_id register fresh d' :
  merge_rows model d (earlier ++ row :: later) = Ok d' ->
  dict_get metric_id d = None ->
  (forall row', In row' earlier ->
     forall c, read_row row' = Ok (Some c) -> fst (fst c) <> metric_id) ->
  read_row row = Ok (Some (metric_id, register, fresh)) ->
  exists m', dict_get metric_id d' = Some m' /\ same_shape m' fresh.
Proof.
  intros H Hnew Hearlier Hrow.
  apply merge_rows_app in H as (d1 & H1 & H). simpl in H.
  apply bind_Ok in H as (d2 & H2 & H).
  eapply merge_rows_keeps_shape; [exact H|].
  unfold merge_row in H2. rewrite Hrow in H2. simpl in H2. injection H2 as <-.
  change (exists m',
    dict_get metric_id (store_row model d1 (metric_id, register, fresh)) = Some m'
    /\ same_shape m' fresh).
  rewrite store_row_get, str_eqb_refl.
  rewrite (merge_rows_other_ids _ _ Hearlier _ H1), Hnew. simpl or_else.
  eexists. split; [reflexivity|]. now repeat split.
Qed.

Lemma output_keeps_shape fs merged metric_id m0 fresh out :
  merge_tables fs CSV_DEFINITIONS [] = Ok merged ->
  dict_get metric_id merged = Some m0 -> same_shape m0 fresh ->
  build_definitions fs = Ok out ->
  exists m, In m (metrics out) /\ m_id m = metric_id /\ same_shape m fresh.
Proof.
  intros Hm Hget Hs Hout.
  assert (W : merged_catalog merged)
    by (eapply merge_tables_merged; [apply merged_catalog_nil | exact Hm]).
  destruct (apply_fallbacks_frame merged metric_id Hget)
    as (m' & Hget' & Hread & Hid & Hname & Hunit & Hcat & _).
  destruct (output_metric_conv fs _ Hm Hget') as (out' & Hout' & Hin).
  assert (out' = out) by congruence. subst out'.
  exists (finish_metric m'). split; [exact Hin|]. split.
  - simpl. rewrite Hid. destruct W as [_ Hall]. now destruct (Hall _ _ Hget).
  - destruct Hs as (S1 & S2 & S3 & S4). unfold same_shape. simpl.
    rewrite Hread, Hname, Hunit, Hcat. tauto.
Qed.

(** X6. The first row that derives an identifier fixes the metric's read
    shape, name, unit and category for good: the metric of that identifier
    in the output has them as that row gave them, whatever later rows of
    either table say.  The string table is read first, so a row of the
    hybrid table is the first one only when no row of the string table
    derives the identifier. *)
Theorem first_row_fixes_the_metric
    (fs : files) (out : output) (earlier later : list row) (row : row)
    (metric_id : str) (register : Z) (fresh : metric) :
  build_definitions fs = Ok out ->
  (forall row', In row' earlier ->
     forall id' register' fresh',
       read_row row' = Ok (Some (id', register', fresh')) -> id' <> metric_id) ->
  read_row row = Ok (Some (metric_id, register, fresh)) ->
  (fs STRING_TABLE = Some (earlier ++ row :: later)
   \/ (fs HYBRID_TABLE = Some (earlier ++ row :: later)
       /\ forall string_rows, fs STRING_TABLE = Some string_rows ->
          forall row', In row' string_rows ->
          forall id' register' fresh',
            read_row row' = Ok (Some (id', register', fresh')) ->
            id' <> metric_id)) ->
  exists m, In m (metrics out) /\ m_id m = metric_id /\ same_shape m fresh.
Proof.
  intros Hout Hearlier' Hrow Hfs.
  assert (Hearlier : forall row', In row' earlier ->
            forall c, read_row row' = Ok (Some c) -> fst (fst c) <> metric_id).
  { intros row' Hin [[id' register'] fresh'] Hc. simpl.
    exact (Hearlier' row' Hin id' register' fresh' Hc). }
  pose proof Hout as H. unfold build_definitions in H.
  apply bind_Ok in H as (merged & Hm & _).
  pose proof Hm as Hm'. unfold CSV_DEFINITIONS in Hm'. simpl merge_tables in Hm'.
  change (lit "sungrow_string_v1.1.37.csv") with STRING_TABLE in Hm'.
  change (lit "sungrow_hybrid_v1.1.4.csv") with HYBRID_TABLE in Hm'.
  destruct (fs STRING_TABLE) as [rows1|] eqn:F1; [|discriminate].
  apply bind_Ok in Hm' as (d1 & H1 & Hm').
  destruct (fs HYBRID_TABLE) as [rows2|] eqn:F2; [|discriminate].
  apply bind_Ok in Hm' as (d2 & H2 & Hm'). injection Hm' as <-.
  assert (Hmerged : exists m0, dict_get metric_id d2 = Some m0 /\ same_shape m0 fresh).
  { destruct Hfs as [Hfs|[Hfs Hstring]].
    - injection Hfs as ->.
      eapply merge_rows_keeps_shape; [exact H2|].
      eapply merge_rows_first; [exact H1 | reflexivity | exact Hearlier | exact Hrow].
    - injection Hfs as ->.
      eapply merge_rows_first; [exact H2 | | exact Hearlier | exact Hrow].
      assert (G : dict_get metric_id d1 = dict_get metric_id []).
      { eapply merge_rows_other_ids; [|exact H1].
        intros row' Hin [[id' register'] fresh'] Hc. simpl.
        exact (Hstring rows1 eq_refl row' Hin id' register' fresh' Hc). }
      now rewrite G. }
  destruct Hmerged as (m0 & Hget & Hs).
  eapply output_keeps_shape; eassumption.
Qed.

End FirstRow.

Lemma first_row_fixes_the_metric_witness :
  exists m,
    In m (metrics two_row_output)
    /\ m_id m = lit "meter_active_power"
    /\ same_shape m meter_power_row_metric.
Proof.
  apply (@first_row_fixes_the_metric ref_builtins two_row_files two_row_output
           [] [meter_power_row_5700] meter_power_row
           (lit "meter_active_power") 5600 meter_power_row_metric).
  - vm_compute. reflexivity.
  - intros row' [].
  - vm_compute. reflexivity.
  - left. reflexivity.
Defined.

(** ** One identifier in both tables *)

Section TwoModels.
Context {U : PyBuiltins}.

Lemma keys_singleton_mem (V : Type) model (d : dict V) :
  dict_keys d = [model] -> dict_mem model d = true.
Proof.
  intro H. destruct (dict_mem model d) eqn:E; [reflexivity|].
  apply dict_mem_false in E. exfalso. apply E. rewrite H. now left.
Qed.

Lemma single_table_keys model rows :
  forall d d', merge_rows model d rows = Ok d' ->
    all_metrics (fun _ m => dict_keys (m_models m) = [model]) d ->
    all_metrics (fun _ m => dict_keys (m_models m) = [model]) d'.
Proof.
  intros d d' H Hd. revert d d' Hd H.
  apply (merge_rows_invariant
    (all_metrics (fun _ m => dict_keys (m_models m) = [model]))).
  intros d row [[id reg] fresh] Hd Hrow k m.
  rewrite store_row_get. destruct (str_eqb k id) eqn:E; [|apply Hd].
  intros [= <-]. simpl. rewrite dict_keys_set.
  destruct (dict_get id d) as [m0|] eqn:G; simpl or_else.
  - pose proof (Hd _ _ G) as Hk. simpl in Hk.
    rewrite (@keys_singleton_mem _ _ _ Hk). exact Hk.
  - apply read_row_inv in Hrow as (dt & ty & dw & st & nm & un & rt & Hrow).
    decompose [and] Hrow.
    match goal with E : m_models fresh = [] |- _ => rewrite E end. reflexivity.
Qed.

Lemma second_table_keys metric_id r1 rows :
  forall d d', merge_rows (lit "HYBRID") d rows = Ok d' ->
    (exists m, dict_get metric_id d = Some m
       /\ dict_get (lit "SG50RS") (m_models m) = Some r1
       /\ (dict_keys (m_models m) = [lit "SG50RS"]
           \/ dict_keys (m_models m) = [lit "SG50RS"; lit "HYBRID"])) ->
    exists m, dict_get metric_id d' = Some m
       /\ dict_get (lit "SG50RS") (m_models m) = Some r1
       /\ (dict_keys (m_models m) = [lit "SG50RS"]
           \/ dict_keys (m_models m) = [lit "SG50RS"; lit "HYBRID"]).
Proof.
  intros d d' H Hd. revert d d' Hd H.
  apply (merge_rows_invariant
    (fun d => exists m, dict_get metric_id d = Some m
       /\ dict_get (lit "SG50RS") (m_models m) = Some r1
       /\ (dict_keys (m_models m) = [lit "SG50RS"]
           \/ dict_keys (m_models m) = [lit "SG50RS"; lit "HYBRID"]))).
  intros d row [[id reg] fresh] (m & Hm & Hr & Hk) _.
  rewrite store_row_get. destruct (str_eqb metric_id id) eqn:E;
    [|now exists m].
  apply str_eqb_eq in E. subst id. rewrite Hm. simpl or_else.
  eexists. split; [reflexivity|]. split.
  - rewrite set_model_register_get. exact Hr.
  - simpl. rewrite dict_keys_set. right.
    destruct Hk as [Hk|Hk].
    + destruct (dict_mem (lit "HYBRID") (m_models m)) eqn:M.
      * exfalso. unfold dict_mem in M.
        destruct (dict_get (lit "HYBRID") (m_models m)) eqn:G; [|discriminate].
        assert (N : dict_get (lit "HYBRID") (m_models m) = None).
        { apply dict_get_None. rewrite Hk. intros [X|[]]. discriminate X. }
        congruence.
      * now rewrite Hk.
    + destruct (dict_mem (lit "HYBRID") (m_models m)) eqn:M; [exact Hk|].
      apply dict_mem_false in M. exfalso. apply M. rewrite Hk. right. now left.
Qed.

(** X15. When rows of both tables derive an identifier, the output has
    one metric for it, whose [models] mapping holds SG50RS and HYBRID in
    this order: HYBRID with the register of the last such row of the hybrid
    table, SG50RS with the register the fallback table gives the
    identifier, or else that of the last such row of the string table; and
    [default.register] is that SG50RS register. *)
Theorem both_tables_merge_into_one_metric
    (fs : files) (out : output)
    (earlier1 later1 earlier2 later2 : list row) (row1 row2 : row)
    (metric_id : str) (register1 register2 : Z) (fresh1 fresh2 : metric) :
  build_definitions fs = Ok out ->
  fs STRING_TABLE = Some (earlier1 ++ row1 :: later1) ->
  read_row row1 = Ok (Some (metric_id, register1, fresh1)) ->
  (forall row', In row' later1 ->
     forall id' register' fresh',
       read_row row' = Ok (Some (id', register', fresh')) -> id' <> metric_id) ->
  fs HYBRID_TABLE = Some (earlier2 ++ row2 :: later2) ->
  read_row row2 = Ok (Some (metric_id, register2, fresh2)) ->
  (forall row', In row' later2 ->
     forall id' register' fresh',
       read_row row' = Ok (Some (id', register', fresh')) -> id' <> metric_id) ->
  exists m,
    In m (metrics out)
    /\ m_id m = metric_id
    /\ dict_keys (m_models m) = [lit "SG50RS"; lit "HYBRID"]
    /\ dict_get (lit "HYBRID") (m_models m) = Some register2
    /\ dict_get (lit "SG50RS") (m_models m)
       = Some (or_else (fallback_register metric_id (lit "SG50RS")) register1)
    /\ m_default m
       = Some (or_else (fallback_register metric_id (lit "SG50RS")) register1).
Proof.
  intros Hout F1 Hrow1 Hl1 F2 Hrow2 Hl2.
  assert (Hlater1 : forall row', In row' later1 ->
            forall c, read_row row' = Ok (Some c) -> fst (fst c) <> metric_id).
  { intros row' Hin [[id' register'] fresh'] Hc. simpl.
    exact (Hl1 row' Hin id' register' fresh' Hc). }
  assert (Hlater2 : forall row', In row' later2 ->
            forall c, read_row row' = Ok (Some c) -> fst (fst c) <> metric_id).
  { intros row' Hin [[id' register'] fresh'] Hc. simpl.
    exact (Hl2 row' Hin id' register' fresh' Hc). }
  pose proof Hout as H. unfold build_definitions in H.
  apply bind_Ok in H as (merged & Hm & _).
  assert (W : merged_catalog merged)
    by (eapply merge_tables_merged; [apply merged_catalog_nil | exact Hm]).
  pose proof Hm as Hm'. unfold CSV_DEFINITIONS in Hm'. simpl merge_tables in Hm'.
  change (lit "sungrow_string_v1.1.37.csv") with STRING_TABLE in Hm'.
  change (lit "sungrow_hybrid_v1.1.4.csv") with HYBRID_TABLE in Hm'.
  rewrite F1 in Hm'. apply bind_Ok in Hm' as (d1 & H1 & Hm').
  rewrite F2 in Hm'. apply bind_Ok in Hm' as (d2 & H2 & Hm').
  injection Hm' as <-.
  (* the string table *)
  destruct (@merge_rows_last _ _ _ _ _ _ _ _ _ _ H1 Hrow1 Hlater1) as (m1 & G1 & R1).
  assert (K1 : dict_keys (m_models m1) = [lit "SG50RS"]).
  { refine (@single_table_keys _ _ _ _ H1 _ _ _ G1).
    intros k m Hk. discriminate Hk. }
  (* the hybrid table *)
  destruct (@second_table_keys metric_id register1 _ _ _ H2) as (m2 & G2 & R2 & K2).
  { exists m1. tauto. }
  destruct (@merge_rows_last _ _ _ _ _ _ _ _ _ _ H2 Hrow2 Hlater2) as (m2' & G2' & R2').
  assert (m2' = m2) by congruence. subst m2'.
  assert (K : dict_keys (m_models m2) = [lit "SG50RS"; lit "HYBRID"]).
  { destruct K2 as [K2|K2]; [|exact K2]. exfalso.
    assert (N : dict_get (lit "HYBRID") (m_models m2) = None).
    { apply dict_get_None. rewrite K2. intros [X|[]]. discriminate X. }
    congruence. }
  (* the fallback step and the last loop *)
  assert (Hfb : exists m',
    dict_get metric_id (apply_fallbacks d2) = Some m'
    /\ m_id m' = metric_id
    /\ dict_keys (m_models m') = [lit "SG50RS"; lit "HYBRID"]
    /\ dict_get (lit "HYBRID") (m_models m') = Some register2
    /\ dict_get (lit "SG50RS") (m_models m')
       = Some (or_else (fallback_register metric_id (lit "SG50RS")) register1)).
  { rewrite apply_fallbacks_get. unfold fallback_register.
    assert (Hid : m_id m2 = metric_id)
      by (destruct W as [_ Hall]; now destruct (Hall _ _ G2)).
    destruct (dict_get metric_id FALLBACK_METRICS) as [overrides|] eqn:F.
    - destruct (fallback_entry _ F) as [r ->]. rewrite G2. simpl or_else.
      eexists. split; [reflexivity|].
      change (apply_overrides [(lit "SG50RS", r)] m2)
        with (set_model_register (lit "SG50RS") r m2).
      split; [exact Hid|]. split; [|split].
      + simpl. rewrite dict_keys_set.
        destruct (dict_mem (lit "SG50RS") (m_models m2)) eqn:M; [exact K|].
        apply dict_mem_false in M. exfalso. apply M. rewrite K. now left.
      + rewrite set_model_register_get. exact R2'.
      + rewrite set_model_register_get. reflexivity.
    - exists m2. simpl or_else. tauto. }
  destruct Hfb as (m' & G' & Hid & K' & RH & RS).
  destruct (output_metric_conv fs _ Hm G') as (out' & Hout' & Hin).
  assert (out' = out) by congruence. subst out'.
  exists (finish_metric m'). split; [exact Hin|].
  change (m_id (finish_metric m')) with (m_id m').
  change (m_models (finish_metric m')) with (m_models m').
  repeat split; try assumption.
  simpl. destruct (m_models m') as [|[k0 v0] rest] eqn:Em; [discriminate K'|].
  simpl in K'. injection K' as -> _.
  simpl in RS. exact RS.
Qed.

End TwoModels.

Lemma both_tables_merge_into_one_metric_witness :
  exists out,
    @build_definitions ref_builtins both_tables_files = Ok out
    /\ exists m,
         In m (metrics out)
         /\ m_id m = lit "meter_active_power"
         /\ dict_keys (m_models m) = [lit "SG50RS"; lit "HYBRID"]
         /\ dict_get (lit "HYBRID") (m_models m) = Some 13009
         /\ dict_get (lit "SG50RS") (m_models m)
            = Some (or_else (fallback_register (lit "meter_active_power") (lit "SG50RS")) 5600)
         /\ m_default m
            = Some (or_else (fallback_register (lit "meter_active_power") (lit "SG50RS")) 5600).
Proof.
  eexists. split; [vm_compute; reflexivity|].
  eapply (@both_tables_merge_into_one_metric ref_builtins both_tables_files _
            [] [] [] [] meter_power_row meter_power_row_hybrid
            (lit "meter_active_power") 5600 13009);
    try (vm_compute; reflexivity); intros ? [].
Defined.

(** ** The entries of the register catalog *)

Lemma squeezed_no_double_class p b s :
  p UNDERSCORE = true ->
  squeezed p UNDERSCORE b s = true ->
  contains (lit "__") s = false.
Proof.
  intro Hp. revert b; induction s as [|c r IH]; intro b; [reflexivity|].
  rewrite squeezed_cons. intro H.
  change (contains (lit "__") (c :: r))
    with (((UNDERSCORE =? c) && is_prefix (lit "_") r) || contains (lit "__") r).
  assert (Hr : contains (lit "__") r = false).
  { destruct (p c); [|exact (IH _ H)].
    apply andb_true_iff in H as [_ H]. exact (IH _ H). }
  rewrite Hr, orb_false_r.
  destruct (UNDERSCORE =? c) eqn:E; [|reflexivity].
  apply Z.eqb_eq in E. subst c. rewrite Hp in H.
  apply andb_true_iff in H as [_ H].
  destruct r as [|d r']; [reflexivity|].
  rewrite squeezed_cons in H.
  change (is_prefix (lit "_") (d :: r')) with ((UNDERSCORE =? d) && true).
  destruct (UNDERSCORE =? d) eqn:D; [|reflexivity].
  apply Z.eqb_eq in D. subst d. rewrite Hp in H. discriminate.
Qed.

Lemma slug_shape_well_formed t : slug_shape t -> well_formed_id t.
Proof.
  intros (Hid & Hsq & Hst & Hne).
  destruct (@strip_by_fixed_ends (mem_char [UNDERSCORE]) t Hst) as [Hh Hl].
  repeat split; try assumption.
  - now apply head_kept_underscore.
  - now apply head_kept_underscore.
  - eapply squeezed_no_double_class; [|exact Hsq]. reflexivity.
Qed.

Lemma nonempty_not_empty v : nonempty v <> Some [].
Proof. destruct v as [[|c r]|]; simpl; discriminate. Qed.

Section RegisterEntries.
Context {U : PyBuiltins}.

Lemma registers_step_cases registers version lrow :
  match row_start lrow with
  | None =>
      RegisterDefaults.registers_step (registers, version) lrow = (registers, version)
  | Some start =>
      exists e,
        RegisterDefaults.registers_step (registers, version) lrow
        = (registers ++ [e],
           match version with
           | [] => RegisterDefaults.opt_or (dict_get (lit "source_version") lrow) []
           | _ => version
           end)
        /\ RegisterDefaults.e_address e = start
        /\ entry_in_bounds e
  end.
Proof.
  unfold row_start, RegisterDefaults.registers_step.
  destruct (nonempty (dict_get (lit "address_start") lrow)) as [s|]; [|reflexivity].
  destruct (int_of_str s) as [start|]; [|reflexivity].
  eexists. split; [reflexivity|]. split; [reflexivity|].
  unfold entry_in_bounds. cbn [RegisterDefaults.e_length RegisterDefaults.e_register_type
    RegisterDefaults.e_id RegisterDefaults.e_data_range RegisterDefaults.e_unit
    RegisterDefaults.e_note].
  split; [lia|]. split; [|split].
  - unfold RegisterDefaults.register_kind_of. destruct (is_prefix _ _); tauto.
  - apply slug_shape_well_formed, slugify_shape.
  - repeat split; apply nonempty_not_empty.
Qed.

Lemma registers_fold lrows :
  forall registers version,
    let result := fold_left RegisterDefaults.registers_step lrows (registers, version) in
    map RegisterDefaults.e_address (fst result)
    = map RegisterDefaults.e_address registers
      ++ flat_map (fun lrow => match row_start lrow with
                               | Some start => [start]
                               | None => []
                               end) lrows
    /\ (Forall entry_in_bounds registers -> Forall entry_in_bounds (fst result))
    /\ snd result = match version with
                    | [] => first_version lrows
                    | _ => version
                    end.
Proof.
  induction lrows as [|lrow rest IH]; intros registers version; cbv zeta;
    cbn [fold_left flat_map first_version].
  - cbn [fst snd]. rewrite app_nil_r. repeat split; [tauto | now destruct version].
  - pose proof (registers_step_cases registers version lrow) as C.
    destruct (row_start lrow) as [start|].
    + destruct C as (e & -> & Ha & He).
      destruct (IH (registers ++ [e])
                  (match version with
                   | [] => RegisterDefaults.opt_or (dict_get (lit "source_version") lrow) []
                   | _ => version
                   end)) as (A & B & V).
      simpl in A, B, V. rewrite A, V. split; [|split].
      * rewrite map_app, <- app_assoc. simpl. now rewrite Ha.
      * intro F. apply B. apply Forall_app. split; [exact F|]. now constructor.
      * destruct version; [|reflexivity].
        now destruct (RegisterDefaults.opt_or _ _).
    + rewrite C. apply IH.
Qed.

(** X16. Every entry of a bucket of the register catalog has a length of
    at least one, the register type [input] or [holding], a well-formed
    identifier that is not empty, and no empty text for its data range,
    unit or note, which are absent instead. *)
Theorem register_entries_in_bounds (rows : list row) (e : RegisterDefaults.register_entry) :
  In e (RegisterDefaults.registers (RegisterDefaults.build_registers rows)) ->
  entry_in_bounds e.
Proof.
  unfold RegisterDefaults.build_registers.
  destruct (registers_fold (map RegisterDefaults.load_row rows) [] []) as (_ & B & _).
  simpl in B.
  destruct (fold_left _ _ _) as [registers version]. simpl in *.
  intro Hin. apply sorted_by_in in Hin.
  specialize (B (Forall_nil _)). rewrite Forall_forall in B. now apply B.
Qed.

(** X17. A bucket holds one entry for each row of its table whose start
    address is present and parses, and no other: the addresses of its
    entries are the start addresses of those rows, rearranged. *)
Theorem registers_are_the_rows_with_a_start (rows : list row) :
  Permutation
    (map RegisterDefaults.e_address
       (RegisterDefaults.registers (RegisterDefaults.build_registers rows)))
    (flat_map (fun row => match row_start (RegisterDefaults.load_row row) with
                          | Some start => [start]
                          | None => []
                          end) rows).
Proof.
  unfold RegisterDefaults.build_registers.
  destruct (registers_fold (map RegisterDefaults.load_row rows) [] []) as (A & _ & _).
  simpl in A.
  destruct (fold_left _ _ _) as [registers version]. simpl in *.
  rewrite (Permutation_map _ (sorted_by_perm _ _ registers)), A.
  rewrite flat_map_concat_map, map_map, <- flat_map_concat_map. reflexivity.
Qed.

(** X18. The source version of a bucket is the [source_version] field of
    the first row that is kept and has one that is not empty; rows without
    a usable start address do not count, and the version is absent when no
    kept row has one. *)
Theorem source_version_is_first_kept (rows : list row) :
  RegisterDefaults.source_version (RegisterDefaults.build_registers rows)
  = or_none (first_version (map RegisterDefaults.load_row rows)).
Proof.
  unfold RegisterDefaults.build_registers.
  destruct (registers_fold (map RegisterDefaults.load_row rows) [] []) as (_ & _ & V).
  simpl in V.
  destruct (fold_left _ _ _) as [registers version]. simpl in *. now rewrite V.
Qed.

End RegisterEntries.

Lemma register_entries_in_bounds_witness :
  exists e,
    In e (RegisterDefaults.registers
            (@RegisterDefaults.build_registers ref_builtins register_rows))
    /\ RegisterDefaults.e_id e = lit "percent"
    /\ entry_in_bounds e.
Proof.
  eexists. split; [vm_compute; left; reflexivity|].
  split; [reflexivity|].
  apply (@register_entries_in_bounds ref_builtins register_rows).
  vm_compute. left. reflexivity.
Defined.

Example ref_registers_are_the_rows_with_a_start :
  flat_map (fun row => match @row_start ref_builtins
                                (@RegisterDefaults.load_row ref_builtins row) with
                       | Some start => [start]
                       | None => []
                       end) register_rows
  = [5017; 5017; 4990]
  /\ @first_version ref_builtins
       (map (@RegisterDefaults.load_row ref_builtins) register_rows)
     = lit "v1.1.66".
Proof. split; vm_compute; reflexivity. Qed.

(** ** Loading a row of the register tables *)

Section LoadedRows.
Context {U : PyBuiltins}.

Lemma load_row_found_unchanged k (r : row) found :
  (forall kv, In kv r -> lower (fst kv) <> k) ->
  fold_left
    (fun found (kv : str * option str) =>
       if str_eqb k (lower (fst kv))
       then Some (strip (RegisterDefaults.opt_or (snd kv) []))
       else found)
    r found
  = found.
Proof.
  revert found; induction r as [|kv r IH]; intros found H; [reflexivity|].
  cbn [fold_left].
  rewrite (proj2 (str_eqb_neq k (lower (fst kv)))).
  - apply IH. intros kv' Hin. apply H. now right.
  - intro E. apply (H kv); [now left | now symmetry].
Qed.

(** X19. A loaded row of the register tables is looked up by the
    lower-cased column name: a column is found under its name in lower
    case with its field stripped, an absent field read as empty; of the
    columns whose names agree in lower case the last one counts; a name no
    column has is absent; and every field found is free of surrounding
    white space. *)
Theorem loaded_row_lookup (before after : row) (key : str) (v : option str) :
  (forall kv, In kv after -> lower (fst kv) <> lower key) ->
  let loaded := RegisterDefaults.load_row (before ++ (key, v) :: after) in
  dict_get (lower key) loaded = Some (strip (RegisterDefaults.opt_or v []))
  /\ (forall k, (forall kv, In kv (before ++ (key, v) :: after) -> lower (fst kv) <> k) ->
                dict_get k loaded = None)
  /\ (forall k s, dict_get k loaded = Some s -> strip s = s).
Proof.
  intros Hafter loaded. subst loaded. split; [|split].
  - unfold RegisterDefaults.load_row. rewrite load_row_get_from.
    rewrite fold_left_app. cbn [fold_left fst snd].
    rewrite str_eqb_refl. now apply load_row_found_unchanged.
  - intros k Hk. unfold RegisterDefaults.load_row. rewrite load_row_get_from.
    now apply load_row_found_unchanged.
  - intros k s Hs. destruct (load_row_stripped _ _ Hs) as [v' ->].
    apply strip_by_idem.
Qed.

End LoadedRows.

Lemma loaded_row_lookup_witness :
  let loaded :=
    @RegisterDefaults.load_row ref_builtins
      ([ (lit "Name", Some (lit "first")) ]
         ++ (lit "NAME", Some (lit "  Total Active Power ")) :: [ (lit "Unit", None) ]) in
  dict_get (lit "name") loaded = Some (lit "Total Active Power")
  /\ dict_get (lit "unit") loaded = Some []
  /\ dict_get (lit "Name") loaded = None.
Proof.
  pose proof (@loaded_row_lookup ref_builtins
                [ (lit "Name", Some (lit "first")) ] [ (lit "Unit", None) ]
                (lit "NAME") (Some (lit "  Total Active Power "))) as H.
  cbv zeta in *.
  destruct H as (H1 & H2 & _).
  - intros kv [<- | []]. vm_compute. discriminate.
  - split; [exact H1|]. split; [vm_compute; reflexivity|].
    apply H2. intros kv [<- | [<- | [<- | []]]]; vm_compute; discriminate.
Defined.
